(** * Voice chatbot relay: shallow embedding and verified properties

    The development follows the Python sources file by file:
    - [tools.py]             : the payment-status tool;
    - [realtime_client.py]   : the upstream session client, its event loop and
                               the prompt builder;
    - [collekto_data_fetcher.py] : the REST customer-context resolver;
    - [server.py]            : call initiation, the session store and the
                               WebSocket gateway loop;
    - [app_gcp.py]           : the chat front-end's WebSocket client.

    Python objects are values of [pyval]; strings are their UTF-8 bytes;
    [bytes] objects are lists of [Byte.byte].  Code that can raise returns a
    [Result]; code with effects runs in a small state-and-exception monad over
    a [World] that records, in order, every call that leaves the process.

    The two tasks of a call (the gateway's receive loop and the client's
    event loop) are cooperative: one iteration of either loop is one step of
    the model, and the steps of the two loops interleave in any order. *)

From Stdlib Require Import ZArith NArith String Ascii List Bool Lia.
From Stdlib Require Import Strings.Byte Floats.SpecFloat.
From stdpp Require Import gmap strings list.

Set Warnings "-register-all".
Local Open Scope string_scope.

(** ** Exceptions and results *)

Inductive Exn : Set :=
| ValueError | KeyError | TypeError | AttributeError | NameError
| BinasciiError          (* binascii.Error, raised by base64.b64decode *)
| ConnectionError        (* the builtin ConnectionError (an OSError) *)
| AuthenticationError | APIError   (* collekto_data_fetcher's own classes *)
| RequestException       (* requests.exceptions.RequestException *)
| UpstreamError          (* raised by the realtime connection object *)
| WebSocketDisconnect.

Inductive Result (A : Type) : Type :=
| Ok (a : A)
| Raise (e : Exn).
Arguments Ok {A} a.
Arguments Raise {A} e.

#[global] Instance Result_ret : MRet Result := fun A a => Ok a.
#[global] Instance Result_bind : MBind Result := fun A B k r =>
  match r with Ok a => k a | Raise e => Raise e end.

(** ** Python values *)

Inductive pyval : Type :=
| PNone
| PBool (b : bool)
| PInt (z : Z)
| PFloat (f : spec_float)
| PStr (s : string)
| PList (l : list pyval)
| PTuple (l : list pyval)
| PDict (d : list (string * pyval)).   (* keys distinct, insertion order *)

(** [d.get(k)] on the items of a dict. *)
Fixpoint dict_get (d : list (string * pyval)) (k : string) : option pyval :=
  match d with
  | [] => None
  | (k', v) :: d' => if String.eqb k' k then Some v else dict_get d' k
  end.

(** [v[k]] for a string key [k]. *)
Definition subscript (v : pyval) (k : string) : Result pyval :=
  match v with
  | PDict d => match dict_get d k with Some x => Ok x | None => Raise KeyError end
  | _ => Raise TypeError
  end.

(** [v.get(k, default)]: only dicts have the method. *)
Definition py_get (v : pyval) (k : string) (default : pyval) : Result pyval :=
  match v with
  | PDict d => Ok (match dict_get d k with Some x => x | None => default end)
  | _ => Raise AttributeError
  end.

Definition isinstance_dict (v : pyval) : bool :=
  match v with PDict _ => true | _ => false end.

(** [v == 0]: numbers compare by value ([False] is the integer 0), every
    other object is different from 0. *)
Definition py_eq_zero (v : pyval) : bool :=
  match v with
  | PInt z => Z.eqb z 0
  | PBool b => negb b
  | PFloat (S754_zero _) => true
  | _ => false
  end.

(** [v == s] for a string [s]. *)
Definition py_eq_str (v : pyval) (s : string) : bool :=
  match v with PStr t => String.eqb t s | _ => false end.

(** Truthiness of an optional string read from the environment:
    [None] and the empty string are false. *)
Definition truthy (o : option string) : bool :=
  match o with Some (String _ _) => true | _ => false end.

(** ** Python string operations (on UTF-8 bytes) *)

Module PyStr.

Definition code (c : ascii) : N := N_of_ascii c.

(** Whitespace of [str.isspace]: the ASCII ones ... *)
Definition space1 (c : ascii) : bool :=
  let n := code c in
  ((9 <=? n) && (n <=? 13) || (28 <=? n) && (n <=? 32))%N.

(** ... U+0085 and U+00A0 ... *)
Definition space2 (c1 c2 : ascii) : bool :=
  ((code c1 =? 194) && ((code c2 =? 133) || (code c2 =? 160)))%N.

(** ... U+1680, U+2000..U+200A, U+2028, U+2029, U+202F, U+205F, U+3000. *)
Definition space3 (c1 c2 c3 : ascii) : bool :=
  let '(a, b, c) := (code c1, code c2, code c3) in
  ((a =? 225) && (b =? 154) && (c =? 128)
   || (a =? 226) && (b =? 128)
      && ((128 <=? c) && (c <=? 138) || (c =? 168) || (c =? 169) || (c =? 175))
   || (a =? 226) && (b =? 129) && (c =? 159)
   || (a =? 227) && (b =? 128) && (c =? 128))%N.

(** Drop the characters at the front that [p1], [p2], [p3] recognise
    (one, two and three bytes long). *)
Fixpoint strip_front (p1 : ascii -> bool) (p2 : ascii -> ascii -> bool)
    (p3 : ascii -> ascii -> ascii -> bool) (s : string) : string :=
  match s with
  | EmptyString => s
  | String c1 r1 =>
    if p1 c1 then strip_front p1 p2 p3 r1 else
    match r1 with
    | EmptyString => s
    | String c2 r2 =>
      if p2 c1 c2 then strip_front p1 p2 p3 r2 else
      match r2 with
      | EmptyString => s
      | String c3 r3 => if p3 c1 c2 c3 then strip_front p1 p2 p3 r3 else s
      end
    end
  end.

Definition lstrip (s : string) : string := strip_front space1 space2 space3 s.

(** The same from the end: UTF-8 is self-synchronising, so the encodings
    are matched on the reversed bytes. *)
Definition rstrip (s : string) : string :=
  String.rev
    (strip_front space1 (fun c2 c1 => space2 c1 c2)
                 (fun c3 c2 c1 => space3 c1 c2 c3) (String.rev s)).

(** [s.strip()] *)
Definition strip (s : string) : string := rstrip (lstrip s).

(** [bool(s)] *)
Definition nonempty (s : string) : bool :=
  match s with EmptyString => false | String _ _ => true end.

(** [s.lower()] on the ASCII letters.  Python also lower-cases letters
    above U+007F; none of them becomes one of the letters m, a, l, e. *)
Definition lower_char (c : ascii) : ascii :=
  let n := code c in
  if ((65 <=? n) && (n <=? 90))%N then ascii_of_N (n + 32) else c.

Fixpoint lower (s : string) : string :=
  match s with
  | EmptyString => EmptyString
  | String c r => String (lower_char c) (lower r)
  end.

(** [sub in s] *)
Fixpoint contains (sub s : string) : bool :=
  String.prefix sub s
  || match s with EmptyString => false | String _ r => contains sub r end.

(** The double-quote character. *)
Definition dq : string := String (ascii_of_nat 34) EmptyString.

End PyStr.

(** ** The [base64] library functions the relay uses *)

Module Base64.

(** The alphabet: value (below 64) to character ... *)
Definition b2a (v : N) : ascii :=
  ascii_of_N
    (if v <? 26 then v + 65            (* A..Z *)
     else if v <? 52 then v + 71       (* a..z *)
     else if v <? 62 then v - 4        (* 0..9 *)
     else if v =? 62 then 43           (* + *)
     else 47)%N.                       (* / *)

(** ... and back; [None] for a character outside the alphabet. *)
Definition a2b (c : ascii) : option N :=
  let n := N_of_ascii c in
  (if (65 <=? n) && (n <=? 90) then Some (n - 65)
   else if (97 <=? n) && (n <=? 122) then Some (n - 71)
   else if (48 <=? n) && (n <=? 57) then Some (n + 4)
   else if n =? 43 then Some 62
   else if n =? 47 then Some 63
   else None)%N.

Definition pad : ascii := ascii_of_nat 61.   (* = *)

Definition byte_of_N (n : N) : byte :=
  match Byte.of_N (n mod 256) with Some b => b | None => x00 end.

(** [base64.b64encode(bs).decode("utf-8")] *)
Fixpoint b64encode (bs : list byte) : string :=
  match bs with
  | [] => EmptyString
  | [b1] =>
    let n1 := Byte.to_N b1 in
    String (b2a (N.shiftr n1 2))
      (String (b2a (N.shiftl (N.land n1 3) 4))
         (String pad (String pad EmptyString)))
  | [b1; b2] =>
    let n1 := Byte.to_N b1 in
    let n2 := Byte.to_N b2 in
    String (b2a (N.shiftr n1 2))
      (String (b2a (N.lor (N.shiftl (N.land n1 3) 4) (N.shiftr n2 4)))
         (String (b2a (N.shiftl (N.land n2 15) 2))
            (String pad EmptyString)))
  | b1 :: b2 :: b3 :: rest =>
    let n1 := Byte.to_N b1 in
    let n2 := Byte.to_N b2 in
    let n3 := Byte.to_N b3 in
    String (b2a (N.shiftr n1 2))
      (String (b2a (N.lor (N.shiftl (N.land n1 3) 4) (N.shiftr n2 4)))
         (String (b2a (N.lor (N.shiftl (N.land n2 15) 2) (N.shiftr n3 6)))
            (String (b2a (N.land n3 63)) (b64encode rest))))
  end.

(** The decoding loop of [binascii.a2b_base64] in its default, lenient
    mode.  [quad_pos] counts the characters of the current group of four,
    [leftchar] holds the bits not yet written, [pads] counts padding
    characters seen since the last data character.  Characters outside the
    alphabet are skipped; a complete padding ends the decoding; input that
    ends inside a group is an error. *)
Fixpoint a2b_base64 (s : string) (quad_pos leftchar pads : N)
    : Result (list byte) :=
  match s with
  | EmptyString => if (quad_pos =? 0)%N then Ok [] else Raise BinasciiError
  | String c rest =>
    if Ascii.eqb c pad then
      if (2 <=? quad_pos)%N then
        if (4 <=? quad_pos + (pads + 1))%N then Ok []
        else a2b_base64 rest quad_pos leftchar (pads + 1)
      else a2b_base64 rest quad_pos leftchar pads
    else
      match a2b c with
      | None => a2b_base64 rest quad_pos leftchar pads
      | Some v =>
        if (quad_pos =? 0)%N then a2b_base64 rest 1 v 0
        else if (quad_pos =? 1)%N then
          out ← a2b_base64 rest 2 (N.land v 15) 0;
          mret (byte_of_N (N.lor (N.shiftl leftchar 2) (N.shiftr v 4)) :: out)
        else if (quad_pos =? 2)%N then
          out ← a2b_base64 rest 3 (N.land v 3) 0;
          mret (byte_of_N (N.lor (N.shiftl leftchar 4) (N.shiftr v 2)) :: out)
        else
          out ← a2b_base64 rest 0 0 0;
          mret (byte_of_N (N.lor (N.shiftl leftchar 6) v) :: out)
      end
  end.

Fixpoint is_ascii (s : string) : bool :=
  match s with
  | EmptyString => true
  | String c r => (N_of_ascii c <? 128)%N && is_ascii r
  end.

(** [base64.b64decode(s)] for a [str] argument: the string must be ASCII
    ([ValueError] otherwise), then the lenient decoding above. *)
Definition b64decode (s : string) : Result (list byte) :=
  if is_ascii s then a2b_base64 s 0 0 0 else Raise ValueError.

(** [base64.b64decode(v)] for any object: a string is decoded, anything
    else the relay can receive from JSON is not bytes-like. *)
Definition b64decode_obj (v : pyval) : Result (list byte) :=
  match v with
  | PStr s => b64decode s
  | _ => Raise TypeError
  end.

End Base64.

(** ** tools.py *)

Module tools.

Definition check_payment_status (DPD : pyval) : string :=
  if py_eq_zero DPD then "payment completed" else "payment not completed".

(** The name under which [tools_defined] declares the tool. *)
Definition tool_name : string := "check_payment_status".

End tools.

(** ** State and exceptions

    [ST S A] is a computation over a state [S] that returns an [A] or raises;
    the state reached is kept in both cases. *)

Definition ST (S A : Type) : Type := S -> Result A * S.

#[global] Instance ST_ret {S} : MRet (ST S) := fun A a s => (Ok a, s).
#[global] Instance ST_bind {S} : MBind (ST S) := fun A B k m s =>
  match m s with
  | (Ok a, s') => k a s'
  | (Raise e, s') => (Raise e, s')
  end.

Definition raise {S A} (e : Exn) : ST S A := fun s => (Raise e, s).
Definition lift {S A} (r : Result A) : ST S A := fun s => (r, s).
Definition get {S A} (f : S -> A) : ST S A := fun s => (Ok (f s), s).
Definition modify {S} (f : S -> S) : ST S unit := fun s => (Ok tt, f s).

(** [try: body  except Exception as e: handler e] *)
Definition try_except {S A} (body : ST S A) (handler : Exn -> ST S A) : ST S A :=
  fun s =>
    match body s with
    | (Ok a, s') => (Ok a, s')
    | (Raise e, s') => handler e s'
    end.

#[global] Instance Exn_eq_dec : EqDecision Exn.
Proof. solve_decision. Defined.

(** [try: body  except (E1, E2, ...) as e: handler e]: any other exception
    goes on to the caller. *)
Definition try_except_only {S A} (classes : list Exn) (body : ST S A)
    (handler : Exn -> ST S A) : ST S A :=
  try_except body
    (fun e => if bool_decide (e ∈ classes) then handler e else raise e).

(** ** The world outside the process

    Every call that leaves the Python code is appended to the [trace], in
    program order.  Each operation on the upstream realtime connection also
    consumes one entry of [faults]: [true] makes that operation raise. *)

(** Messages handed to the upstream connection. *)
Inductive ClientEvent : Type :=
| SessionUpdate (instructions : string)           (* session.update(session=config) *)
| InputAudioBufferAppend (audio : string)         (* input_audio_buffer.append *)
| InputAudioBufferCommit                          (* input_audio_buffer.commit *)
| ResponseCreate                                  (* response.create *)
| UserMessage (content : pyval)                   (* conversation.item.create, role user *)
| FunctionCallOutput (call_id output : string).   (* conversation.item.create *)

(** JSON frames the gateway writes to the client WebSocket. *)
Inductive ServerFrame : Type :=
| TextFrame (text : string)           (* {"kind": "Text", "text": text} *)
| AudioDataFrame (data : string)      (* {"kind": "AudioData", "data": data} *)
| StopAudioFrame.                     (* {"kind": "StopAudio"} *)

(** Methods of [RealtimeClient] whose invocation is recorded. *)
Inductive Method : Type :=
| append_input_audio_ (chunk : list byte)
| commit_audio_
| create_response_
| disconnect_.

Inductive Action : Type :=
| Call (m : Method)                       (* a RealtimeClient method is entered *)
| Handshake                               (* connection_manager.__aenter__() *)
| Teardown                                (* connection_manager.__aexit__(...) *)
| Send (m : ClientEvent)                  (* a message for the upstream model *)
| ToolCall (name : string) (DPD : pyval)  (* tools.<name>(DPD=...) *)
| WsSendJson (f : ServerFrame)            (* websocket.send_json(f) *)
| WsClose.                                (* websocket.close() *)

Module realtime_client.

(** The module-level settings [connect] reads. *)
Record Settings : Type := {
  AZURE_OPENAI_API_KEY : option string;
  AZURE_OPENAI_ENDPOINT : option string;
  AZURE_OPENAI_DEPLOYMENT : option string;
  AZURE_API_VERSION : option string
}.

(** The first two come from the environment, the others are literals. *)
Definition module_settings (api_key endpoint : option string) : Settings :=
  {| AZURE_OPENAI_API_KEY := api_key;
     AZURE_OPENAI_ENDPOINT := endpoint;
     AZURE_OPENAI_DEPLOYMENT := Some "gpt-4o-realtime-preview";
     AZURE_API_VERSION := Some "2025-04-01-preview" |}.

(** One entry of [chat_history]. *)
Record Message : Type := { role : string; content : string }.

(** One entry of [pending_tool_calls]. *)
Record PendingCall : Type := { name : string; call_id : string; arguments : pyval }.

(** The fields of a [RealtimeClient] object.  The two handlers are the
    gateway's [send_text] and [send_audio] closures when present. *)
Record RealtimeClient : Type := {
  connection : bool;              (* self.connection is not None *)
  connection_manager : bool;      (* self.connection_manager is not None *)
  connected : bool;
  audio_buffer : list (list byte);
  transcript : string;
  response_handler : bool;
  audio_handler : bool;
  chat_history : list Message;
  _responding : bool;
  customer_data : pyval;
  conversation_done : bool;
  instructions : string           (* self.config["instructions"] *)
}.

(** The state a call runs in: the client object, the local variable
    [pending_tool_calls] of [handle_response], whether that task is still
    consuming events, and the outside world. *)
Record World : Type := {
  client : RealtimeClient;
  pending_tool_calls : gmap string PendingCall;
  consuming : bool;
  trace : list Action;
  faults : list bool
}.

Definition with_client (f : RealtimeClient -> RealtimeClient) (w : World) : World :=
  {| client := f (client w); pending_tool_calls := pending_tool_calls w;
     consuming := consuming w; trace := trace w; faults := faults w |}.

Definition with_pending (f : gmap string PendingCall -> gmap string PendingCall)
    (w : World) : World :=
  {| client := client w; pending_tool_calls := f (pending_tool_calls w);
     consuming := consuming w; trace := trace w; faults := faults w |}.

Definition with_consuming (b : bool) (w : World) : World :=
  {| client := client w; pending_tool_calls := pending_tool_calls w;
     consuming := b; trace := trace w; faults := faults w |}.

Definition with_trace (t : list Action) (w : World) : World :=
  {| client := client w; pending_tool_calls := pending_tool_calls w;
     consuming := consuming w; trace := t; faults := faults w |}.

Definition with_faults (fs : list bool) (w : World) : World :=
  {| client := client w; pending_tool_calls := pending_tool_calls w;
     consuming := consuming w; trace := trace w; faults := fs |}.

(** Field updates of the client object. *)
Definition set_connection (b : bool) (c : RealtimeClient) : RealtimeClient :=
  {| connection := b; connection_manager := connection_manager c;
     connected := connected c; audio_buffer := audio_buffer c;
     transcript := transcript c; response_handler := response_handler c;
     audio_handler := audio_handler c; chat_history := chat_history c;
     _responding := _responding c; customer_data := customer_data c;
     conversation_done := conversation_done c; instructions := instructions c |}.

Definition set_connection_manager (b : bool) (c : RealtimeClient) : RealtimeClient :=
  {| connection := connection c; connection_manager := b;
     connected := connected c; audio_buffer := audio_buffer c;
     transcript := transcript c; response_handler := response_handler c;
     audio_handler := audio_handler c; chat_history := chat_history c;
     _responding := _responding c; customer_data := customer_data c;
     conversation_done := conversation_done c; instructions := instructions c |}.

Definition set_connected (b : bool) (c : RealtimeClient) : RealtimeClient :=
  {| connection := connection c; connection_manager := connection_manager c;
     connected := b; audio_buffer := audio_buffer c;
     transcript := transcript c; response_handler := response_handler c;
     audio_handler := audio_handler c; chat_history := chat_history c;
     _responding := _responding c; customer_data := customer_data c;
     conversation_done := conversation_done c; instructions := instructions c |}.

Definition set_audio_buffer (b : list (list byte)) (c : RealtimeClient) : RealtimeClient :=
  {| connection := connection c; connection_manager := connection_manager c;
     connected := connected c; audio_buffer := b;
     transcript := transcript c; response_handler := response_handler c;
     audio_handler := audio_handler c; chat_history := chat_history c;
     _responding := _responding c; customer_data := customer_data c;
     conversation_done := conversation_done c; instructions := instructions c |}.

Definition set_transcript (s : string) (c : RealtimeClient) : RealtimeClient :=
  {| connection := connection c; connection_manager := connection_manager c;
     connected := connected c; audio_buffer := audio_buffer c;
     transcript := s; response_handler := response_handler c;
     audio_handler := audio_handler c; chat_history := chat_history c;
     _responding := _responding c; customer_data := customer_data c;
     conversation_done := conversation_done c; instructions := instructions c |}.

Definition set_chat_history (h : list Message) (c : RealtimeClient) : RealtimeClient :=
  {| connection := connection c; connection_manager := connection_manager c;
     connected := connected c; audio_buffer := audio_buffer c;
     transcript := transcript c; response_handler := response_handler c;
     audio_handler := audio_handler c; chat_history := h;
     _responding := _responding c; customer_data := customer_data c;
     conversation_done := conversation_done c; instructions := instructions c |}.

Definition set_responding (b : bool) (c : RealtimeClient) : RealtimeClient :=
  {| connection := connection c; connection_manager := connection_manager c;
     connected := connected c; audio_buffer := audio_buffer c;
     transcript := transcript c; response_handler := response_handler c;
     audio_handler := audio_handler c; chat_history := chat_history c;
     _responding := b; customer_data := customer_data c;
     conversation_done := conversation_done c; instructions := instructions c |}.

Definition set_conversation_done (b : bool) (c : RealtimeClient) : RealtimeClient :=
  {| connection := connection c; connection_manager := connection_manager c;
     connected := connected c; audio_buffer := audio_buffer c;
     transcript := transcript c; response_handler := response_handler c;
     audio_handler := audio_handler c; chat_history := chat_history c;
     _responding := _responding c; customer_data := customer_data c;
     conversation_done := b; instructions := instructions c |}.

Abbreviation M := (ST World).

Definition log (a : Action) : M unit :=
  modify (fun w => with_trace (trace w ++ [a]) w).

(** An operation on the upstream connection: recorded, then it returns or
    raises as the next fault says. *)
Definition next_fault : M unit := fun w =>
  match faults w with
  | [] => (Ok tt, w)
  | false :: fs => (Ok tt, with_faults fs w)
  | true :: fs => (Raise UpstreamError, with_faults fs w)
  end.

Definition upstream (a : Action) : M unit :=
  _ ← log a;
  next_fault.

(** *** Methods of [RealtimeClient] *)

Definition is_connected : M bool := get (fun w => connected (client w)).

Definition disconnect : M unit :=
  _ ← log (Call disconnect_);
  mgr ← get (fun w => connection_manager (client w));
  _ ← (if mgr : bool
       then try_except (upstream Teardown) (fun _ => mret tt)
       else mret tt);
  modify (with_client (set_connected false)).

Definition connect (cfg : Settings) : M bool :=
  try_except
    (if negb (truthy (AZURE_OPENAI_ENDPOINT cfg))
        || negb (truthy (AZURE_OPENAI_API_KEY cfg))
        || negb (truthy (AZURE_API_VERSION cfg))
        || negb (truthy (AZURE_OPENAI_DEPLOYMENT cfg))
     then raise ValueError
     else
       mgr ← get (fun w => connection_manager (client w));
       _ ← (if mgr : bool then disconnect else mret tt);
       _ ← modify (with_client (set_connection_manager true));
       _ ← upstream Handshake;
       _ ← modify (with_client (set_connection true));
       instr ← get (fun w => instructions (client w));
       _ ← upstream (Send (SessionUpdate instr));
       _ ← modify (with_client (set_connected true));
       (* asyncio.create_task(self.handle_response(self.connection)) *)
       _ ← modify (fun w => with_consuming true (with_pending (fun _ => ∅) w));
       mret true)
    (fun e =>
       _ ← modify (with_client (set_connected false));
       raise e).

Definition append_input_audio (chunk : list byte) : M unit :=
  _ ← log (Call (append_input_audio_ chunk));
  conn ← get (fun w => connection (client w));
  if conn : bool
  then upstream (Send (InputAudioBufferAppend (Base64.b64encode chunk)))
  else mret tt.

Definition commit_audio : M unit :=
  _ ← log (Call commit_audio_);
  conn ← get (fun w => connection (client w));
  if conn : bool then upstream (Send InputAudioBufferCommit) else mret tt.

Definition create_response : M unit :=
  _ ← log (Call create_response_);
  c ← get client;
  if connection c && negb (_responding c)
  then try_except
         (_ ← modify (with_client (set_responding true));
          upstream (Send ResponseCreate))
         (fun _ => modify (with_client (set_responding false)))
  else mret tt.

(** [bool(v)] *)
Definition py_truthy (v : pyval) : bool :=
  match v with
  | PNone => false
  | PBool b => b
  | PInt z => negb (Z.eqb z 0)
  | PFloat (S754_zero _) => false
  | PFloat _ => true
  | PStr s => PyStr.nonempty s
  | PList l | PTuple l => match l with [] => false | _ => true end
  | PDict d => match d with [] => false | _ => true end
  end.

Definition send_user_message_content (content : pyval) : M bool :=
  conn ← get (fun w => connection (client w));
  _ ← (if py_truthy content && conn
       then upstream (Send (UserMessage content))
       else mret tt);
  _ ← create_response;
  mret true.

Definition get_chat_history : M (list Message) :=
  get (fun w => chat_history (client w)).

Definition is_conversation_done : M bool :=
  get (fun w => conversation_done (client w)).

(** *** Events of the upstream stream

    One constructor per [event.type] that [handle_response] tells apart. *)

Record Item : Type := {
  item_type : option string;     (* getattr(event.item, "type", None) *)
  item_call_id : string;
  item_name : string
}.

Inductive Event : Type :=
| error
| input_audio_transcription_completed (transcript : string)
| response_audio_delta (delta : string)
| response_text_delta (delta : string)
| response_audio_transcript_delta (delta : string)
| response_done
| response_output_item_added (item : Item)
| response_function_call_arguments_done (call_id : string)
| other_event (type : string).

(** The termination marker the prompt asks the model to emit. *)
Definition END_CONVERSATION : string := "[END_CONVERSATION]".

(** [json.dumps(s)] for a string of printable ASCII characters: quotes
    around it, with the quote and the backslash escaped. *)
Fixpoint json_escape (s : string) : string :=
  match s with
  | EmptyString => EmptyString
  | String c r =>
    if (N_of_ascii c =? 34)%N || (N_of_ascii c =? 92)%N
    then String (ascii_of_nat 92) (String c (json_escape r))
    else String c (json_escape r)
  end.

Definition json_dumps (s : string) : string :=
  PyStr.dq ++ json_escape s ++ PyStr.dq.

(** *** The handlers the gateway installs (server.py, closures of
    [websocket_endpoint]); both swallow their own exceptions. *)

Definition send_text (text : string) : M unit :=
  log (WsSendJson (TextFrame text)).

Definition send_audio (audio_bytes : list byte) : M unit :=
  log (WsSendJson (AudioDataFrame (Base64.b64encode audio_bytes))).

(** *** The event loop [handle_response] *)

Definition append_history (m : Message) : M unit :=
  modify (with_client (fun c => set_chat_history (chat_history c ++ [m]) c)).

(** The dispatch on [call["name"]] inside the loop. *)
Definition dispatch (tool : string) (args : pyval) : M string :=
  if String.eqb tool "check_payment_status" then
    DPD ← (if isinstance_dict args
           then lift (py_get args "DPD" (PInt 0))
           else mret (PInt 0));
    _ ← log (ToolCall tools.tool_name DPD);
    mret (tools.check_payment_status DPD)
  else mret "Unknown tool".

(** The body of [async for event in connection]. *)
Definition on_event (event : Event) : M unit :=
  match event with
  | error => mret tt
  | input_audio_transcription_completed transcript =>
    let user_transcript := PyStr.strip transcript in
    if PyStr.nonempty user_transcript then
      _ ← append_history {| role := "user"; content := user_transcript |};
      (* await asyncio.sleep(0.1) *)
      create_response
    else mret tt
  | response_audio_delta delta =>
    h ← get (fun w => audio_handler (client w));
    if h : bool then
      audio_bytes ← lift (Base64.b64decode delta);
      send_audio audio_bytes
    else mret tt
  | response_text_delta delta | response_audio_transcript_delta delta =>
    modify (with_client (fun c => set_transcript (transcript c ++ delta) c))
  | response_done =>
    text ← get (fun w => PyStr.strip (transcript (client w)));
    if PyStr.nonempty text then
      let assistant_message := {| role := "assistant"; content := text |} in
      _ ← append_history assistant_message;
      h ← get (fun w => response_handler (client w));
      _ ← (if h : bool then send_text text else mret tt);
      _ ← modify (with_client (set_conversation_done
             (PyStr.contains END_CONVERSATION (content assistant_message))));
      _ ← modify (with_client (set_transcript EmptyString));
      _ ← modify (with_client (set_audio_buffer []));
      modify (with_client (set_responding false))
    else mret tt
  | response_output_item_added item =>
    if bool_decide (item_type item = Some "function_call") then
      let cid := item_call_id item in
      modify (with_pending
        (<[cid := {| name := item_name item; call_id := cid; arguments := PDict [] |}]>))
    else mret tt
  | response_function_call_arguments_done cid =>
    pending ← get pending_tool_calls;
    match pending !! cid with
    | None => mret tt
    | Some entry =>
      args ← get (fun w => customer_data (client w));
      let call := {| name := name entry; call_id := call_id entry; arguments := args |} in
      _ ← modify (with_pending (<[cid := call]>));
      result ← dispatch (name call) args;
      (* the log line evaluates args.get('DPD', 0) once more *)
      _ ← lift (py_get args "DPD" (PInt 0));
      _ ← upstream (Send (FunctionCallOutput cid (json_dumps result)));
      _ ← upstream (Send ResponseCreate);
      modify (with_pending (delete cid))
    end
  | other_event _ => mret tt
  end.

(** One iteration of the loop: nothing is consumed once the task has
    returned; an exception is logged and ends the task. *)
Definition deliver (event : Event) (w : World) : World :=
  if consuming w then
    match on_event event w with
    | (Ok _, w') => w'
    | (Raise _, w') => with_consuming false w'
    end
  else w.

Definition handle_response (events : list Event) (w : World) : World :=
  fold_left (fun w event => deliver event w) events w.

(** *** The prompt builder

    The fixed text of the f-string of [get_system_prompt], cut at its
    thirteen placeholders; a double quote of the text is written [PyStr.dq]. *)

Definition script_opening : string :=
  String.concat PyStr.dq
    ["

    System Prompt (Bot Instructions)
    You are a professional female voice bot calling on behalf of L&T Finance for Bucket - X Customers. 
    Your primary goal is to remind customers about their upcoming EMI payments, encourage timely payments, 
    and handle customer queries or objections effectively. Ensure a polite, professional, 
    and empathetic tone while following the structured conversation flow. Adapt to different customer 
    responses and provide clear payment instructions. 

    The customer is a Hindi speaker, so use Hindi for the conversation. 
    Use simple Hindi and commonly spoken English words for better customer engagement.
    After each sttatement, wait for the customer to respond.

    Your key objectives are:
        Verify the customer’s identity.
        Mention that payment is delayed and understand the reason for payment delay.
        Provide alternate solutions for payment.
        Explain the consequences of non-payment.
        Encourage the customer to make the payment.
        Provide payment options and assist with the payment process.
        Maintain a polite and professional tone throughout the conversation.
        
    You have the following tools at your disposal - check_payment_status. Use it when the customer says that they have already done the payment.
    When customer says that the payment is already completed, then invoke check_payment_status tool. 
    If the tool returns ";
     "Payment completed";
     " as output, then agree that the customer is corrent, and proceed towards ending the call.
    If the tool returns ";
     "Payment not completed";
     ", then politely inform the customer that the payment is not completed and proceed with the conversation.

        CUSTOMER DETAILS (USE THESE IN CONVERSATION):
        - Customer Name: "].

Definition script_flow : string :=
  String.concat PyStr.dq
    [" se kya sambandh hai?
         Ask if they are aware of the loan:
             If yes: Kya aap unke 2-Wheeler loan ke baare mein jaante hai?
             If the person is aware of the loan: Proceed with the call.
             If the person is unaware: Kya mujhe customer ka koi alternate contact mil sakta hai? Aur unhe call karne ka acha samay kya hoga?
         If YES: Proceed with the call

     3. Purpose of Call
         Purpose: Yeh call aapke L&T Finance ke two-wheeler loan ki EMI payment ke sambandh mein hai.

         1. EMI Reminder & Reason for Delay
         Aapki teen hazzar panch so rupee ki EMI due hai jo abhi tak pay nahi hui hai. 
         Kya aap bata sakte hain ki payment mein deri ka kya karan hai?

         2. If customer tells the reason for delay: 
             a. Empathise on the reason. 
             b. If it's medical related, ask if this is the right time to talk. If not, ask for alternate time and end this call. 
             c. If you proceed with the call - 
                 Mention the due date and charges
                 a. Due Date: - aapki EMI 3rd ko due thi, aaj already 5 tareek ho chuki hai.
                 b. Bounce Charges: - Rs. 500/- Mention on every call. 
                 c. Penalty Charges: - 2% late penalty charges on the EMI amount on a pro-rata basis.

         3. If the customer doesn't give proper reasoning – Further Probing:
             a. Kya main jaan sakta hoon ki aap salaried hain ya business chalate hain?
             b. Aap kis din apni current month ki EMI pay karne ka plan kar rahe hain?
             c. Jo date aapne batayi hai, us din aap funds kaise manage karenge, kya aap thoda sa idea de sakte hain?


         4. If customer rejects to make the payment: 
             Explain the consequences – If payment is not done on time, credit record will get affected. You may face challenges in acquiring new loans.
             Say something like:
             a. Aapke account pr already 3 baar bounce ke charges lge hue hai. Ye aapka penalty amount badta hi jaa rha hai.  
             b. Payment na krne pr aapka cibil score kharab ho jaega, jo aapke liye naye loans ya credit cards lene mein mushkil kar sakta hai.
             c. Agr aage chal kr kuch problem aayi, and aapko loan lene ki jroort hui. Pr cibil score kharab hone ki wajah se aapko naye loan lene mein dikkat aa sakti hai.

             Provide alternate solutions:
                 a. Kya aap apne kisi rishtedaar ya dost se temporary support le sakte hain?
                 b. Kya aap apni savings jaise Fixed Deposit ya Recurring Deposit se fund arrange kar sakte hain?
                 c. Agar aap salaried hain toh advance salary ka option explore kiya ja sakta hai; agar aap self-employed hain toh colleagues ya business savings se support mil sakta hai.
                 d. Aapke kisi investment jaise Shares, Mutual Funds, ya Debentures se bhi fund arrange karne ka vikalp ho sakta hai.


         5. If customer agrees to make the payment:
         Thank you Sir, Toh aap payment kaise karna chaahenge? (Pitch Digital mode first - ";
     "Kya Aap online payment kr skte hai abhi?";
     ") 
             1. If customer agrees for online payment-
                 Priority 1: Planet App - 
                 ";
     "Kya aapke pass LTFS Planet App hai?";
     " Wait for the customer to respond
                 Ask if the customer has downloaded the PLANET App. Wait for the customer to respond. 
                     If yes: Thank the customer.
                     If no: Pitch the app: Ask them to download ";
     "LTFS – PLANET App";
     " from the Play Store/App Store using their smartphone.
                 Mention “Quick Pay” Option: (Don't mention everything at once, mention it step by step and wait for the customer to respond)
                     Guide the customer to click on the “Quick Pay” option in the app.
                     Inform them that even an unregistered mobile number can be used to log in/download.
                     Explain Payment Options: Once on “Quick Pay,” the customer will see options like: Debit Card / Net Banking / Wallets / UPI
                     Reassure on Payment Confirmation: Inform them that payments made through the app will be updated in LTFS records within 30 minutes.
    
                 Example:
                 Sir, kya aapne PLANET App download kiya hua hai?
                 Agar haan:
                 Shukriya! ab aap uspr 'Quick Pay' option par click karein. Waha aapko kai payment options milenge jaise Debit Card, Net Banking, Wallets ya UPI. Aap ko jo best lg rha usse payment kr dijiye.
                 Payment karne ke baad woh 30 minutes ke andar LTFS ke records mein reflect ho jaayega.
                 Kya aapka payment hogya? 

                 Agar nahi:
                 Kripya apne smartphone mein “LTFS - PLANET App” download karein Play Store ya App Store se. Wait for customer to respond and download. 
                 And ask again if he has downloaded the app? Once done, proceed as before. 
    

             2. Priority 2 – Alternate Payment Modes - Pitch for Payment Link / BBPS / Website / NEFT / RTGS / Paytm
                 a. If customer is not able to download the app, ask them to use the payment link. Go below steps by steps, waiting for customer to respond. 
                     1. Share the payment link via SMS or WhatsApp.
                     2. Ask the customer to click the link. It will open multiple payment options: Debit Card, Net Banking, UPI, Wallet
                     3. Also suggest visiting the L&T Financial Services website and using the Quick Pay feature.
                     4. For NEFT/RTGS, share bank details (if applicable).
                     5. Request the customer to share the transaction ID once payment is done (for internal reference only).

                 Example:
                 Sir, aapke number par ek payment link bheja jaa raha hai.
                 Kripya us link par click karein, wahan aapko kai options milenge jaise Debit Card, Net Banking, UPI ya Wallets.
                 Aap www.ltfs.com par jaakar bhi “Quick Pay” ka use karke payment kar sakte hain.
                 Payment ke baad, kripya transaction ID share kar dein for record purpose.

             3. If Customer Does not agree for online payment: - Convince the customer and inform the benefits of online payment. If customer still does not agree.
                 Pitch for PRO payment options i.e., Airtel Payments bank / FINO / Pay World / PayU / Pay nearby & ITZ
                 Example : 
                 Sir, online payment se aapka time bachega aur payment turant confirm ho jaata hai.
                 Agar aap chahein toh aap nearby PRO payment centres jaise Airtel Payments Bank, FINO, Pay World, ya PayNearby ka use kar sakte hain. Wahaan se bhi aap asaani se payment kar sakte hain.

             4. If customer wants to visit the branch: 
                 Ask which branch the customer wants to visit.
                 Confirm the branch location and share the correct address if needed.
                 Example:
                 Sir, agar aap branch visit karna chahte hain toh kripya mujhe batayein kaunsi branch mein jaana chaahenge?
                 Main aapko us branch ka sahi location confirm kar deta hoon.


         8. If not ready to pay on the same call, Record the PTP date.
         Sir, please aap diye gaye date par payment krne ki koshish karein.

         9. Take additional details from customer before closing the call.
             1. Confirm the Vehicle User Status - ask the customer to confirm who is currently using the vehicle.
             Sir, kripya batayein ki gaadi ka istemal kaun kar raha hai?

             2. Confirm if there is any alternate contact number available.
             Kya aapka koi aur contact number hai jo aap file mein add krna chahte hai?

         10. Before ending the conversation, reply with appropriate closing statements.

         11. Wait for user's reply. 
         
         12. If the user doesn't ask anything or replies with closing argument (like - okay, thank you, theek hai etc.), end the conversation politely. End the whole conversation with the phrase [END_CONVERSATION]
    "].

Definition system_prompt (name gender salutation formatted_emi loan_type
    formatted_date : string) : string :=
  String.concat EmptyString
    [script_opening;
     name;
     "
        - Gender: ";
     gender;
     "
        - Salutation: ";
     salutation;
     "
        - EMI Amount Due: ₹";
     formatted_emi;
     "
        - Loan Type: ";
     loan_type;
     "

         IMPORTANT: Always use these specific details in your conversation:
         - Always address the customer as ";
     salutation;
     " ";
     name;
     "
         - Mention the exact EMI amount: ₹";
     formatted_emi;
     "
         - Reference the specific due date: ";
     formatted_date;
     "

     2. Start your conversation with Customer Verification
         Kya meri baat ";
     salutation;
     " ";
     name;
     " se ho rahi hai? Wait for customer to respond. 
         If Nahi: Kya main jaan sakti hoon ki aapka ";
     salutation;
     " ";
     name;
     script_flow].

(** Number and object formatting the prompt builder relies on and this
    development leaves open. *)
Class Formatting : Type := {
  (** ["{:,.2f}".format(float(v))], which raises for what [float] rejects *)
  format_amount : pyval -> Result string;
  (** [str(v)] for an object that is not a string *)
  str_object : pyval -> string
}.

(** What an f-string placeholder prints for [v]. *)
Definition py_format `{Formatting} (v : pyval) : string :=
  match v with PStr s => s | _ => str_object v end.

(** [gender.lower()]: only strings have the method. *)
Definition py_lower (v : pyval) : Result string :=
  match v with PStr s => Ok (PyStr.lower s) | _ => Raise AttributeError end.

(** ["Mr." if gender.lower() == "male" else "Ms."] *)
Definition salutation_for (gender : pyval) : Result string :=
  lowered ← py_lower gender;
  mret (if String.eqb lowered "male" then "Mr." else "Ms.").

Definition get_system_prompt `{Formatting} (customer : pyval) : Result string :=
  name ← subscript customer "Debtor_Name";
  gender ← subscript customer "Gender";
  emi ← subscript customer "EMI_Amount";
  due_date ← subscript customer "Payment_Due_Date";
  loan_type ← subscript customer "Product";
  formatted_emi ← format_amount emi;
  let formatted_date := due_date in
  salutation ← salutation_for gender;
  mret (system_prompt (py_format name) (py_format gender) salutation
          formatted_emi (py_format loan_type) (py_format formatted_date)).

(** [RealtimeClient(response_handler, audio_handler, session_data=...)] *)
Definition init `{Formatting} (response_handler audio_handler : bool)
    (session_data : pyval) : Result RealtimeClient :=
  _ ← subscript session_data "Debtor_Name";
  prompt ← get_system_prompt session_data;
  mret {| connection := false; connection_manager := false; connected := false;
          audio_buffer := []; transcript := EmptyString;
          response_handler := response_handler; audio_handler := audio_handler;
          chat_history := []; _responding := false;
          customer_data := session_data; conversation_done := false;
          instructions := prompt |}.

End realtime_client.

(** ** collekto_data_fetcher.py *)

Module collekto_data_fetcher.

(** The requests the module makes. *)
Inductive Request : Type :=
| post_authenticate (username : option string) (encrypted_password : string)
| get_loan (token : pyval) (loan_id : string)
| get_case_history (token : pyval) (loan_id : string).

(** What [requests] hands back: the status and the outcome of [.json()]. *)
Record Response : Type := {
  status_code : Z;
  json : Result pyval
}.

(** [response.raise_for_status()] raises for 4xx and 5xx; [response.ok]
    is its negation. *)
Definition is_error (r : Response) : bool :=
  (400 <=? status_code r)%Z && (status_code r <? 600)%Z.
Definition ok (r : Response) : bool := negb (is_error r).

(** The state of one [run_ltfs_flow] call: the backend's replies still to
    come (a [Raise] is an exception of [requests] itself), the requests made
    so far, and the two local variables of the flow. *)
Record Flow : Type := {
  replies : list (Result Response);
  requests : list Request;
  loan_data : pyval;
  disposition_data : pyval
}.

Definition set_loan_data (v : pyval) (f : Flow) : Flow :=
  {| replies := replies f; requests := requests f;
     loan_data := v; disposition_data := disposition_data f |}.

Definition set_disposition_data (v : pyval) (f : Flow) : Flow :=
  {| replies := replies f; requests := requests f;
     loan_data := loan_data f; disposition_data := v |}.

(** One HTTP exchange; with no reply left the request fails in transport. *)
Definition http (q : Request) : ST Flow Response := fun f =>
  match replies f with
  | [] =>
    (Raise RequestException,
     {| replies := []; requests := requests f ++ [q];
        loan_data := loan_data f; disposition_data := disposition_data f |})
  | r :: rs =>
    (r, {| replies := rs; requests := requests f ++ [q];
           loan_data := loan_data f; disposition_data := disposition_data f |})
  end.

(** AES-ECB under [constants.RAW_KEY] with PKCS7 padding, then Base64. *)
Class Cipher : Type := aes_ecb_base64 : string -> string.

(** [raw_password.encode("utf-8")] needs a string. *)
Definition _encrypt_password `{Cipher} (raw_password : option string) : Result string :=
  match raw_password with
  | Some p => Ok (aes_ecb_base64 p)
  | None => Raise AttributeError
  end.

Definition authenticate `{Cipher} (username password : option string) : ST Flow pyval :=
  encrypted_password ← lift (_encrypt_password password);
  response ← http (post_authenticate username encrypted_password);
  if negb (ok response) then raise AuthenticationError
  else
    try_except_only [ValueError; KeyError]
      (data ← lift (json response);
       lift (d ← subscript data "data";
             a ← subscript d "authenticationResult";
             subscript a "bdInfoGHKey_1000"))
      (fun _ => raise AuthenticationError).

Definition get_loan_by_id (token : pyval) (loan_id : string) : ST Flow pyval :=
  response ← http (get_loan token loan_id);
  if is_error response then raise APIError
  else lift (json response).

Definition get_disposition_by_id (token : pyval) (loan_id : string) : ST Flow pyval :=
  response ← http (get_case_history token loan_id);
  if is_error response then raise APIError
  else lift (json response).

(** The module never binds these two names (their assignments are
    commented out), so evaluating them raises. *)
Definition LOAN_ID : Result string := Raise NameError.
Definition CASE_LOAN_ID : Result string := Raise NameError.

(** [USERNAME] and [PASSWORD] are the module's own defaults, read from the
    environment. *)
Definition run_ltfs_flow `{Cipher} (USERNAME PASSWORD : option string)
    (username password : option string) (loan_id case_loan_id : string)
    : ST Flow pyval :=
  _ ← modify (set_loan_data (PList []));
  _ ← modify (set_disposition_data (PList []));
  _ ← try_except_only [AuthenticationError; APIError]
        (token ← authenticate username password;
         loan ← get_loan_by_id token loan_id;
         _ ← modify (set_loan_data loan);
         disposition ← get_disposition_by_id token case_loan_id;
         modify (set_disposition_data disposition))
        (fun err1 =>
           try_except_only [AuthenticationError; APIError]
             (token ← authenticate USERNAME PASSWORD;
              default_loan_id ← lift LOAN_ID;
              loan ← get_loan_by_id token default_loan_id;
              _ ← modify (set_loan_data loan);
              default_case_id ← lift CASE_LOAN_ID;
              disposition ← get_disposition_by_id token default_case_id;
              modify (set_disposition_data disposition))
             (fun err2 => mret tt));
  f ← get (fun f => f);
  mret (PTuple [loan_data f; disposition_data f]).

End collekto_data_fetcher.

(** ** server.py *)

Module server.

Import realtime_client.

(** The request model of [/start-call]. *)
Record CallInitiateModel : Type := {
  customer_name : string;
  system_id : string;
  loan_id : string;
  due_date : string;
  due_amount : spec_float;
  product : string
}.

(** The response model: the six fields of the request are echoed one by
    one ([echoed]) and the request is returned whole ([initiate]). *)
Record CallSessionResponseModel : Type := {
  call_id : string;
  created_at : string;
  status : string;
  echoed : CallInitiateModel;
  initiate : CallInitiateModel
}.

(** One entry of [session_store]; [customer] holds the six request fields. *)
Record CallSession : Type := {
  customer : CallInitiateModel;
  call_metadata : pyval;
  disposition : pyval
}.

Definition set_call_metadata (v : pyval) (s : CallSession) : CallSession :=
  {| customer := customer s; call_metadata := v; disposition := disposition s |}.

(** [isinstance(v, float) and math.isnan(v)] *)
Definition is_nan (v : pyval) : bool :=
  match v with PFloat S754_nan => true | _ => false end.

(** [clean_nans(d)] on the items of a dict: a float that is NaN becomes
    [None], everything else is kept. *)
Definition clean_nans (d : list (string * pyval)) : list (string * pyval) :=
  map (fun kv => (fst kv, if is_nan (snd kv) then PNone else snd kv)) d.

(** What [pd.read_csv] loads: the header and one dict per row. *)
Record DataFrame : Type := {
  columns : list string;
  rows : list (list (string * pyval))
}.

(** The process environment the two modules read at import. *)
Record Environ : Type := {
  COLLEKTO_USERNAME : option string;      (* server.USERNAME *)
  COLLEKTO_PASSWORD : option string;      (* server.PASSWORD *)
  MOCK_COLLEKTO_API : option string;      (* server.MOCK_MODE *)
  USERNAME : option string;               (* collekto_data_fetcher.USERNAME *)
  PASSWORD : option string                (* collekto_data_fetcher.PASSWORD *)
}.

(** The state of the HTTP side of the server: the store, what reading
    [data.csv] gives, the REST backend, and the self-connect tasks made. *)
Record Server : Type := {
  session_store : gmap string CallSession;
  data_csv : Result DataFrame;
  backend : collekto_data_fetcher.Flow;
  tasks : list string
}.

Definition with_store (f : gmap string CallSession -> gmap string CallSession)
    (s : Server) : Server :=
  {| session_store := f (session_store s); data_csv := data_csv s;
     backend := backend s; tasks := tasks s |}.

Definition with_tasks (f : list string -> list string) (s : Server) : Server :=
  {| session_store := session_store s; data_csv := data_csv s;
     backend := backend s; tasks := f (tasks s) |}.

(** Run a computation of the fetcher on the server's backend. *)
Definition on_backend {A} (m : ST collekto_data_fetcher.Flow A) : ST Server A :=
  fun s =>
    let (r, f) := m (backend s) in
    (r, {| session_store := session_store s; data_csv := data_csv s;
           backend := f; tasks := tasks s |}).

(** [df[column]]: the column must be in the header. *)
Definition has_column (df : DataFrame) (column : string) : Result unit :=
  if bool_decide (column ∈ columns df) then Ok tt else Raise KeyError.

(** One row of the mask [(df['Loan_ID'] == loan_id) & (df['system_id'] == system_id)]. *)
Definition row_matches (loan_id system_id : string) (row : list (string * pyval)) : bool :=
  match dict_get row "Loan_ID", dict_get row "system_id" with
  | Some l, Some s => py_eq_str l loan_id && py_eq_str s system_id
  | _, _ => false
  end.

Definition fetch_additional_customer_info (loan_id system_id : string) : ST Server pyval :=
  try_except
    (df ← (fun s => (data_csv s, s));
     _ ← lift (has_column df "Loan_ID");
     _ ← lift (has_column df "system_id");
     let matched_rows := List.filter (row_matches loan_id system_id) (rows df) in
     match matched_rows with
     | row :: _ => mret (PDict row)
     | [] => mret (PDict [])
     end)
    (fun _ => mret (PDict [])).

(** [start_call(data)]; [now] and [call_id] are the timestamp and the
    UUID the handler draws.  [Ok] is the 200 response, [Raise] is what
    the framework turns into a server error. *)
Definition start_call `{collekto_data_fetcher.Cipher} (env : Environ)
    (now call_id : string) (data : CallInitiateModel)
    : ST Server CallSessionResponseModel :=
  _ ← modify (with_store
        (<[call_id := {| customer := data; call_metadata := PDict [];
                         disposition := PDict [] |}]>));
  more_info ← (if truthy (MOCK_COLLEKTO_API env)
               then fetch_additional_customer_info (loan_id data) (system_id data)
               else on_backend
                      (collekto_data_fetcher.run_ltfs_flow (USERNAME env) (PASSWORD env)
                         (COLLEKTO_USERNAME env) (COLLEKTO_PASSWORD env)
                         (loan_id data) (system_id data)));
  let cleaned_data := more_info in
  _ ← modify (with_store (alter (set_call_metadata cleaned_data) call_id));
  (* asyncio.create_task(connect_websocket(call_id)) *)
  _ ← modify (with_tasks (fun t => (t ++ [call_id])%list));
  mret {| call_id := call_id; created_at := now; status := "COMPLETED";
          echoed := data; initiate := data |}.

(** *** The WebSocket gateway *)

(** What [websocket.receive_text()] followed by [json.loads] gives. *)
Inductive Received : Type :=
| closed                              (* WebSocketDisconnect *)
| message (payload : Result pyval).   (* the parsed frame, or ValueError *)

(** The body of the receive loop; the result says whether it breaks. *)
Definition on_frame (msg : Result pyval) : M bool :=
  payload ← lift msg;
  kind ← lift (py_get payload "kind" PNone);
  _ ← (if py_eq_str kind "AudioData" then
         audio_bytes ← lift (data ← subscript payload "data"; Base64.b64decode_obj data);
         append_input_audio audio_bytes
       else if py_eq_str kind "StopAudio" then
         _ ← commit_audio;
         create_response
       else mret tt);
  done ← is_conversation_done;
  if done : bool then
    _ ← log (WsSendJson StopAudioFrame);
    _ ← log WsClose;
    mret true
  else mret false.

(** A call in progress: the client's world and whether the receive loop
    is still running. *)
Record Gateway : Type := {
  world : World;
  receiving : bool
}.

(** [finally: await client.disconnect()], its own errors swallowed. *)
Definition cleanup (w : World) : Gateway :=
  {| world := snd (try_except disconnect (fun _ => mret tt) w); receiving := false |}.

(** One iteration of [while True]. *)
Definition receive (r : Received) (g : Gateway) : Gateway :=
  if receiving g then
    match r with
    | closed => cleanup (world g)
    | message msg =>
      match on_frame msg (world g) with
      | (Ok false, w) => {| world := w; receiving := true |}
      | (Ok true, w) => cleanup w
      | (Raise _, w) => cleanup w
      end
    end
  else g.

(** The two tasks of a call take turns: a step is a frame from the client
    or an event from the upstream model. *)
Inductive Input : Type :=
| from_client (r : Received)
| from_upstream (event : Event).

Definition step (g : Gateway) (i : Input) : Gateway :=
  match i with
  | from_client r => receive r g
  | from_upstream event =>
    {| world := deliver event (world g); receiving := receiving g |}
  end.

Definition run (inputs : list Input) (g : Gateway) : Gateway :=
  fold_left step inputs g.

(** [websocket_endpoint] up to the loop: the client is built from the
    stored metadata and connected; an exception here leaves the handler. *)
Definition websocket_endpoint `{Formatting} (cfg : Settings)
    (store : gmap string CallSession) (call_id : string) (faults : list bool)
    : Result Gateway :=
  session ← match store !! call_id with Some s => Ok s | None => Raise KeyError end;
  c ← init true true (call_metadata session);
  let w0 := {| client := c; pending_tool_calls := ∅; consuming := false;
               trace := []; faults := faults |} in
  match connect cfg w0 with
  | (Ok _, w) => Ok {| world := w; receiving := true |}
  | (Raise e, _) => Raise e
  end.

End server.

(** ** app_gcp.py: the chat front-end's WebSocket client *)

Module app_gcp.

(** What the front-end does that can be observed. *)
Inductive Output : Type :=
| show_message (content : string)       (* cl.Message(content=...).send() *)
| play_audio (data : list byte)         (* emitter.send_audio_chunk(OutputAudioChunk(data=...)) *)
| ws_send (payload : pyval)             (* self.ws.send(json.dumps(payload)) *)
| ws_close.                             (* self.ws.close() *)

(** A [WSClient] object ([recv_task] is [receiving]: the task is running),
    what it has put out, and what its next socket operations will do:
    [None] succeeds, [Some e] raises ([WebSocketDisconnect] stands for
    [websockets.ConnectionClosed]). *)
Record WSClient : Type := {
  ws : bool;                   (* self.ws is not None *)
  connected : bool;
  closing : bool;
  receiving : bool;
  outputs : list Output;
  socket : list (option Exn)
}.

Definition set_connected (b : bool) (c : WSClient) : WSClient :=
  {| ws := ws c; connected := b; closing := closing c; receiving := receiving c;
     outputs := outputs c; socket := socket c |}.

Definition set_closing (b : bool) (c : WSClient) : WSClient :=
  {| ws := ws c; connected := connected c; closing := b; receiving := receiving c;
     outputs := outputs c; socket := socket c |}.

Definition set_receiving (b : bool) (c : WSClient) : WSClient :=
  {| ws := ws c; connected := connected c; closing := closing c; receiving := b;
     outputs := outputs c; socket := socket c |}.

Definition put (o : Output) : ST WSClient unit :=
  modify (fun c =>
    {| ws := ws c; connected := connected c; closing := closing c;
       receiving := receiving c; outputs := outputs c ++ [o]; socket := socket c |}).

Definition next_outcome : ST WSClient unit := fun c =>
  match socket c with
  | [] => (Ok tt, c)
  | r :: rest =>
    (match r with None => Ok tt | Some e => Raise e end,
     {| ws := ws c; connected := connected c; closing := closing c;
        receiving := receiving c; outputs := outputs c; socket := rest |})
  end.

(** A socket operation: recorded, then it returns or raises. *)
Definition on_socket (o : Output) : ST WSClient unit :=
  _ ← put o;
  next_outcome.

Definition handle_stop : ST WSClient unit :=
  _ ← modify (set_connected false);
  c ← get closing;
  if c : bool then mret tt
  else
    _ ← modify (set_closing true);
    put (show_message "Connection closed by server. Session ended.").

(** The body of [async for message in self.ws] in [recv_loop], on the
    text of a frame as [json.loads] reads it; the result says whether the
    loop breaks. *)
Definition on_message `{realtime_client.Formatting} (message : Result pyval)
    : ST WSClient bool :=
  c ← get closing;
  if c : bool then mret true
  else
    data ← lift message;
    kind ← lift (py_get data "kind" PNone);
    if py_eq_str kind "AudioData" then
      audio_b64 ← lift (py_get data "data" PNone);
      if realtime_client.py_truthy audio_b64 then
        audio_bytes ← lift (Base64.b64decode_obj audio_b64);
        _ ← put (play_audio audio_bytes);
        mret false
      else mret false
    else if py_eq_str kind "Text" then
      text ← lift (py_get data "data" PNone);
      if realtime_client.py_truthy text then
        _ ← put (show_message ("Bot: " ++ realtime_client.py_format text));
        mret false
      else mret false
    else if py_eq_str kind "StopAudio" then
      _ ← handle_stop;
      mret true
    else mret false.

(** One iteration of [recv_loop], with its [except] clauses (each calls
    [handle_stop] unless the client is closing) and its [finally]. *)
Definition recv `{realtime_client.Formatting} (message : Result pyval)
    (c : WSClient) : WSClient :=
  if receiving c then
    match on_message message c with
    | (Ok false, c') => c'
    | (Ok true, c') => set_receiving false (set_connected false c')
    | (Raise _, c') =>
      let c'' := if closing c' then c' else snd (handle_stop c') in
      set_receiving false (set_connected false c'')
    end
  else c.

(** [send_audio(audio_bytes)] *)
Definition send_audio (audio_bytes : list byte) : ST WSClient bool :=
  c ← get (fun c => c);
  if negb (ws c) || negb (connected c) || closing c then mret false
  else
    try_except
      (let audio_b64 := Base64.b64encode audio_bytes in
       _ ← on_socket (ws_send (PDict [("kind", PStr "AudioData");
                                       ("data", PStr audio_b64)]));
       mret true)
      (fun e =>
         if bool_decide (e = WebSocketDisconnect) then
           _ ← handle_stop;
           mret false
         else mret false).

(** [stop()] *)
Definition stop : ST WSClient unit :=
  c ← get (fun c => c);
  if ws c && connected c && negb (closing c) then
    _ ← try_except
          (_ ← modify (set_closing true);
           _ ← on_socket (ws_send (PDict [("kind", PStr "StopAudio")]));
           on_socket ws_close)
          (fun _ => mret tt);
    _ ← modify (set_connected false);
    (* self.recv_task.cancel() *)
    modify (set_receiving false)
  else mret tt.

End app_gcp.

(** What [websocket.send_json] writes for a frame of the gateway, as the
    front-end's [json.loads] reads it. *)
Definition frame_json (f : ServerFrame) : pyval :=
  match f with
  | TextFrame text => PDict [("kind", PStr "Text"); ("text", PStr text)]
  | AudioDataFrame data => PDict [("kind", PStr "AudioData"); ("data", PStr data)]
  | StopAudioFrame => PDict [("kind", PStr "StopAudio")]
  end.

(** ** Sample data for the worked examples *)

Module sample.

Import realtime_client.

#[local] Instance formatting : Formatting :=
  {| format_amount := fun _ => Ok "3,500.00"; str_object := fun _ => "?" |}.

#[local] Instance cipher : collekto_data_fetcher.Cipher := fun p => p.

Definition customer_row : list (string * pyval) :=
  [("Loan_ID", PStr "L1"); ("system_id", PStr "S1");
   ("Debtor_Name", PStr "Ravi"); ("Gender", PStr "Male");
   ("EMI_Amount", PInt 3500); ("Payment_Due_Date", PStr "3rd");
   ("Product", PStr "Two Wheeler"); ("DPD", PInt 0)].

Definition request : server.CallInitiateModel :=
  {| server.customer_name := "Ravi"; server.system_id := "S1";
     server.loan_id := "L1"; server.due_date := "3rd";
     server.due_amount := S754_zero false; server.product := "Two Wheeler" |}.

Definition store : gmap string server.CallSession :=
  {[ "call-1" := {| server.customer := request;
                    server.call_metadata := PDict customer_row;
                    server.disposition := PDict [] |} ]}.

Definition settings : Settings := module_settings (Some "key") (Some "endpoint").

(** A client object with no connection, and a world around it. *)
Definition idle_client : RealtimeClient :=
  {| connection := false; connection_manager := false; connected := false;
     audio_buffer := []; transcript := EmptyString;
     response_handler := true; audio_handler := true; chat_history := [];
     _responding := false; customer_data := PDict customer_row;
     conversation_done := false; instructions := EmptyString |}.

Definition idle : World :=
  {| client := idle_client; pending_tool_calls := ∅; consuming := false;
     trace := []; faults := [] |}.

(** The same with a live connection and the event loop running. *)
Definition live : World :=
  {| client := set_connected true (set_connection true
                 (set_connection_manager true idle_client));
     pending_tool_calls := ∅; consuming := true; trace := []; faults := [] |}.

(** A freshly connected call, with no upstream fault to come. *)
Definition fresh : Result server.Gateway :=
  server.websocket_endpoint settings store "call-1" [].

(** The gateway [fresh] returns. *)
Definition gateway : server.Gateway :=
  match fresh with
  | Ok g => g
  | Raise _ => {| server.world := idle; server.receiving := false |}
  end.

Definition after (inputs : list server.Input) : Result server.Gateway :=
  g ← fresh; mret (server.run inputs g).

Definition audio_frame (data : string) : server.Input :=
  server.from_client
    (server.message (Ok (PDict [("kind", PStr "AudioData"); ("data", PStr data)]))).

Definition stop_frame : server.Input :=
  server.from_client (server.message (Ok (PDict [("kind", PStr "StopAudio")]))).

(** The live call while the assistant's closing words are streaming in, and
    while an ordinary sentence is. *)
Definition closing : World :=
  with_client (set_transcript " Dhanyavaad. [END_CONVERSATION] ") live.

Definition speaking : World :=
  with_client (set_transcript "Kya aapka payment hogya? ") live.

(** The model has announced a call of the payment tool. *)
Definition tool_pending : World :=
  with_pending
    (<["call_1" := {| name := "check_payment_status"; call_id := "call_1";
                      arguments := PDict [] |}]>) live.

(** A response has been requested on the live call. *)
Definition awaiting : World := with_client (set_responding true) live.

(** The assistant has said its closing words on the fresh call. *)
Definition farewell : list server.Input :=
  [server.from_upstream (response_text_delta "Dhanyavaad. [END_CONVERSATION]");
   server.from_upstream response_done].

(** The process environment in mock mode and in REST mode. *)
Definition mock_env : server.Environ :=
  {| server.COLLEKTO_USERNAME := Some "agent"; server.COLLEKTO_PASSWORD := Some "secret";
     server.MOCK_COLLEKTO_API := Some "1";
     server.USERNAME := Some "default"; server.PASSWORD := Some "default-secret" |}.

Definition rest_env : server.Environ :=
  {| server.COLLEKTO_USERNAME := Some "agent"; server.COLLEKTO_PASSWORD := Some "secret";
     server.MOCK_COLLEKTO_API := None;
     server.USERNAME := Some "default"; server.PASSWORD := Some "default-secret" |}.

Definition unauthorized : collekto_data_fetcher.Response :=
  {| collekto_data_fetcher.status_code := 401;
     collekto_data_fetcher.json := Raise ValueError |}.

Definition token_reply : collekto_data_fetcher.Response :=
  {| collekto_data_fetcher.status_code := 200;
     collekto_data_fetcher.json :=
       Ok (PDict [("data", PDict [("authenticationResult",
                     PDict [("bdInfoGHKey_1000", PStr "token")])])]) |}.

(** A server whose [data.csv] cannot be read and whose backend answers with
    the given replies. *)
Definition server_with (replies : list (Result collekto_data_fetcher.Response))
    : server.Server :=
  {| server.session_store := ∅; server.data_csv := Raise ValueError;
     server.backend :=
       {| collekto_data_fetcher.replies := replies;
          collekto_data_fetcher.requests := [];
          collekto_data_fetcher.loan_data := PNone;
          collekto_data_fetcher.disposition_data := PNone |};
     server.tasks := [] |}.

(** The flag is set, and the assistant is speaking again. *)
Definition reopened : World :=
  with_client (set_conversation_done true) speaking.

Definition done_after (inputs : list server.Input) : Result bool :=
  g ← after inputs; mret (conversation_done (client (server.world g))).

Definition responding_after (inputs : list server.Input) : Result bool :=
  g ← after inputs; mret (_responding (client (server.world g))).

End sample.

(** ** The actions a stretch of the trace contains *)

Definition calls_of (t : list Action) : list Method :=
  omap (fun a => match a with Call m => Some m | _ => None end) t.

Definition sends_of (t : list Action) : list ClientEvent :=
  omap (fun a => match a with Send m => Some m | _ => None end) t.

(** What [later] records beyond [earlier]. *)
Definition since (earlier later : list Action) : list Action :=
  drop (length earlier) later.

(** Days past due equal to zero, as Python's [==] sees it. *)
Definition is_zero (v : pyval) : Prop :=
  v = PInt 0 \/ v = PBool false \/ exists s, v = PFloat (S754_zero s).

(** The sixteen spellings of "male". *)
Definition spelled_male (g : string) : Prop :=
  exists c1 c2 c3 c4 : ascii,
    g = String c1 (String c2 (String c3 (String c4 EmptyString)))
    /\ (c1 = "m" \/ c1 = "M")%char /\ (c2 = "a" \/ c2 = "A")%char
    /\ (c3 = "l" \/ c3 = "L")%char /\ (c4 = "e" \/ c4 = "E")%char.

(** The text a response-done event finalizes. *)
Definition finalized (w : realtime_client.World) : string :=
  PyStr.strip (realtime_client.transcript (realtime_client.client w)).

(** A computation keeps a relation [R] when the world it leaves is related
    to the world it started from, whether it returns or raises. *)
Definition keeps (R : realtime_client.World -> realtime_client.World -> Prop)
    {A} (m : realtime_client.M A) : Prop :=
  forall w, R w (snd (m w)).

(** A relation is framed when it is a preorder that the bookkeeping of the
    world (the trace, the faults, the [connected] field) does not disturb. *)
Class Framed (R : realtime_client.World -> realtime_client.World -> Prop) : Prop := {
  framed_preorder :: PreOrder R;
  framed_log : forall a w,
    R w (realtime_client.with_trace (realtime_client.trace w ++ [a]) w);
  framed_faults : forall fs w, R w (realtime_client.with_faults fs w);
  framed_connected : forall b w,
    R w (realtime_client.with_client (realtime_client.set_connected b) w)
}.

(** The conversation-done flag is the same before and after. *)
Definition same_done (w w' : realtime_client.World) : Prop :=
  realtime_client.conversation_done (realtime_client.client w')
  = realtime_client.conversation_done (realtime_client.client w).

(** The trace has only grown, and the responding flag is as it was, or
    false, or [create_response] was entered in between. *)
Definition responding_tracked (w w' : realtime_client.World) : Prop :=
  exists t,
    realtime_client.trace w' = (realtime_client.trace w ++ t)%list
    /\ (realtime_client._responding (realtime_client.client w')
        = realtime_client._responding (realtime_client.client w)
        \/ realtime_client._responding (realtime_client.client w') = false
        \/ In (Call create_response_) t).

(** A parsed client frame of kind "AudioData" carrying the payload [data],
    and one of kind "StopAudio". *)
Definition is_audio_frame (payload : pyval) (data : string) : Prop :=
  exists d, payload = PDict d
    /\ dict_get d "kind" = Some (PStr "AudioData")
    /\ dict_get d "data" = Some (PStr data).

Definition is_stop_frame (payload : pyval) : Prop :=
  exists d, payload = PDict d /\ dict_get d "kind" = Some (PStr "StopAudio").

(** The numbers below [k], for properties of bytes and of six-bit values
    that are settled by evaluating them on every value. *)
Definition below (k : nat) : list N := map N.of_nat (seq 0 k).

(** The four six-bit values [Base64.b64encode] makes of three bytes. *)
Definition sextets (n1 n2 n3 : N) : N * N * N * N :=
  (N.shiftr n1 2,
   N.lor (N.shiftl (N.land n1 3) 4) (N.shiftr n2 4),
   N.lor (N.shiftl (N.land n2 15) 2) (N.shiftr n3 6),
   N.land n3 63).

(** The three bytes [Base64.a2b_base64] makes of four six-bit values. *)
Definition octets (v1 v2 v3 v4 : N) : N * N * N :=
  (N.lor (N.shiftl v1 2) (N.shiftr v2 4),
   N.lor (N.shiftl (N.land v2 15) 4) (N.shiftr v3 2),
   N.lor (N.shiftl (N.land v3 3) 6) v4).

(** What has to hold of the first and second byte, of the second and third,
    and of each byte alone, for the regrouping to lose no bit. *)
Definition regroups_12 (n1 n2 : N) : bool :=
  let v1 := N.shiftr n1 2 in
  let v2 := N.lor (N.shiftl (N.land n1 3) 4) (N.shiftr n2 4) in
  ((v2 <? 64) && (N.lor (N.shiftl v1 2) (N.shiftr v2 4) =? n1)
   && (N.land v2 15 =? N.shiftr n2 4))%N.

Definition regroups_23 (n2 n3 : N) : bool :=
  let v3 := N.lor (N.shiftl (N.land n2 15) 2) (N.shiftr n3 6) in
  ((v3 <? 64) && (N.shiftr v3 2 =? N.land n2 15)
   && (N.land v3 3 =? N.shiftr n3 6))%N.

Definition regroups_1 (n : N) : bool :=
  ((N.shiftr n 2 <? 64) && (N.land n 63 <? 64)
   && (N.lor (N.shiftl (N.shiftr n 4) 4) (N.land n 15) =? n)
   && (N.lor (N.shiftl (N.shiftr n 6) 6) (N.land n 63) =? n))%N.

(** The CSV lookup of the mock resolver fails: the file cannot be read, a
    column is missing, or no row matches. *)
Definition lookup_fails (s : server.Server) (loan_id system_id : string) : Prop :=
  match server.data_csv s with
  | Raise _ => True
  | Ok df =>
    server.has_column df "Loan_ID" <> Ok tt
    \/ server.has_column df "system_id" <> Ok tt
    \/ List.filter (server.row_matches loan_id system_id) (server.rows df) = []
  end.

(** The REST backend rejects the credentials of the call and then the
    default ones: its next two replies carry an error status. *)
Definition rejected_twice (env : server.Environ) (s : server.Server) : Prop :=
  exists p1 p2 r1 r2 rest,
    server.COLLEKTO_PASSWORD env = Some p1
    /\ server.PASSWORD env = Some p2
    /\ collekto_data_fetcher.replies (server.backend s) = Ok r1 :: Ok r2 :: rest
    /\ collekto_data_fetcher.is_error r1 = true
    /\ collekto_data_fetcher.is_error r2 = true.

(** The metadata the store holds for a call. *)
Definition stored_metadata (s : server.Server) (call_id : string) : option pyval :=
  server.call_metadata <$> server.session_store s !! call_id.

(** The response [start_call] builds. *)
Definition completed (now call_id : string) (data : server.CallInitiateModel)
    : server.CallSessionResponseModel :=
  {| server.call_id := call_id; server.created_at := now;
     server.status := "COMPLETED"; server.echoed := data; server.initiate := data |}.

(** The first [n] upstream operations to come do not fail. *)
Definition no_fault (n : nat) (w : realtime_client.World) : Prop :=
  forall i, (i < n)%nat -> realtime_client.faults w !! i <> Some true.

(** The next upstream operation fails. *)
Definition next_fails (w : realtime_client.World) : bool :=
  match realtime_client.faults w with true :: _ => true | _ => false end.

(** The chat history has only grown, by turns of the user or the assistant
    with a non-empty content. *)
Definition is_turn (m : realtime_client.Message) : Prop :=
  (realtime_client.role m = "user" \/ realtime_client.role m = "assistant")
  /\ realtime_client.content m <> EmptyString.

Definition history_grows (w w' : realtime_client.World) : Prop :=
  exists added,
    realtime_client.chat_history (realtime_client.client w')
    = (realtime_client.chat_history (realtime_client.client w) ++ added)%list
    /\ Forall is_turn added.

(** The text a delta event carries. *)
Definition delta_of (event : realtime_client.Event) : option string :=
  match event with
  | realtime_client.response_text_delta delta
  | realtime_client.response_audio_transcript_delta delta => Some delta
  | _ => None
  end.

(** The frames written to the client WebSocket in a stretch of the trace. *)
Definition frames_of (t : list Action) : list ServerFrame :=
  omap (fun a => match a with WsSendJson f => Some f | _ => None end) t.

(** The five keys the prompt builder reads. *)
Definition prompt_keys : list string :=
  ["Debtor_Name"; "Gender"; "EMI_Amount"; "Payment_Due_Date"; "Product"].

(** A frame the receive loop cannot handle: it does not parse, it is not
    an object, or it is an AudioData frame without decodable data. *)
Definition unusable (msg : Result pyval) : Prop :=
  (exists e, msg = Raise e)
  \/ (exists v, msg = Ok v /\ isinstance_dict v = false)
  \/ (exists d, msg = Ok (PDict d)
        /\ dict_get d "kind" = Some (PStr "AudioData")
        /\ (dict_get d "data" = None
            \/ exists v e, dict_get d "data" = Some v /\ Base64.b64decode_obj v = Raise e)).

(** A frame of neither kind the receive loop knows. *)
Definition other_kind (d : list (string * pyval)) : Prop :=
  exists kind,
    py_get (PDict d) "kind" PNone = Ok kind
    /\ py_eq_str kind "AudioData" = false
    /\ py_eq_str kind "StopAudio" = false.

(** How often [disconnect] was entered. *)
Definition disconnects (t : list Action) : nat :=
  length (List.filter (fun m => match m with disconnect_ => true | _ => false end)
            (calls_of t)).

(** A reply of the backend that is no error and whose body is the JSON
    value [v]; and a login reply that carries the token [token]. *)
Definition carries (r : collekto_data_fetcher.Response) (v : pyval) : Prop :=
  collekto_data_fetcher.is_error r = false /\ collekto_data_fetcher.json r = Ok v.

Definition carries_token (r : collekto_data_fetcher.Response) (token : pyval) : Prop :=
  exists data d a,
    carries r data
    /\ subscript data "data" = Ok d
    /\ subscript d "authenticationResult" = Ok a
    /\ subscript a "bdInfoGHKey_1000" = Ok token.

(** A request of the flow fails in transport: [requests] itself raises,
    here because the backend does not answer at all. *)
Definition transport_fails (f : collekto_data_fetcher.Flow) : Prop :=
  collekto_data_fetcher.replies f = []
  \/ exists rest, collekto_data_fetcher.replies f = Raise RequestException :: rest.

(** The REST backend rejects the credentials of the call and accepts the
    default ones. *)
Definition default_login_accepted (env : server.Environ) (s : server.Server) : Prop :=
  exists p1 p2 r1 r2 rest token,
    server.COLLEKTO_PASSWORD env = Some p1
    /\ server.PASSWORD env = Some p2
    /\ collekto_data_fetcher.replies (server.backend s) = Ok r1 :: Ok r2 :: rest
    /\ collekto_data_fetcher.is_error r1 = true
    /\ carries_token r2 token.

(** Data for the examples of the further properties. *)
Module examples.

Import realtime_client.

(** The live call with an upstream that fails the next operation. *)
Definition failing : World := with_faults [true] sample.live.

(** A customer record without the DPD column. *)
Definition no_dpd : World :=
  with_client
    (fun c => {| connection := connection c; connection_manager := connection_manager c;
                 connected := connected c; audio_buffer := audio_buffer c;
                 transcript := transcript c; response_handler := response_handler c;
                 audio_handler := audio_handler c; chat_history := chat_history c;
                 _responding := _responding c;
                 customer_data := PDict [("Debtor_Name", PStr "Ravi")];
                 conversation_done := conversation_done c;
                 instructions := instructions c |}) sample.live.

Definition payment_tool : Item :=
  {| item_type := Some "function_call"; item_call_id := "call_1";
     item_name := "check_payment_status" |}.

(** A [data.csv] with one row. *)
Definition one_row : server.DataFrame :=
  {| server.columns := map fst sample.customer_row;
     server.rows := [sample.customer_row] |}.

Definition mock_server : server.Server :=
  {| server.session_store := ∅; server.data_csv := Ok one_row;
     server.backend := server.backend (sample.server_with []);
     server.tasks := [] |}.

Definition loan_reply : collekto_data_fetcher.Response :=
  {| collekto_data_fetcher.status_code := 200;
     collekto_data_fetcher.json := Ok (PDict [("loanId", PStr "L1")]) |}.

Definition history_reply : collekto_data_fetcher.Response :=
  {| collekto_data_fetcher.status_code := 200;
     collekto_data_fetcher.json := Ok (PList [PStr "promise to pay"]) |}.

Definition server_error : collekto_data_fetcher.Response :=
  {| collekto_data_fetcher.status_code := 500;
     collekto_data_fetcher.json := Raise ValueError |}.

(** The customer record of a row of [data.csv] whose Gender cell is empty:
    pandas reads the cell as the float NaN. *)
Definition blank_gender : list (string * pyval) :=
  [("Loan_ID", PStr "L1"); ("system_id", PStr "S1");
   ("Debtor_Name", PStr "Ravi"); ("Gender", PFloat S754_nan);
   ("EMI_Amount", PInt 3500); ("Payment_Due_Date", PStr "3rd");
   ("Product", PStr "Two Wheeler"); ("DPD", PInt 0)].

(** A front-end client with an open socket and its receive task running. *)
Definition front_end : app_gcp.WSClient :=
  {| app_gcp.ws := true; app_gcp.connected := true; app_gcp.closing := false;
     app_gcp.receiving := true; app_gcp.outputs := []; app_gcp.socket := [] |}.

End examples.

(** ** Tactics

    Unfolding the monad, and opening the description of a client frame. *)

Ltac st_unfold :=
  unfold mbind, mret, ST_bind, ST_ret, get, modify, lift, raise,
    try_except_only, try_except in *.

Ltac st_simpl :=
  st_unfold;
  cbn [fst snd realtime_client.client realtime_client.pending_tool_calls
       realtime_client.consuming realtime_client.trace realtime_client.faults
       realtime_client.with_client realtime_client.with_pending
       realtime_client.with_consuming realtime_client.with_trace
       realtime_client.with_faults] in *.

Ltac frame_fields Hp :=
  destruct Hp as (d & -> & Hkind & Hdata) || destruct Hp as (d & -> & Hkind).

(** * Properties *)

Import realtime_client.

(** ** Strings *)

Lemma append_cons (c : ascii) (s t : string) :
  String c s ++ t = String c (s ++ t).
Proof. reflexivity. Qed.

Lemma prefix_app (sub s : string) :
  String.prefix sub s = true <-> exists post, s = sub ++ post.
Proof.
  revert s. induction sub as [|c sub IH]; intros s.
  - split; [intros _; exists s; reflexivity | intros _; now destruct s].
  - destruct s as [|d s]; simpl;
      [split; [discriminate | intros [post E]; discriminate] |].
    destruct (Ascii.ascii_dec c d) as [->|Hne].
    + rewrite IH. split; intros [post E]; exists post; [now rewrite E | now inversion E].
    + split; [discriminate | intros [post E]; rewrite append_cons in E; congruence].
Qed.

Lemma contains_app (sub s : string) :
  PyStr.contains sub s = true <-> exists pre post, s = pre ++ sub ++ post.
Proof.
  induction s as [|c s IH]; cbn [PyStr.contains].
  - rewrite orb_false_r, prefix_app. split.
    + intros [post E]. exists EmptyString, post. exact E.
    + intros [pre [post E]]. destruct pre; [exists post; exact E | discriminate].
  - rewrite orb_true_iff, IH, prefix_app. split.
    + intros [[post E] | [pre [post E]]].
      * exists EmptyString, post. exact E.
      * exists (String c pre), post. rewrite append_cons. now rewrite E.
    + intros [pre [post E]]. destruct pre as [|d pre].
      * left. exists post. exact E.
      * right. exists pre, post. rewrite append_cons in E. now inversion E.
Qed.

(** ** tools.py and the dispatch *)

Lemma py_eq_zero_spec (v : pyval) : py_eq_zero v = true <-> is_zero v.
Proof.
  unfold is_zero. split.
  - destruct v as [|b|z|f|s|l|l|d]; simpl; try discriminate.
    + destruct b; [discriminate | auto].
    + intros E. apply Z.eqb_eq in E. subst. auto.
    + destruct f; try discriminate. eauto.
  - intros [-> | [-> | [s ->]]]; reflexivity.
Qed.

(** C8: [check_payment_status] answers "payment completed" for a value equal
    to zero and "payment not completed" for every other value; the dispatch
    of any other tool name gives "Unknown tool", calls no tool and leaves the
    state alone. *)
Theorem check_payment_status_and_dispatch
    (DPD : pyval) (tool : string) (args : pyval) (w : World) :
  (is_zero DPD -> tools.check_payment_status DPD = "payment completed")
  /\ (~ is_zero DPD -> tools.check_payment_status DPD = "payment not completed")
  /\ (tool <> "check_payment_status" -> dispatch tool args w = (Ok "Unknown tool", w)).
Proof.
  unfold tools.check_payment_status. repeat split.
  - intros Hz. apply py_eq_zero_spec in Hz. now rewrite Hz.
  - intros Hz. destruct (py_eq_zero DPD) eqn:E; [|reflexivity].
    apply py_eq_zero_spec in E. contradiction.
  - intros Hne. unfold dispatch.
    destruct (String.eqb tool "check_payment_status") eqn:E; [|reflexivity].
    apply String.eqb_eq in E. contradiction.
Qed.

Lemma check_payment_status_and_dispatch_witness :
  tools.check_payment_status (PInt 0) = "payment completed"
  /\ tools.check_payment_status (PInt 7) = "payment not completed"
  /\ dispatch "get_weather" PNone sample.idle = (Ok "Unknown tool", sample.idle).
Proof.
  split; [|split].
  - apply (check_payment_status_and_dispatch (PInt 0) "get_weather" PNone sample.idle).
    left. reflexivity.
  - apply (check_payment_status_and_dispatch (PInt 7) "get_weather" PNone sample.idle).
    intros [E | [E | [s E]]]; discriminate.
  - apply (check_payment_status_and_dispatch (PInt 0) "get_weather" PNone sample.idle).
    intros E. discriminate.
Defined.


(** ** The response-done event *)

(** With a non-empty finalized text the event succeeds, and this is the
    client it leaves. *)
Lemma on_response_done_nonempty (w : World) :
  PyStr.nonempty (finalized w) = true ->
  exists w',
    on_event response_done w = (Ok tt, w')
    /\ conversation_done (client w') = PyStr.contains END_CONVERSATION (finalized w)
    /\ _responding (client w') = false
    /\ transcript (client w') = EmptyString
    /\ chat_history (client w')
       = (chat_history (client w) ++ [{| role := "assistant"; content := finalized w |}])%list
    /\ consuming w' = consuming w
    /\ pending_tool_calls w' = pending_tool_calls w.
Proof.
  intros Hne. unfold on_event, finalized in *. st_simpl. rewrite Hne.
  unfold append_history, send_text, log. st_simpl. cbn.
  destruct (response_handler (client w)); cbn;
    eexists; (split; [reflexivity |]); cbn; repeat split; reflexivity.
Qed.

(** With an empty one nothing happens at all. *)
Lemma on_response_done_empty (w : World) :
  PyStr.nonempty (finalized w) = false ->
  on_event response_done w = (Ok tt, w).
Proof.
  intros He. unfold on_event, finalized in *. st_simpl. now rewrite He.
Qed.

Lemma deliver_response_done_nonempty (w : World) :
  consuming w = true ->
  PyStr.nonempty (finalized w) = true ->
  conversation_done (client (deliver response_done w))
    = PyStr.contains END_CONVERSATION (finalized w)
  /\ _responding (client (deliver response_done w)) = false
  /\ consuming (deliver response_done w) = true.
Proof.
  intros Hc Hne. unfold deliver. rewrite Hc.
  destruct (on_response_done_nonempty w Hne) as (w' & -> & Hd & Hr & _ & _ & Hc' & _).
  repeat split; congruence.
Qed.

(** C2: when a response-done event finalizes a non-empty text, the
    conversation-done flag afterwards is true exactly when that text contains
    the substring [[END_CONVERSATION]]; without the marker it is false. *)
Theorem response_done_sets_conversation_done (w : World) :
  consuming w = true ->
  PyStr.nonempty (finalized w) = true ->
  (conversation_done (client (deliver response_done w)) = true
   <-> exists pre post, finalized w = pre ++ "[END_CONVERSATION]" ++ post)
  /\ ((~ exists pre post, finalized w = pre ++ "[END_CONVERSATION]" ++ post)
      -> conversation_done (client (deliver response_done w)) = false).
Proof.
  intros Hc Hne.
  destruct (deliver_response_done_nonempty w Hc Hne) as (-> & _ & _).
  rewrite <- contains_app. fold END_CONVERSATION. split; [reflexivity |].
  intros Hno. now destruct (PyStr.contains END_CONVERSATION (finalized w)).
Qed.

Lemma response_done_sets_conversation_done_witness :
  consuming sample.closing = true
  /\ finalized sample.closing = "Dhanyavaad. [END_CONVERSATION]"
  /\ conversation_done (client (deliver response_done sample.closing)) = true.
Proof.
  split; [reflexivity | split; [reflexivity |]].
  apply (response_done_sets_conversation_done sample.closing); [reflexivity .. |].
  exists "Dhanyavaad. ", EmptyString. reflexivity.
Defined.

(** ** Relations every step of a computation keeps

    For a framed relation between the world before and the world after,
    the monad's combinators and the upstream primitives keep it. *)

Section Keeps.

Context (R : World -> World -> Prop) `{!Framed R}.

Lemma keeps_ret {A} (a : A) : keeps R (mret a).
Proof. intros w. simpl. reflexivity. Qed.

Lemma keeps_raise {A} (e : Exn) : keeps R (raise e : M A).
Proof. intros w. simpl. reflexivity. Qed.

Lemma keeps_lift {A} (r : Result A) : keeps R (lift r).
Proof. intros w. simpl. reflexivity. Qed.

Lemma keeps_get {A} (f : World -> A) : keeps R (get f).
Proof. intros w. simpl. reflexivity. Qed.

Lemma keeps_modify (f : World -> World) :
  (forall w, R w (f w)) -> keeps R (modify f).
Proof. intros Hf w. apply Hf. Qed.

Lemma keeps_bind {A B} (m : M A) (k : A -> M B) :
  keeps R m -> (forall a, keeps R (k a)) -> keeps R (m ≫= k).
Proof.
  intros Hm Hk w. specialize (Hm w). unfold mbind, ST_bind.
  destruct (m w) as [[a | e] w1]; simpl in *; [|exact Hm].
  etransitivity; [exact Hm | apply Hk].
Qed.

Lemma keeps_try_except {A} (body : M A) (handler : Exn -> M A) :
  keeps R body -> (forall e, keeps R (handler e)) -> keeps R (try_except body handler).
Proof.
  intros Hb Hh w. specialize (Hb w). unfold try_except.
  destruct (body w) as [[a | e] w1]; simpl in *; [exact Hb |].
  etransitivity; [exact Hb | apply Hh].
Qed.

Lemma keeps_if {A} (b : bool) (m1 m2 : M A) :
  keeps R m1 -> keeps R m2 -> keeps R (if b then m1 else m2).
Proof. now destruct b. Qed.

Lemma keeps_log (a : Action) : keeps R (log a).
Proof. apply keeps_modify. intros w. apply framed_log. Qed.

Lemma keeps_next_fault : keeps R next_fault.
Proof.
  intros w. unfold next_fault.
  destruct (faults w) as [|[|] fs]; simpl; first [reflexivity | apply framed_faults].
Qed.

Lemma keeps_upstream (a : Action) : keeps R (upstream a).
Proof.
  unfold upstream. apply keeps_bind; [apply keeps_log | intros _; apply keeps_next_fault].
Qed.

End Keeps.

(** The structure of a method decides most of it; [prim] closes what is
    left about the fields a method assigns. *)
Create HintDb keeps.

Ltac keeps_step prim :=
  lazymatch goal with
  | |- keeps ?R (log _) => apply (keeps_log R)
  | |- keeps ?R (upstream _) => apply (keeps_upstream R)
  | |- keeps ?R (get _) => apply (keeps_get R)
  | |- keeps ?R (mret _) => apply (keeps_ret R)
  | |- keeps ?R (raise _) => apply (keeps_raise R)
  | |- keeps ?R (lift _) => apply (keeps_lift R)
  | |- keeps ?R (modify _) => apply (keeps_modify R); intros ?; prim
  | |- keeps ?R (try_except _ _) => apply (keeps_try_except R); [| intros ?]
  | |- keeps ?R (_ ≫= _) => apply (keeps_bind R); [| intros ?]
  | |- keeps ?R (if _ then _ else _) => apply (keeps_if R)
  | |- keeps ?R (match ?x with _ => _ end) => destruct x
  | |- keeps ?R _ => solve [auto with keeps]
  end.

Ltac keeps_steps prim := repeat keeps_step prim.

Section KeepsMethods.

Context (R : World -> World -> Prop) `{!Framed R}.

Lemma keeps_disconnect : keeps R disconnect.
Proof. unfold disconnect. keeps_steps ltac:(apply framed_connected). Qed.

Lemma keeps_append_input_audio (chunk : list byte) :
  keeps R (append_input_audio chunk).
Proof. unfold append_input_audio. keeps_steps idtac. Qed.

Lemma keeps_commit_audio : keeps R commit_audio.
Proof. unfold commit_audio. keeps_steps idtac. Qed.

End KeepsMethods.

Ltac keeps_method :=
  lazymatch goal with
  | |- keeps ?R disconnect => apply (keeps_disconnect R)
  | |- keeps ?R (append_input_audio _) => apply (keeps_append_input_audio R)
  | |- keeps ?R commit_audio => apply (keeps_commit_audio R)
  end.

Ltac keeps_all prim := repeat first [keeps_method | keeps_step prim].

(** *** The two relations are framed *)

Lemma same_done_framed : Framed same_done.
Proof.
  split; [split |..]; unfold same_done.
  - intros w. reflexivity.
  - intros w1 w2 w3 H12 H23. congruence.
  - intros a w. reflexivity.
  - intros fs w. reflexivity.
  - intros b w. reflexivity.
Qed.

Lemma responding_tracked_framed : Framed responding_tracked.
Proof.
  split; [split |..]; unfold responding_tracked.
  - intros w. exists []. rewrite app_nil_r. auto.
  - intros w1 w2 w3 (t1 & E1 & H1) (t2 & E2 & H2).
    exists (t1 ++ t2)%list. rewrite E2, E1, app_assoc. split; [reflexivity |].
    setoid_rewrite in_app_iff.
    destruct H2 as [H2 | [H2 | H2]]; [| auto | auto].
    rewrite H2. destruct H1 as [H1 | [H1 | H1]]; auto.
  - intros a w. exists [a]. auto.
  - intros fs w. exists []. rewrite app_nil_r. auto.
  - intros b w. exists []. rewrite app_nil_r. auto.
Qed.

#[local] Existing Instance same_done_framed.
#[local] Existing Instance responding_tracked_framed.

(** A step that leaves the trace and the responding flag alone. *)
Lemma responding_tracked_quiet (w w' : World) :
  trace w' = trace w ->
  _responding (client w') = _responding (client w) ->
  responding_tracked w w'.
Proof. intros Et Er. exists []. rewrite app_nil_r. auto. Qed.

Lemma same_done_create_response : keeps same_done create_response.
Proof. unfold create_response. keeps_steps ltac:(exact eq_refl). Qed.

Lemma responding_tracked_create_response : keeps responding_tracked create_response.
Proof.
  intros w. unfold create_response, upstream, log, next_fault. st_simpl.
  destruct (connection (client w) && negb (_responding (client w))); cbn.
  - destruct (faults w) as [|[|] fs]; cbn;
      (exists [Call create_response_; Send ResponseCreate]; split;
       [now rewrite <- app_assoc | right; right; left; reflexivity]).
  - exists [Call create_response_]. split; [reflexivity | left; reflexivity].
Qed.

#[export] Hint Resolve same_done_create_response responding_tracked_create_response : keeps.

(** *** The loops keep what their steps keep *)

Section KeepsLoops.

Context (R : World -> World -> Prop) `{!Framed R}.
Hypothesis R_create_response : keeps R create_response.
Hypothesis R_consuming : forall b w, R w (with_consuming b w).

Lemma keeps_dispatch (tool : string) (args : pyval) : keeps R (dispatch tool args).
Proof. unfold dispatch. keeps_steps idtac. Qed.

Lemma keeps_on_frame (msg : Result pyval) : keeps R (server.on_frame msg).
Proof.
  unfold server.on_frame, is_conversation_done.
  keeps_all idtac; exact R_create_response.
Qed.

Lemma keeps_cleanup (w : World) : R w (server.world (server.cleanup w)).
Proof.
  unfold server.cleanup. cbn [server.world].
  apply (keeps_try_except R); [apply (keeps_disconnect R) | intros e; apply (keeps_ret R)].
Qed.

Lemma keeps_receive (r : server.Received) (g : server.Gateway) :
  R (server.world g) (server.world (server.receive r g)).
Proof.
  unfold server.receive. destruct (server.receiving g); [|reflexivity].
  destruct r as [|msg]; [apply keeps_cleanup |].
  pose proof (keeps_on_frame msg (server.world g)) as H.
  destruct (server.on_frame msg (server.world g)) as [[[|] | e] w']; cbn in *;
    try exact H; (etransitivity; [exact H | apply keeps_cleanup]).
Qed.

Lemma keeps_deliver (event : Event) (w : World) :
  keeps R (on_event event) -> R w (deliver event w).
Proof.
  intros H. unfold deliver. destruct (consuming w); [|reflexivity].
  specialize (H w). destruct (on_event event w) as [[[] | e] w']; cbn in *; [exact H |].
  etransitivity; [exact H | apply R_consuming].
Qed.

Lemma keeps_gateway_step (g : server.Gateway) (i : server.Input) :
  (forall event, i = server.from_upstream event -> keeps R (on_event event)) ->
  R (server.world g) (server.world (server.step g i)).
Proof.
  intros H. destruct i as [r | event]; cbn [server.step server.world].
  - apply keeps_receive.
  - apply keeps_deliver. now apply H.
Qed.

Lemma keeps_run (inputs : list server.Input) (g : server.Gateway) :
  (forall event, keeps R (on_event event)) ->
  R (server.world g) (server.world (server.run inputs g)).
Proof.
  intros H. revert g. unfold server.run.
  induction inputs as [|i inputs IH]; intros g; cbn [fold_left]; [reflexivity |].
  etransitivity; [apply (keeps_gateway_step g i); intros event _; apply H | apply IH].
Qed.

End KeepsLoops.

Lemma same_done_on_event (event : Event) :
  event <> response_done -> keeps same_done (on_event event).
Proof.
  intros Hne. destruct event; try contradiction;
    unfold on_event, append_history, send_audio;
    keeps_steps ltac:(exact eq_refl).
  apply (keeps_dispatch same_done).
Qed.

Ltac responding_prim :=
  first [ apply responding_tracked_quiet; reflexivity
        | exists []; rewrite app_nil_r; split; [reflexivity | right; left; reflexivity] ].

Lemma responding_tracked_on_event (event : Event) :
  keeps responding_tracked (on_event event).
Proof.
  destruct event;
    unfold on_event, append_history, send_audio, send_text;
    keeps_steps responding_prim.
  apply (keeps_dispatch responding_tracked).
Qed.

(** ** The conversation-done flag *)

(** C10: the conversation-done flag is not latched.  A step of a call leaves
    the flag as it was unless it is a response-done event that finalizes a
    non-empty text, and then the flag becomes the presence of the marker in
    that text, whatever it was before; so a flag that is true is reset to
    false by a later finalized turn without the marker. *)
Theorem conversation_done_not_latched
    (g : server.Gateway) (i : server.Input) (w : World) :
  (same_done (server.world g) (server.world (server.step g i))
   \/ (i = server.from_upstream response_done
       /\ PyStr.nonempty (finalized (server.world g)) = true
       /\ conversation_done (client (server.world (server.step g i)))
          = PyStr.contains END_CONVERSATION (finalized (server.world g))))
  /\ (consuming w = true ->
      PyStr.nonempty (finalized w) = true ->
      conversation_done (client w) = true ->
      PyStr.contains END_CONVERSATION (finalized w) = false ->
      conversation_done (client (deliver response_done w)) = false).
Proof.
  split.
  - assert (i = server.from_upstream response_done
            \/ i <> server.from_upstream response_done) as [-> | Hne]
      by (destruct i as [r | []]; first [left; reflexivity | right; discriminate]).
    + cbn [server.step server.world].
      destruct (consuming (server.world g)) eqn:Hc;
        [| left; unfold deliver; rewrite Hc; reflexivity].
      destruct (PyStr.nonempty (finalized (server.world g))) eqn:Hn.
      * right. destruct (deliver_response_done_nonempty _ Hc Hn) as (Hd & _ & _). auto.
      * left. unfold deliver. rewrite Hc, (on_response_done_empty _ Hn). reflexivity.
    + left. apply (keeps_gateway_step same_done).
      * apply same_done_create_response.
      * intros b w0. reflexivity.
      * intros event ->. apply same_done_on_event. congruence.
  - intros Hc Hn _ Hno.
    destruct (deliver_response_done_nonempty w Hc Hn) as (-> & _ & _). exact Hno.
Qed.

Lemma conversation_done_not_latched_witness :
  conversation_done (client sample.reopened) = true
  /\ conversation_done (client (deliver response_done sample.reopened)) = false
  /\ sample.done_after
       [server.from_upstream (response_text_delta "Dhanyavaad. [END_CONVERSATION]");
        server.from_upstream response_done] = Ok true
  /\ sample.done_after
       [server.from_upstream (response_text_delta "Dhanyavaad. [END_CONVERSATION]");
        server.from_upstream response_done;
        server.from_upstream (response_text_delta "Ji, boliye.");
        server.from_upstream response_done] = Ok false.
Proof.
  split; [reflexivity | split; [| split; vm_compute; reflexivity]].
  apply (conversation_done_not_latched
           {| server.world := sample.reopened; server.receiving := true |}
           (server.from_upstream response_done) sample.reopened);
    reflexivity.
Defined.

(** ** The responding flag *)

Lemma init_responding `{Formatting} (rh ah : bool) (session_data : pyval)
    (c : RealtimeClient) :
  init rh ah session_data = Ok c -> _responding c = false.
Proof.
  unfold init. destruct (subscript session_data "Debtor_Name"); [|discriminate].
  cbn. destruct (get_system_prompt session_data); [|discriminate].
  cbn. intros [= <-]. reflexivity.
Qed.

Lemma responding_tracked_connect (cfg : Settings) : keeps responding_tracked (connect cfg).
Proof. unfold connect. keeps_all responding_prim. Qed.

(** A gateway that has just been opened has an untouched flag, and all its
    trace is what [connect] did. *)
Lemma websocket_endpoint_responding `{Formatting} (cfg : Settings)
    (store : gmap string server.CallSession) (call_id : string) (fs : list bool)
    (g : server.Gateway) :
  server.websocket_endpoint cfg store call_id fs = Ok g ->
  _responding (client (server.world g)) = false
  \/ In (Call create_response_) (trace (server.world g)).
Proof.
  unfold server.websocket_endpoint.
  destruct (store !! call_id) as [session|]; [|discriminate]. cbn.
  destruct (init true true (server.call_metadata session)) as [c|] eqn:Ec; [|discriminate].
  cbn. apply init_responding in Ec.
  match goal with |- context [connect cfg ?w0] =>
    pose proof (responding_tracked_connect cfg w0) as (t & Et & Ht);
    destruct (connect cfg w0) as [[b | e] w1]
  end; [|discriminate].
  intros [= <-]. cbn in *. rewrite Et, Ec in *.
  destruct Ht as [Ht | [Ht | Ht]]; auto.
Qed.

(** C1 (amended): the responding flag is false when the client is built and
    stays false as long as [create_response] has not been entered; a
    response-done event that finalizes a non-empty text leaves it false; and
    [create_response] called while the flag is true only records the call:
    nothing is sent upstream and the state is unchanged. *)
Theorem responding_flag_gate `{Formatting} (cfg : Settings)
    (store : gmap string server.CallSession) (call_id : string) (fs : list bool)
    (g : server.Gateway) (inputs : list server.Input) (w : World) :
  server.websocket_endpoint cfg store call_id fs = Ok g ->
  (~ In (Call create_response_) (trace (server.world (server.run inputs g))) ->
   _responding (client (server.world (server.run inputs g))) = false)
  /\ (consuming w = true ->
      PyStr.nonempty (finalized w) = true ->
      _responding (client (deliver response_done w)) = false)
  /\ (_responding (client w) = true ->
      create_response w = (Ok tt, with_trace (trace w ++ [Call create_response_]) w)).
Proof.
  intros Hg. split; [| split].
  - intros Hno.
    pose proof (keeps_run responding_tracked responding_tracked_create_response
                  (fun b w0 => responding_tracked_quiet w0 (with_consuming b w0) eq_refl eq_refl)
                  inputs g responding_tracked_on_event) as (t & Et & Ht).
    rewrite Et in Hno. rewrite in_app_iff in Hno.
    destruct (websocket_endpoint_responding _ _ _ _ _ Hg) as [H0 | H0]; [| tauto].
    destruct Ht as [Ht | [Ht | Ht]]; [congruence | exact Ht | tauto].
  - intros Hc Hn. now destruct (deliver_response_done_nonempty w Hc Hn) as (_ & Hr & _).
  - intros Hr. unfold create_response, log. st_simpl. cbn.
    rewrite Hr, andb_false_r. reflexivity.
Qed.

Lemma responding_flag_gate_witness :
  sample.fresh = Ok sample.gateway
  /\ _responding (client (server.world
        (server.run [sample.audio_frame "QUJD"] sample.gateway))) = false
  /\ _responding (client (deliver response_done sample.closing)) = false
  /\ create_response sample.awaiting
     = (Ok tt, with_trace [Call create_response_] sample.awaiting).
Proof.
  assert (sample.fresh = Ok sample.gateway) as Hfresh by (vm_compute; reflexivity).
  split; [exact Hfresh |].
  destruct (responding_flag_gate (H := sample.formatting) sample.settings sample.store
              "call-1" [] sample.gateway [sample.audio_frame "QUJD"] sample.closing Hfresh)
    as (Hbefore & Hdone & _).
  destruct (responding_flag_gate (H := sample.formatting) sample.settings sample.store
              "call-1" [] sample.gateway [] sample.awaiting Hfresh)
    as (_ & _ & Hgate).
  split; [| split].
  - apply Hbefore. vm_compute. intros [E | [E | [E | [E | []]]]]; discriminate E.
  - apply Hdone; reflexivity.
  - apply Hgate. reflexivity.
Defined.

(** C1, as stated, fails: a response-done event that arrives while the
    transcript buffer is empty leaves the flag as it is.  After a StopAudio
    frame has requested a response, the event loop processes response-done
    and the flag is still true. *)
Lemma responding_flag_counterexample :
  exists g,
    sample.after [sample.stop_frame] = Ok g
    /\ consuming (server.world g) = true
    /\ _responding (client (server.world g)) = true
    /\ finalized (server.world g) = EmptyString
    /\ _responding (client (deliver response_done (server.world g))) = true.
Proof.
  eexists. split; [vm_compute; reflexivity |].
  repeat split; vm_compute; reflexivity.
Qed.

(** ** Tool calls *)

Lemma since_app (t d : list Action) : since t (t ++ d) = d.
Proof. unfold since. apply drop_app_length. Qed.

(** An arguments-done event for a call-id that is not pending does nothing. *)
Lemma arguments_done_absent (w : World) (cid : string) :
  pending_tool_calls w !! cid = None ->
  on_event (response_function_call_arguments_done cid) w = (Ok tt, w).
Proof. intros Hnone. unfold on_event. st_simpl. now rewrite Hnone. Qed.

(** For a pending call-id, an event that completes has logged at most a tool
    call, then sent the tool output and a response request, and removed the
    entry; nothing else has changed. *)
Lemma arguments_done_present (w w' : World) (cid : string) (entry : PendingCall) :
  pending_tool_calls w !! cid = Some entry ->
  on_event (response_function_call_arguments_done cid) w = (Ok tt, w') ->
  pending_tool_calls w' = delete cid (pending_tool_calls w)
  /\ consuming w' = consuming w
  /\ client w' = client w
  /\ exists result tool_log,
       trace w' = (trace w ++ tool_log
                   ++ [Send (FunctionCallOutput cid (json_dumps result));
                       Send ResponseCreate])%list
       /\ sends_of tool_log = []
       /\ (name entry <> "check_payment_status" ->
           result = "Unknown tool" /\ tool_log = []).
Proof.
  intros Hsome. unfold on_event, dispatch, upstream, log, next_fault. st_simpl.
  rewrite Hsome. cbn.
  destruct (String.eqb (name entry) "check_payment_status") eqn:Etool; cbn.
  - destruct (customer_data (client w)) as [| | | | | | |d] eqn:Eargs; cbn;
      try discriminate.
    destruct (faults w) as [|[|] [|[|] fs]] eqn:Ef; cbn; rewrite ?Ef; cbn;
      try discriminate;
      intros [= <-]; cbn; rewrite delete_insert_eq, <- !app_assoc;
      (split; [reflexivity | split; [reflexivity | split; [reflexivity |]]]);
      eexists _, [_]; (split; [reflexivity | split; [reflexivity |]]);
      intros Hne; apply String.eqb_neq in Hne; congruence.
  - destruct (customer_data (client w)) as [| | | | | | |d] eqn:Eargs; cbn;
      try discriminate.
    destruct (faults w) as [|[|] [|[|] fs]] eqn:Ef; cbn; rewrite ?Ef; cbn;
      try discriminate;
      intros [= <-]; cbn; rewrite delete_insert_eq, <- ?app_assoc;
      (split; [reflexivity | split; [reflexivity | split; [reflexivity |]]]);
      exists "Unknown tool", []; auto.
Qed.

(** C7: of two consecutive arguments-done events with the same call-id the
    second is a no-op; an arguments-done event whose call-id is not pending
    changes nothing (no tool call, nothing sent, no response requested); and
    when the event for a pending call-id completes, the tool output and the
    response request have been sent, in that order, and the entry is gone. *)
Theorem arguments_done_twice (w : World) (cid : string) :
  deliver (response_function_call_arguments_done cid)
    (deliver (response_function_call_arguments_done cid) w)
  = deliver (response_function_call_arguments_done cid) w
  /\ (pending_tool_calls w !! cid = None ->
      deliver (response_function_call_arguments_done cid) w = w)
  /\ (forall entry,
        consuming w = true ->
        pending_tool_calls w !! cid = Some entry ->
        consuming (deliver (response_function_call_arguments_done cid) w) = true ->
        pending_tool_calls (deliver (response_function_call_arguments_done cid) w)
          = delete cid (pending_tool_calls w)
        /\ exists result tool_log,
             trace (deliver (response_function_call_arguments_done cid) w)
             = (trace w ++ tool_log
                ++ [Send (FunctionCallOutput cid (json_dumps result));
                    Send ResponseCreate])%list
             /\ sends_of tool_log = []).
Proof.
  assert (forall w0, pending_tool_calls w0 !! cid = None ->
            deliver (response_function_call_arguments_done cid) w0 = w0) as Habsent.
  { intros w0 Hnone. unfold deliver.
    rewrite (arguments_done_absent w0 cid Hnone). now destruct (consuming w0). }
  split; [| split].
  - destruct (pending_tool_calls w !! cid) as [entry|] eqn:Hp;
      [| now rewrite !(Habsent w Hp)].
    destruct (consuming w) eqn:Hc;
      [| unfold deliver; rewrite Hc; cbn; now rewrite Hc].
    destruct (on_event (response_function_call_arguments_done cid) w)
      as [[[] | e] w'] eqn:Hev.
    + replace (deliver (response_function_call_arguments_done cid) w) with w'
        by (unfold deliver; now rewrite Hc, Hev).
      apply Habsent.
      destruct (arguments_done_present w w' cid entry Hp Hev) as (-> & _).
      apply lookup_delete_eq.
    + replace (deliver (response_function_call_arguments_done cid) w)
        with (with_consuming false w')
        by (unfold deliver; now rewrite Hc, Hev).
      reflexivity.
  - exact (Habsent w).
  - intros entry Hc Hp. unfold deliver. rewrite Hc.
    destruct (on_event (response_function_call_arguments_done cid) w)
      as [[[] | e] w'] eqn:Hev; [| discriminate].
    intros _.
    destruct (arguments_done_present w w' cid entry Hp Hev)
      as (Hdel & _ & _ & result & tool_log & Htrace & Hsends & _).
    split; [exact Hdel |]. exists result, tool_log. auto.
Qed.

Lemma arguments_done_twice_witness :
  trace (deliver (response_function_call_arguments_done "call_1") sample.tool_pending)
  = [ToolCall "check_payment_status" (PInt 0);
     Send (FunctionCallOutput "call_1" (json_dumps "payment completed"));
     Send ResponseCreate]
  /\ pending_tool_calls
       (deliver (response_function_call_arguments_done "call_1") sample.tool_pending)
     = delete "call_1" (pending_tool_calls sample.tool_pending)
  /\ deliver (response_function_call_arguments_done "call_1")
       (deliver (response_function_call_arguments_done "call_1") sample.tool_pending)
     = deliver (response_function_call_arguments_done "call_1") sample.tool_pending.
Proof.
  destruct (arguments_done_twice sample.tool_pending "call_1") as (Htwice & _ & Hdone).
  split; [vm_compute; reflexivity | split; [| exact Htwice]].
  eapply Hdone; [reflexivity | apply lookup_insert_eq | vm_compute; reflexivity].
Defined.

(** ** Connecting *)

(** C6 (amended): when a required setting (endpoint, credential, API version,
    deployment id) is absent or empty, [connect] raises [ValueError] to its
    caller, having touched nothing upstream and left [connected] false. *)
Theorem connect_missing_setting (cfg : Settings) (w : World) :
  truthy (AZURE_OPENAI_ENDPOINT cfg) = false
  \/ truthy (AZURE_OPENAI_API_KEY cfg) = false
  \/ truthy (AZURE_API_VERSION cfg) = false
  \/ truthy (AZURE_OPENAI_DEPLOYMENT cfg) = false ->
  connect cfg w = (Raise ValueError, with_client (set_connected false) w).
Proof.
  intros Hmissing. unfold connect. st_simpl.
  replace (negb (truthy (AZURE_OPENAI_ENDPOINT cfg))
           || negb (truthy (AZURE_OPENAI_API_KEY cfg))
           || negb (truthy (AZURE_API_VERSION cfg))
           || negb (truthy (AZURE_OPENAI_DEPLOYMENT cfg))) with true; [reflexivity |].
  symmetry. rewrite !orb_true_iff, !negb_true_iff. tauto.
Qed.

Lemma connect_missing_setting_witness :
  connect (module_settings None (Some "endpoint")) sample.idle
  = (Raise ValueError, with_client (set_connected false) sample.idle).
Proof.
  apply (connect_missing_setting (module_settings None (Some "endpoint")) sample.idle).
  right. left. reflexivity.
Defined.

(** C6, as stated, fails: with the credential absent the exception that
    reaches the caller is [ValueError], which is not a [ConnectionError]. *)
Lemma connect_raises_value_error :
  exists e,
    fst (connect (module_settings None (Some "endpoint")) sample.idle) = Raise e
    /\ e <> ConnectionError.
Proof. exists ValueError. split; [reflexivity | discriminate]. Qed.

(** ** The gateway's receive loop *)

Lemma no_fault_head (n : nat) (w : World) (fs : list bool) :
  no_fault (S n) w -> faults w = true :: fs -> False.
Proof.
  intros Hno Hf. apply (Hno 0%nat); [lia |]. now rewrite Hf.
Qed.

Lemma no_fault_tail (n : nat) (w w' : World) (b : bool) (fs : list bool) :
  no_fault (S n) w -> faults w = b :: fs -> faults w' = fs -> no_fault n w'.
Proof.
  intros Hno Hf Hf' i Hi. rewrite Hf'.
  specialize (Hno (S i)). rewrite Hf in Hno. apply Hno. lia.
Qed.

Lemma no_fault_same (n : nat) (w w' : World) :
  no_fault (S n) w -> faults w' = faults w -> no_fault n w'.
Proof. intros Hno Hf i Hi. rewrite Hf. apply Hno. lia. Qed.

(** An AudioData frame with decodable data, on a call that is not done:
    one call of [append_input_audio], and the loop goes on. *)
Lemma on_frame_audio (w : World) (payload : pyval) (data : string) (bs : list byte) :
  is_audio_frame payload data ->
  Base64.b64decode data = Ok bs ->
  conversation_done (client w) = false ->
  no_fault 1 w ->
  exists w1 t,
    server.on_frame (Ok payload) w = (Ok false, w1)
    /\ trace w1 = (trace w ++ t)%list
    /\ calls_of t = [append_input_audio_ bs]
    /\ conversation_done (client w1) = false
    /\ (forall n, no_fault (S n) w -> no_fault n w1).
Proof.
  intros Hp Hdec Hdone Hno. frame_fields Hp.
  unfold server.on_frame, append_input_audio, is_conversation_done, upstream, log,
    next_fault.
  st_simpl. cbn. rewrite Hkind. cbn. rewrite Hdata. cbn. rewrite Hdec. cbn.
  destruct (connection (client w)) eqn:Hconn; cbn.
  - destruct (faults w) as [|[|] fs] eqn:Hf; cbn; rewrite ?Hdone; cbn.
    + eexists _, [_; _]. rewrite <- app_assoc.
      repeat split; try reflexivity; try assumption.
      intros n Hn. eapply no_fault_same; [exact Hn | reflexivity].
    + exfalso. eapply no_fault_head; eassumption.
    + eexists _, [_; _]. rewrite <- app_assoc.
      repeat split; try reflexivity; try assumption.
      intros n Hn. eapply no_fault_tail; [exact Hn | exact Hf | reflexivity].
  - rewrite Hdone. cbn. eexists _, [_].
    repeat split; try reflexivity; try assumption.
    intros n Hn. eapply no_fault_same; [exact Hn | reflexivity].
Qed.

(** A StopAudio frame on a call that is not done: [commit_audio], then
    [create_response], whose own failure is swallowed. *)
Lemma on_frame_stop (w : World) (payload : pyval) :
  is_stop_frame payload ->
  conversation_done (client w) = false ->
  no_fault 1 w ->
  exists w1 t,
    server.on_frame (Ok payload) w = (Ok false, w1)
    /\ trace w1 = (trace w ++ t)%list
    /\ calls_of t = [commit_audio_; create_response_].
Proof.
  intros Hp Hdone Hno. frame_fields Hp.
  unfold server.on_frame, commit_audio, create_response, is_conversation_done,
    upstream, log, next_fault.
  st_simpl. cbn. rewrite Hkind. cbn.
  destruct (connection (client w)) eqn:Hconn; cbn.
  - destruct (faults w) as [|[|] fs] eqn:Hf; cbn; rewrite ?Hf, ?Hconn; cbn;
      [| exfalso; eapply no_fault_head; eassumption |];
      destruct (_responding (client w)); cbn; rewrite ?Hf; cbn;
      try (destruct fs as [|[|] fs']; cbn); rewrite ?Hdone; cbn;
      eexists _, _; (split; [reflexivity |]); rewrite <- ?app_assoc;
      (split; [reflexivity |]); reflexivity.
  - rewrite Hconn. cbn. rewrite Hdone. cbn.
    eexists _, [_; _]. rewrite <- app_assoc. repeat split; reflexivity.
Qed.

(** C3 (amended): an AudioData frame whose data decodes, followed by a
    StopAudio frame, both received by a running loop on a call that is not
    done, with the next two upstream sends not failing: the loop calls
    append-audio once, then commit-audio once, then create-response once, and
    no other method of the client. *)
Theorem audio_then_stop_calls (g : server.Gateway) (audio stop : pyval)
    (data : string) (bs : list byte) :
  server.receiving g = true ->
  conversation_done (client (server.world g)) = false ->
  no_fault 2 (server.world g) ->
  is_audio_frame audio data ->
  Base64.b64decode data = Ok bs ->
  is_stop_frame stop ->
  calls_of
    (since (trace (server.world g))
       (trace (server.world
          (server.run [server.from_client (server.message (Ok audio));
                       server.from_client (server.message (Ok stop))] g))))
  = [append_input_audio_ bs; commit_audio_; create_response_].
Proof.
  intros Hrecv Hdone Hno Haudio Hdec Hstop.
  destruct (on_frame_audio (server.world g) audio data bs Haudio Hdec Hdone)
    as (w1 & t1 & E1 & Ht1 & Hc1 & Hdone1 & Hno1).
  { intros i Hi. apply Hno. lia. }
  destruct (on_frame_stop w1 stop Hstop Hdone1 (Hno1 1%nat Hno))
    as (w2 & t2 & E2 & Ht2 & Hc2).
  unfold server.run. cbn [fold_left server.step]. unfold server.receive.
  rewrite Hrecv, E1. cbn [server.receiving server.world]. rewrite E2.
  cbn [server.world]. rewrite Ht2, Ht1, <- app_assoc, since_app.
  unfold calls_of in *. rewrite omap_app, Hc1, Hc2. reflexivity.
Qed.

Lemma audio_then_stop_calls_witness :
  sample.fresh = Ok sample.gateway
  /\ calls_of
       (since (trace (server.world sample.gateway))
          (trace (server.world
             (server.run [sample.audio_frame "QUJD"; sample.stop_frame] sample.gateway))))
     = [append_input_audio_ ["A"; "B"; "C"]%byte; commit_audio_; create_response_].
Proof.
  split; [vm_compute; reflexivity |].
  apply (audio_then_stop_calls sample.gateway
           (PDict [("kind", PStr "AudioData"); ("data", PStr "QUJD")])
           (PDict [("kind", PStr "StopAudio")]) "QUJD" ["A"; "B"; "C"]%byte).
  - vm_compute. reflexivity.
  - vm_compute. reflexivity.
  - intros i Hi. vm_compute. destruct i; discriminate.
  - eexists. repeat split; reflexivity.
  - vm_compute. reflexivity.
  - eexists. repeat split; reflexivity.
Defined.

(** C3, as stated, fails: once the assistant's farewell has set the
    conversation-done flag, an AudioData frame is passed on and then the loop
    stops the call; the StopAudio frame that follows is never handled, so
    neither commit-audio nor create-response is called. *)
Lemma audio_then_stop_after_farewell :
  exists g,
    sample.after sample.farewell = Ok g
    /\ server.receiving g = true
    /\ calls_of
         (since (trace (server.world g))
            (trace (server.world
               (server.run [sample.audio_frame "QUJD"; sample.stop_frame] g))))
       = [append_input_audio_ ["A"; "B"; "C"]%byte; disconnect_].
Proof.
  eexists. split; [vm_compute; reflexivity |].
  split; vm_compute; reflexivity.
Qed.

(** ** Base64: decoding undoes encoding *)

Lemma forall_below (k : nat) (p : N -> bool) :
  forallb p (below k) = true -> forall n, (n < N.of_nat k)%N -> p n = true.
Proof.
  intros H n Hn. rewrite forallb_forall in H. apply H.
  unfold below. rewrite <- (N2Nat.id n). apply in_map. apply in_seq. lia.
Qed.

(** Every six-bit value has a character of the alphabet, which is ASCII,
    is not the padding character, and maps back to the value. *)
Lemma alphabet_round_trip (v : N) :
  (v < 64)%N ->
  Base64.a2b (Base64.b2a v) = Some v
  /\ Ascii.eqb (Base64.b2a v) Base64.pad = false
  /\ (N_of_ascii (Base64.b2a v) <? 128)%N = true.
Proof.
  intros Hv.
  assert (forallb
            (fun v => match Base64.a2b (Base64.b2a v) with
                      | Some u => N.eqb u v
                      | None => false
                      end
                      && negb (Ascii.eqb (Base64.b2a v) Base64.pad)
                      && (N_of_ascii (Base64.b2a v) <? 128)%N)
            (below 64) = true) as Hall by (vm_compute; reflexivity).
  apply (forall_below 64 _ Hall) in Hv.
  apply andb_prop in Hv as [Hv H3]. apply andb_prop in Hv as [H1 H2].
  destruct (Base64.a2b (Base64.b2a v)); [| discriminate].
  apply N.eqb_eq in H1. subst. apply negb_true_iff in H2. auto.
Qed.

(** The bits of three bytes survive the regrouping into four six-bit values
    and back. *)
Lemma regroup (n1 n2 n3 : N) :
  (n1 < 256)%N -> (n2 < 256)%N -> (n3 < 256)%N ->
  exists v1 v2 v3 v4,
    sextets n1 n2 n3 = (v1, v2, v3, v4)
    /\ (v1 < 64 /\ v2 < 64 /\ v3 < 64 /\ v4 < 64)%N
    /\ octets v1 v2 v3 v4 = (n1, n2, n3).
Proof.
  intros H1 H2 H3.
  assert (forallb (fun a => forallb (regroups_12 a) (below 256)) (below 256) = true)
    as A12 by (vm_compute; reflexivity).
  assert (forallb (fun a => forallb (regroups_23 a) (below 256)) (below 256) = true)
    as A23 by (vm_compute; reflexivity).
  assert (forallb regroups_1 (below 256) = true) as A1 by (vm_compute; reflexivity).
  pose proof (forall_below 256 _ (forall_below 256 _ A12 n1 H1) n2 H2) as P12.
  pose proof (forall_below 256 _ (forall_below 256 _ A23 n2 H2) n3 H3) as P23.
  pose proof (forall_below 256 _ A1 n1 H1) as P1.
  pose proof (forall_below 256 _ A1 n2 H2) as P2.
  pose proof (forall_below 256 _ A1 n3 H3) as P3.
  unfold regroups_12, regroups_23, regroups_1 in *. cbv zeta in *.
  repeat match goal with
         | H : _ && _ = true |- _ => apply andb_prop in H as [? ?]
         | H : (_ <? _)%N = true |- _ => apply N.ltb_lt in H
         | H : (_ =? _)%N = true |- _ => apply N.eqb_eq in H
         end.
  unfold sextets, octets. do 4 eexists. split; [reflexivity |].
  split; [auto |]. congruence.
Qed.

Lemma byte_of_to_N (b : byte) : Base64.byte_of_N (Byte.to_N b) = b.
Proof.
  unfold Base64.byte_of_N. pose proof (Byte.to_N_bounded b) as Hb.
  rewrite N.mod_small by lia. now rewrite Byte.of_to_N.
Qed.

Lemma to_N_below (b : byte) : (Byte.to_N b < 256)%N.
Proof. pose proof (Byte.to_N_bounded b). lia. Qed.

(** Induction on a list of bytes three at a time, as the encoder reads it. *)
Lemma list_ind_by_three {A} (P : list A -> Prop) :
  P [] ->
  (forall a, P [a]) ->
  (forall a b, P [a; b]) ->
  (forall a b c l, P l -> P (a :: b :: c :: l)) ->
  forall l, P l.
Proof.
  intros H0 H1 H2 H3 l.
  assert (P l /\ (forall a, P (a :: l)) /\ (forall a b, P (a :: b :: l))) as [Hl _].
  { induction l as [|x l (IH0 & IH1 & IH2)]; [auto |].
    split; [apply IH1 | split; [intros a; apply IH2 | intros a b; now apply H3]]. }
  exact Hl.
Qed.

(** A full group of four characters decodes to three bytes, and the decoder
    is back in its initial state. *)
Lemma a2b_full_group (v1 v2 v3 v4 : N) (rest : string) :
  (v1 < 64)%N -> (v2 < 64)%N -> (v3 < 64)%N -> (v4 < 64)%N ->
  Base64.a2b_base64
    (String (Base64.b2a v1) (String (Base64.b2a v2)
       (String (Base64.b2a v3) (String (Base64.b2a v4) rest)))) 0 0 0
  = (out ← Base64.a2b_base64 rest 0 0 0;
     mret (Base64.byte_of_N (fst (fst (octets v1 v2 v3 v4)))
           :: Base64.byte_of_N (snd (fst (octets v1 v2 v3 v4)))
           :: Base64.byte_of_N (snd (octets v1 v2 v3 v4)) :: out)).
Proof.
  intros H1 H2 H3 H4.
  destruct (alphabet_round_trip v1 H1) as (A1 & B1 & _).
  destruct (alphabet_round_trip v2 H2) as (A2 & B2 & _).
  destruct (alphabet_round_trip v3 H3) as (A3 & B3 & _).
  destruct (alphabet_round_trip v4 H4) as (A4 & B4 & _).
  cbn [Base64.a2b_base64]. rewrite B1, A1. cbn [N.eqb].
  rewrite B2, A2. cbn [N.eqb Pos.eqb]. rewrite B3, A3. cbn [N.eqb Pos.eqb].
  rewrite B4, A4. cbn [N.eqb Pos.eqb].
  destruct (Base64.a2b_base64 rest 0 0 0); reflexivity.
Qed.

(** The two padded endings. *)
Lemma a2b_last_one (v1 v2 : N) :
  (v1 < 64)%N -> (v2 < 64)%N ->
  Base64.a2b_base64
    (String (Base64.b2a v1) (String (Base64.b2a v2)
       (String Base64.pad (String Base64.pad EmptyString)))) 0 0 0
  = Ok [Base64.byte_of_N (N.lor (N.shiftl v1 2) (N.shiftr v2 4))].
Proof.
  intros H1 H2.
  destruct (alphabet_round_trip v1 H1) as (A1 & B1 & _).
  destruct (alphabet_round_trip v2 H2) as (A2 & B2 & _).
  cbn [Base64.a2b_base64]. rewrite B1, A1. cbn [N.eqb].
  rewrite B2, A2. cbn [N.eqb Pos.eqb]. reflexivity.
Qed.

Lemma a2b_last_two (v1 v2 v3 : N) :
  (v1 < 64)%N -> (v2 < 64)%N -> (v3 < 64)%N ->
  Base64.a2b_base64
    (String (Base64.b2a v1) (String (Base64.b2a v2)
       (String (Base64.b2a v3) (String Base64.pad EmptyString)))) 0 0 0
  = Ok [Base64.byte_of_N (N.lor (N.shiftl v1 2) (N.shiftr v2 4));
        Base64.byte_of_N (N.lor (N.shiftl (N.land v2 15) 4) (N.shiftr v3 2))].
Proof.
  intros H1 H2 H3.
  destruct (alphabet_round_trip v1 H1) as (A1 & B1 & _).
  destruct (alphabet_round_trip v2 H2) as (A2 & B2 & _).
  destruct (alphabet_round_trip v3 H3) as (A3 & B3 & _).
  cbn [Base64.a2b_base64]. rewrite B1, A1. cbn [N.eqb].
  rewrite B2, A2. cbn [N.eqb Pos.eqb]. rewrite B3, A3. cbn [N.eqb Pos.eqb].
  reflexivity.
Qed.

(** What the encoder writes is ASCII and decodes to the bytes it was given. *)
Lemma b64encode_decodes (bs : list byte) :
  Base64.is_ascii (Base64.b64encode bs) = true
  /\ Base64.a2b_base64 (Base64.b64encode bs) 0 0 0 = Ok bs.
Proof.
  induction bs as [| b1 | b1 b2 | b1 b2 b3 rest [IHa IHd]] using list_ind_by_three.
  - split; reflexivity.
  - destruct (regroup (Byte.to_N b1) 0 0 (to_N_below b1)) as
      (v1 & v2 & v3 & v4 & Hs & (H1 & H2 & _ & _) & Ho); [reflexivity .. |].
    unfold sextets, octets in *. injection Hs as <- E2 _ _. injection Ho as O1 _ _.
    cbn [N.shiftr N.shiftl N.land] in E2. rewrite N.lor_0_r in E2.
    cbn [Base64.b64encode Base64.is_ascii]. rewrite E2.
    destruct (alphabet_round_trip _ H1) as (_ & _ & ->).
    destruct (alphabet_round_trip _ H2) as (_ & _ & ->).
    split; [reflexivity |].
    rewrite (a2b_last_one _ _ H1 H2), O1, byte_of_to_N. reflexivity.
  - destruct (regroup (Byte.to_N b1) (Byte.to_N b2) 0 (to_N_below b1) (to_N_below b2))
      as (v1 & v2 & v3 & v4 & Hs & (H1 & H2 & H3 & _) & Ho); [reflexivity |].
    unfold sextets, octets in *. injection Hs as <- <- E3 _. injection Ho as O1 O2 _.
    cbn [N.shiftr N.shiftl N.land] in E3. rewrite N.lor_0_r in E3.
    cbn [Base64.b64encode Base64.is_ascii]. rewrite E3.
    destruct (alphabet_round_trip _ H1) as (_ & _ & ->).
    destruct (alphabet_round_trip _ H2) as (_ & _ & ->).
    destruct (alphabet_round_trip _ H3) as (_ & _ & ->).
    split; [reflexivity |].
    rewrite (a2b_last_two _ _ _ H1 H2 H3), O1, O2, !byte_of_to_N. reflexivity.
  - destruct (regroup (Byte.to_N b1) (Byte.to_N b2) (Byte.to_N b3)
                (to_N_below b1) (to_N_below b2) (to_N_below b3))
      as (v1 & v2 & v3 & v4 & Hs & (H1 & H2 & H3 & H4) & Ho).
    unfold sextets in Hs. injection Hs as <- <- <- <-.
    cbn [Base64.b64encode Base64.is_ascii].
    destruct (alphabet_round_trip _ H1) as (_ & _ & ->).
    destruct (alphabet_round_trip _ H2) as (_ & _ & ->).
    destruct (alphabet_round_trip _ H3) as (_ & _ & ->).
    destruct (alphabet_round_trip _ H4) as (_ & _ & ->).
    split; [exact IHa |].
    rewrite (a2b_full_group _ _ _ _ _ H1 H2 H3 H4), IHd, Ho. cbn.
    now rewrite !byte_of_to_N.
Qed.

(** Decoding undoes encoding: no byte is lost or changed. *)
Lemma b64decode_b64encode (bs : list byte) :
  Base64.b64decode (Base64.b64encode bs) = Ok bs.
Proof.
  unfold Base64.b64decode. destruct (b64encode_decodes bs) as [-> ->]. reflexivity.
Qed.

(** C4: for an AudioData frame whose payload decodes to [bs], received on a
    connected session, the loop issues exactly one upstream message, an
    append-audio, and the audio it carries decodes to exactly [bs]. *)
Theorem audio_frame_round_trip (g : server.Gateway) (payload : pyval)
    (data : string) (bs : list byte) :
  server.receiving g = true ->
  connection (client (server.world g)) = true ->
  is_audio_frame payload data ->
  Base64.b64decode data = Ok bs ->
  exists audio,
    sends_of
      (since (trace (server.world g))
         (trace (server.world (server.receive (server.message (Ok payload)) g))))
    = [InputAudioBufferAppend audio]
    /\ Base64.b64decode audio = Ok bs.
Proof.
  intros Hrecv Hconn Hp Hdec. frame_fields Hp.
  exists (Base64.b64encode bs). split; [| apply b64decode_b64encode].
  unfold server.receive, server.on_frame, server.cleanup, append_input_audio,
    disconnect, is_conversation_done, upstream, log, next_fault.
  rewrite Hrecv. st_simpl. cbn. rewrite Hkind. cbn. rewrite Hdata. cbn.
  rewrite Hdec. cbn. rewrite Hconn. cbn.
  destruct (faults (server.world g)) as [|[|] fs] eqn:Hf; cbn;
    destruct (conversation_done (client (server.world g))); cbn;
    destruct (connection_manager (client (server.world g))); cbn;
    rewrite ?Hf; cbn;
    try (destruct fs as [|[|] fs']; cbn);
    rewrite <- ?app_assoc, since_app; reflexivity.
Qed.

Lemma audio_frame_round_trip_witness :
  sample.fresh = Ok sample.gateway
  /\ exists audio,
       sends_of
         (since (trace (server.world sample.gateway))
            (trace (server.world
               (server.receive
                  (server.message
                     (Ok (PDict [("kind", PStr "AudioData"); ("data", PStr "QUJD")])))
                  sample.gateway))))
       = [InputAudioBufferAppend audio]
       /\ Base64.b64decode audio = Ok ["A"; "B"; "C"]%byte.
Proof.
  split; [vm_compute; reflexivity |].
  apply (audio_frame_round_trip sample.gateway
           (PDict [("kind", PStr "AudioData"); ("data", PStr "QUJD")]) "QUJD"
           ["A"; "B"; "C"]%byte).
  - vm_compute. reflexivity.
  - vm_compute. reflexivity.
  - eexists. repeat split; reflexivity.
  - vm_compute. reflexivity.
Defined.

(** ** Call initiation *)

Lemma stored_after_start (store : gmap string server.CallSession) (call_id : string)
    (data : server.CallInitiateModel) (info : pyval) :
  server.call_metadata
    <$> alter (server.set_call_metadata info) call_id
          (<[call_id := {| server.customer := data; server.call_metadata := PDict [];
                           server.disposition := PDict [] |}]> store) !! call_id
  = Some info.
Proof. rewrite lookup_alter_eq, lookup_insert_eq. reflexivity. Qed.

(** The mock resolver never raises, and gives the empty dict when the
    lookup fails. *)
Lemma fetch_additional_customer_info_fails (s : server.Server)
    (loan_id system_id : string) :
  lookup_fails s loan_id system_id ->
  server.fetch_additional_customer_info loan_id system_id s = (Ok (PDict []), s).
Proof.
  unfold lookup_fails, server.fetch_additional_customer_info. st_simpl.
  destruct (server.data_csv s) as [df | e]; [| reflexivity].
  cbn. destruct (server.has_column df "Loan_ID") as [[] | e1]; [| reflexivity].
  cbn. destruct (server.has_column df "system_id") as [[] | e2]; [| reflexivity].
  cbn. intros [Hc | [Hc | Hrows]]; try congruence. now rewrite Hrows.
Qed.

(** A rejected login raises [AuthenticationError] and uses up one reply. *)
Lemma authenticate_rejected `{collekto_data_fetcher.Cipher}
    (username : option string) (password : string)
    (f : collekto_data_fetcher.Flow) (r : collekto_data_fetcher.Response)
    (rest : list (Result collekto_data_fetcher.Response)) :
  collekto_data_fetcher.replies f = Ok r :: rest ->
  collekto_data_fetcher.is_error r = true ->
  exists f',
    collekto_data_fetcher.authenticate username (Some password) f
    = (Raise AuthenticationError, f')
    /\ collekto_data_fetcher.replies f' = rest
    /\ collekto_data_fetcher.loan_data f' = collekto_data_fetcher.loan_data f
    /\ collekto_data_fetcher.disposition_data f'
       = collekto_data_fetcher.disposition_data f.
Proof.
  intros Hr He. unfold collekto_data_fetcher.authenticate, collekto_data_fetcher.http,
    collekto_data_fetcher.ok.
  st_simpl. cbn. rewrite Hr. cbn. rewrite He. cbn. eexists. repeat split.
Qed.

(** With both logins rejected the flow returns its two initial empty lists. *)
Lemma run_ltfs_flow_rejected_twice `{collekto_data_fetcher.Cipher}
    (USERNAME username : option string) (PASSWORD password : string)
    (loan_id case_loan_id : string) (f : collekto_data_fetcher.Flow)
    (r1 r2 : collekto_data_fetcher.Response)
    (rest : list (Result collekto_data_fetcher.Response)) :
  collekto_data_fetcher.replies f = Ok r1 :: Ok r2 :: rest ->
  collekto_data_fetcher.is_error r1 = true ->
  collekto_data_fetcher.is_error r2 = true ->
  fst (collekto_data_fetcher.run_ltfs_flow USERNAME (Some PASSWORD) username
         (Some password) loan_id case_loan_id f)
  = Ok (PTuple [PList []; PList []]).
Proof.
  intros Hr H1 H2.
  destruct (authenticate_rejected username password
              (collekto_data_fetcher.set_disposition_data (PList [])
                 (collekto_data_fetcher.set_loan_data (PList []) f))
              r1 (Ok r2 :: rest) Hr H1)
    as (f1 & E1 & Hr1 & Hl1 & Hd1).
  destruct (authenticate_rejected USERNAME PASSWORD f1 r2 rest Hr1 H2)
    as (f2 & E2 & Hr2 & Hl2 & Hd2).
  unfold collekto_data_fetcher.run_ltfs_flow. st_unfold.
  rewrite E1. cbn.
  change (bool_decide (AuthenticationError ∈ [AuthenticationError; APIError])) with true.
  cbn. rewrite E2. cbn.
  change (bool_decide (AuthenticationError ∈ [AuthenticationError; APIError])) with true.
  cbn. rewrite Hl2, Hd2, Hl1, Hd1. reflexivity.
Qed.

(** Where the resolver's failure is tolerated.  In mock mode, when the CSV
    lookup fails, [start_call] still returns its response and the stored
    call metadata is the empty dict; in REST mode, when the backend rejects
    both the credentials of the call and the default ones, [start_call]
    still returns its response, and the stored metadata is the pair of empty
    lists the flow returns. *)
Theorem start_call_resolver_failure `{collekto_data_fetcher.Cipher}
    (env : server.Environ) (now call_id : string) (data : server.CallInitiateModel)
    (s : server.Server) :
  (truthy (server.MOCK_COLLEKTO_API env) = true ->
   lookup_fails s (server.loan_id data) (server.system_id data) ->
   fst (server.start_call env now call_id data s) = Ok (completed now call_id data)
   /\ stored_metadata (snd (server.start_call env now call_id data s)) call_id
      = Some (PDict []))
  /\ (truthy (server.MOCK_COLLEKTO_API env) = false ->
      rejected_twice env s ->
      fst (server.start_call env now call_id data s) = Ok (completed now call_id data)
      /\ stored_metadata (snd (server.start_call env now call_id data s)) call_id
         = Some (PTuple [PList []; PList []])).
Proof.
  split.
  - intros Hmock Hfails. unfold server.start_call, stored_metadata. st_simpl.
    rewrite Hmock. cbn.
    rewrite fetch_additional_customer_info_fails by exact Hfails.
    cbn. split; [reflexivity | apply stored_after_start].
  - intros Hrest (p1 & p2 & r1 & r2 & rest & Hp1 & Hp2 & Hr & H1 & H2).
    pose proof (run_ltfs_flow_rejected_twice (server.USERNAME env)
                  (server.COLLEKTO_USERNAME env) p2 p1 (server.loan_id data)
                  (server.system_id data) (server.backend s) r1 r2 rest Hr H1 H2) as Hflow.
    unfold server.start_call, server.on_backend, stored_metadata. st_simpl.
    rewrite Hrest, Hp1, Hp2. cbn.
    destruct (collekto_data_fetcher.run_ltfs_flow _ _ _ _ _ _ _) as [r f'].
    cbn in Hflow. subst r. cbn. split; [reflexivity | apply stored_after_start].
Qed.

Lemma start_call_resolver_failure_witness :
  (fst (server.start_call (H := sample.cipher) sample.mock_env "now" "call-1"
          sample.request (sample.server_with []))
   = Ok (completed "now" "call-1" sample.request)
   /\ stored_metadata
        (snd (server.start_call (H := sample.cipher) sample.mock_env "now" "call-1"
                sample.request (sample.server_with []))) "call-1"
      = Some (PDict []))
  /\ (fst (server.start_call (H := sample.cipher) sample.rest_env "now" "call-1"
             sample.request
             (sample.server_with [Ok sample.unauthorized; Ok sample.unauthorized]))
      = Ok (completed "now" "call-1" sample.request)
      /\ stored_metadata
           (snd (server.start_call (H := sample.cipher) sample.rest_env "now" "call-1"
                   sample.request
                   (sample.server_with [Ok sample.unauthorized; Ok sample.unauthorized])))
           "call-1"
         = Some (PTuple [PList []; PList []])).
Proof.
  split.
  - apply (start_call_resolver_failure (H := sample.cipher) sample.mock_env "now" "call-1"
             sample.request (sample.server_with [])); [reflexivity | exact I].
  - apply (start_call_resolver_failure (H := sample.cipher) sample.rest_env "now" "call-1"
             sample.request
             (sample.server_with [Ok sample.unauthorized; Ok sample.unauthorized]));
      [reflexivity |].
    exists "secret", "default-secret", sample.unauthorized, sample.unauthorized, [].
    repeat split; reflexivity.
Defined.

(** In REST mode with both logins rejected the call is set up, but what
    is stored as its metadata is the pair [([], [])] the flow returns, not
    an empty object. *)
Lemma start_call_stores_pair_of_lists :
  exists s',
    server.start_call (H := sample.cipher) sample.rest_env "now" "call-1" sample.request
      (sample.server_with [Ok sample.unauthorized; Ok sample.unauthorized])
    = (Ok (completed "now" "call-1" sample.request), s')
    /\ stored_metadata s' "call-1" = Some (PTuple [PList []; PList []])
    /\ PTuple [PList []; PList []] <> PDict [].
Proof.
  eexists. split; [vm_compute; reflexivity |].
  split; [vm_compute; reflexivity | discriminate].
Qed.

(** When the default login is accepted after the first was rejected, the
    flow evaluates the unbound name [LOAN_ID]: [NameError] is not one of the
    exceptions it handles and leaves [start_call]. *)
Lemma start_call_default_login_accepted :
  fst (server.start_call (H := sample.cipher) sample.rest_env "now" "call-1"
         sample.request
         (sample.server_with [Ok sample.unauthorized; Ok sample.token_reply]))
  = Raise NameError.
Proof. vm_compute. reflexivity. Qed.

(** ** The prompt builder *)

Lemma lower_char_inv (c lo up : ascii) :
  (PyStr.code up + 32 = PyStr.code lo)%N ->
  (65 <=? PyStr.code up)%N && (PyStr.code up <=? 90)%N = true ->
  PyStr.lower_char c = lo <-> c = lo \/ c = up.
Proof.
  intros Hcase Hup. unfold PyStr.lower_char, PyStr.code in *.
  apply andb_prop in Hup as [Hu1 Hu2]. apply N.leb_le in Hu1, Hu2.
  assert (forall a b, N_of_ascii a = N_of_ascii b -> a = b) as Hinj.
  { intros a b E. rewrite <- (ascii_N_embedding a), <- (ascii_N_embedding b). now rewrite E. }
  pose proof (N_ascii_bounded c) as Hc.
  destruct ((65 <=? N_of_ascii c)%N && (N_of_ascii c <=? 90)%N) eqn:E.
  - apply andb_prop in E as [E1 E2]. apply N.leb_le in E1, E2. split.
    + intros <-. right. apply Hinj.
      rewrite N_ascii_embedding in Hcase by lia. lia.
    + intros [-> | ->].
      * rewrite <- Hcase in E2. lia.
      * apply Hinj. rewrite N_ascii_embedding by lia. exact Hcase.
  - split; [auto |]. intros [-> | ->]; [reflexivity |].
    apply andb_false_iff in E as [E | E]; apply N.leb_gt in E; lia.
Qed.

Lemma lower_is_male (g : string) : PyStr.lower g = "male" <-> spelled_male g.
Proof.
  unfold spelled_male. split.
  - destruct g as [|c1 [|c2 [|c3 [|c4 [|c5 g]]]]]; cbn; try discriminate.
    intros [= E1 E2 E3 E4]. exists c1, c2, c3, c4. split; [reflexivity |].
    apply (lower_char_inv c1 "m" "M") in E1; [| reflexivity ..].
    apply (lower_char_inv c2 "a" "A") in E2; [| reflexivity ..].
    apply (lower_char_inv c3 "l" "L") in E3; [| reflexivity ..].
    apply (lower_char_inv c4 "e" "E") in E4; [| reflexivity ..].
    auto.
  - intros (c1 & c2 & c3 & c4 & -> & H1 & H2 & H3 & H4). cbn.
    apply (lower_char_inv c1 "m" "M") in H1; [| reflexivity ..].
    apply (lower_char_inv c2 "a" "A") in H2; [| reflexivity ..].
    apply (lower_char_inv c3 "l" "L") in H3; [| reflexivity ..].
    apply (lower_char_inv c4 "e" "E") in H4; [| reflexivity ..].
    now rewrite H1, H2, H3, H4.
Qed.

Lemma salutation_for_spec (g : string) :
  (spelled_male g -> salutation_for (PStr g) = Ok "Mr.")
  /\ (~ spelled_male g -> salutation_for (PStr g) = Ok "Ms.").
Proof.
  unfold salutation_for. cbn. rewrite <- lower_is_male.
  destruct (String.eqb (PyStr.lower g) "male") eqn:E.
  - apply String.eqb_eq in E. split; [reflexivity | contradiction].
  - apply String.eqb_neq in E. split; [contradiction | reflexivity].
Qed.

Lemma append_assoc (s t u : string) : (s ++ t) ++ u = s ++ t ++ u.
Proof. induction s as [|c s IH]; [reflexivity |]. rewrite !append_cons. now rewrite IH. Qed.

(** The instructions carry the salutation on their "Salutation" line. *)
Lemma system_prompt_salutation_line
    (name gender salutation formatted_emi loan_type formatted_date : string) :
  PyStr.contains ("- Salutation: " ++ salutation)
    (system_prompt name gender salutation formatted_emi loan_type formatted_date) = true.
Proof.
  apply contains_app. unfold system_prompt.
  generalize script_opening, script_flow. intros opening flow.
  cbn [String.concat].
  match goal with
  | |- exists pre post, opening ++ _ ++ name ++ _ ++ ?l1 ++ _ ++ gender ++ _ ++ _ ++ _
                        ++ salutation ++ _ ++ ?rest = _ =>
    exists (opening ++ name ++ l1 ++ gender ++ "
        "), rest
  end.
  rewrite !append_assoc. reflexivity.
Qed.

(** C9 (amended): for a customer record whose gender is a string, the
    instructions generated are the script with its salutation slots filled
    with "Mr." when the gender is "male" in any mix of upper and lower case,
    and with "Ms." for every other gender string; for a record whose gender
    is not a string no instructions are generated, the prompt builder
    raises. *)
Theorem honorific_by_gender `{Formatting} (customer : pyval) :
  (forall gender prompt,
     subscript customer "Gender" = Ok (PStr gender) ->
     get_system_prompt customer = Ok prompt ->
     exists name emi product date salutation,
       prompt = system_prompt name gender salutation emi product date
       /\ PyStr.contains ("- Salutation: " ++ salutation) prompt = true
       /\ (spelled_male gender -> salutation = "Mr.")
       /\ (~ spelled_male gender -> salutation = "Ms."))
  /\ (forall gender,
        subscript customer "Gender" = Ok gender ->
        (forall g, gender <> PStr g) ->
        exists e, get_system_prompt customer = Raise e).
Proof.
  split.
  - intros gender prompt Hg. unfold get_system_prompt. rewrite Hg.
    destruct (subscript customer "Debtor_Name") as [name |]; [| discriminate].
    destruct (subscript customer "EMI_Amount") as [emi |]; [| discriminate].
    destruct (subscript customer "Payment_Due_Date") as [due |]; [| discriminate].
    destruct (subscript customer "Product") as [loan |]; [| discriminate].
    cbn [mbind Result_bind mret Result_ret].
    destruct (format_amount emi) as [formatted |]; [| discriminate].
    destruct (salutation_for_spec gender) as [Hmr Hms].
    destruct (salutation_for (PStr gender)) as [salutation |] eqn:Es;
      [| unfold salutation_for in Es; discriminate].
    cbn [py_format]. intros [= <-].
    exists (py_format name), formatted, (py_format loan), (py_format due), salutation.
    split; [reflexivity |]. split; [apply system_prompt_salutation_line |].
    split; intros Hm; [specialize (Hmr Hm) | specialize (Hms Hm)]; congruence.
  - intros gender Hg Hns. unfold get_system_prompt. rewrite Hg.
    destruct (subscript customer "Debtor_Name") as [name | e]; [| eexists; reflexivity].
    destruct (subscript customer "EMI_Amount") as [emi | e]; [| eexists; reflexivity].
    destruct (subscript customer "Payment_Due_Date") as [due | e];
      [| eexists; reflexivity].
    destruct (subscript customer "Product") as [loan | e]; [| eexists; reflexivity].
    cbn [mbind Result_bind mret Result_ret].
    destruct (format_amount emi) as [formatted | e]; [| eexists; reflexivity].
    unfold salutation_for, py_lower.
    destruct gender as [| | | |g| | |]; try (eexists; reflexivity).
    exfalso. exact (Hns g eq_refl).
Qed.

Lemma honorific_by_gender_witness :
  get_system_prompt (H := sample.formatting) (PDict sample.customer_row)
  = Ok (system_prompt "Ravi" "Male" "Mr." "3,500.00" "Two Wheeler" "3rd")
  /\ PyStr.contains "- Salutation: Mr."
       (system_prompt "Ravi" "Male" "Mr." "3,500.00" "Two Wheeler" "3rd") = true
  /\ exists e,
       get_system_prompt (H := sample.formatting) (PDict examples.blank_gender) = Raise e.
Proof.
  assert (get_system_prompt (H := sample.formatting) (PDict sample.customer_row)
          = Ok (system_prompt "Ravi" "Male" "Mr." "3,500.00" "Two Wheeler" "3rd"))
    as Hgen by (vm_compute; reflexivity).
  split; [exact Hgen |]. split.
  - destruct (honorific_by_gender (H := sample.formatting) (PDict sample.customer_row))
      as [Hstring _].
    destruct (Hstring "Male" _ eq_refl Hgen)
      as (name & emi & product & date & salutation & _ & Hline & Hmr & _).
    assert (salutation = "Mr.") as ->.
    { apply Hmr. exists "M"%char, "a"%char, "l"%char, "e"%char. auto 10. }
    exact Hline.
  - destruct (honorific_by_gender (H := sample.formatting) (PDict examples.blank_gender))
      as [_ Hother].
    apply (Hother (PFloat S754_nan)); [reflexivity | discriminate].
Defined.

(** C9, as stated, fails: a record whose Gender cell is empty carries the
    float NaN, a gender value that is not "male" in any case; no
    instructions with "Ms." are generated for it, the prompt builder raises
    [AttributeError] on [gender.lower()]. *)
Lemma honorific_blank_gender :
  subscript (PDict examples.blank_gender) "Gender" = Ok (PFloat S754_nan)
  /\ get_system_prompt (H := sample.formatting) (PDict examples.blank_gender)
     = Raise AttributeError.
Proof. split; reflexivity. Qed.

(** * Further properties *)

#[local] Arguments since : simpl never.

(** What a step has added to the trace. *)
Ltac since_added :=
  match goal with
  | |- context [since ?t _] =>
    let T := fresh "T" in
    generalize t; intros T; rewrite <- ?app_assoc; rewrite since_app
  end.

(** ** The client's methods *)

(** X1: [create_response] never raises.  Afterwards the responding flag is
    true exactly when it was true before or a request was sent on a live
    connection and the send did not fail; a failed send leaves it false. *)
Theorem create_response_outcome (w : World) :
  fst (create_response w) = Ok tt
  /\ _responding (client (snd (create_response w)))
     = _responding (client w) || (connection (client w) && negb (next_fails w)).
Proof.
  unfold create_response, upstream, log, next_fault, next_fails. st_simpl. cbn.
  destruct (connection (client w)) eqn:Hc; cbn;
    destruct (_responding (client w)) eqn:Hr; cbn; rewrite ?Hc, ?Hr; auto.
  destruct (faults w) as [|[|] fs]; cbn; auto.
Qed.

(** X2: [disconnect] never raises, whatever the teardown does; it sends no
    message, leaves [connected] false and keeps the connection object, so
    that an [append_input_audio] after it still hands its message to the
    closed connection. *)
Theorem disconnect_outcome (w : World) (chunk : list byte) :
  fst (disconnect w) = Ok tt
  /\ connected (client (snd (disconnect w))) = false
  /\ connection (client (snd (disconnect w))) = connection (client w)
  /\ sends_of (since (trace w) (trace (snd (disconnect w)))) = []
  /\ (connection (client w) = true ->
      sends_of (since (trace (snd (disconnect w)))
                  (trace (snd (append_input_audio chunk (snd (disconnect w))))))
      = [InputAudioBufferAppend (Base64.b64encode chunk)]).
Proof.
  unfold disconnect, append_input_audio, upstream, log, next_fault. st_simpl. cbn.
  destruct (connection_manager (client w)); cbn;
    destruct (faults w) as [|[|] [|[|] fs]] eqn:Hf; cbn; rewrite ?Hf; cbn;
    (split; [reflexivity | split; [reflexivity | split; [reflexivity | split]]]);
    try (since_added; reflexivity);
    intros Hc; rewrite Hc; cbn; rewrite ?Hf; cbn; since_added; reflexivity.
Qed.

Lemma disconnect_outcome_witness :
  sends_of (since (trace (snd (disconnect sample.live)))
              (trace (snd (append_input_audio ["A"%byte] (snd (disconnect sample.live))))))
  = [InputAudioBufferAppend "QQ=="].
Proof.
  apply (disconnect_outcome sample.live ["A"%byte]). reflexivity.
Defined.

(** A first [connect] on an upstream that accepts the handshake and the
    session update. *)
Lemma connect_first (cfg : Settings) (w : World) :
  truthy (AZURE_OPENAI_ENDPOINT cfg) = true ->
  truthy (AZURE_OPENAI_API_KEY cfg) = true ->
  truthy (AZURE_API_VERSION cfg) = true ->
  truthy (AZURE_OPENAI_DEPLOYMENT cfg) = true ->
  connection_manager (client w) = false ->
  no_fault 2 w ->
  exists w',
    connect cfg w = (Ok true, w')
    /\ trace w'
       = (trace w ++ [Handshake; Send (SessionUpdate (instructions (client w)))])%list
    /\ client w'
       = set_connected true (set_connection true (set_connection_manager true (client w)))
    /\ consuming w' = true
    /\ pending_tool_calls w' = ∅.
Proof.
  intros H1 H2 H3 H4 Hm Hno.
  unfold connect, upstream, log, next_fault. st_simpl. cbn.
  rewrite H1, H2, H3, H4. cbn. rewrite Hm. cbn.
  destruct (faults w) as [|[|] fs] eqn:Hf; cbn; rewrite ?Hf; cbn.
  - rewrite <- app_assoc. eexists. repeat split.
  - exfalso. eapply no_fault_head; eassumption.
  - destruct fs as [|[|] fs']; cbn; rewrite <- ?app_assoc;
      try (eexists; repeat split; fail).
    exfalso. apply (Hno 1%nat); [lia | now rewrite Hf].
Qed.

(** X3: a first [connect] with every setting present and an upstream that
    accepts the handshake and the session update returns [True]: the session
    is configured with the client's instructions, the client is connected
    and the event loop starts with no pending tool call. *)
Theorem connect_succeeds (cfg : Settings) (w : World) :
  truthy (AZURE_OPENAI_ENDPOINT cfg) = true ->
  truthy (AZURE_OPENAI_API_KEY cfg) = true ->
  truthy (AZURE_API_VERSION cfg) = true ->
  truthy (AZURE_OPENAI_DEPLOYMENT cfg) = true ->
  connection_manager (client w) = false ->
  no_fault 2 w ->
  fst (connect cfg w) = Ok true
  /\ trace (snd (connect cfg w))
     = (trace w ++ [Handshake; Send (SessionUpdate (instructions (client w)))])%list
  /\ connected (client (snd (connect cfg w))) = true
  /\ connection (client (snd (connect cfg w))) = true
  /\ consuming (snd (connect cfg w)) = true
  /\ pending_tool_calls (snd (connect cfg w)) = ∅.
Proof.
  intros H1 H2 H3 H4 Hm Hno.
  destruct (connect_first cfg w H1 H2 H3 H4 Hm Hno) as (w' & -> & Ht & Hcl & Hco & Hp).
  cbn [fst snd]. rewrite Hcl. repeat split; assumption.
Qed.

Lemma connect_succeeds_witness :
  fst (connect sample.settings sample.idle) = Ok true
  /\ trace (snd (connect sample.settings sample.idle))
     = [Handshake; Send (SessionUpdate EmptyString)].
Proof.
  destruct (connect_succeeds sample.settings sample.idle) as (Hret & Htrace & _);
    try reflexivity.
  - intros i Hi. destruct i; discriminate.
  - split; [exact Hret | exact Htrace].
Defined.

(** X4: when the handshake of a first [connect] fails, the exception
    reaches the caller, nothing else is tried upstream, [connected] is
    false, no connection object is kept and no event loop is started. *)
Theorem connect_handshake_fails (cfg : Settings) (w : World) (fs : list bool) :
  truthy (AZURE_OPENAI_ENDPOINT cfg) = true ->
  truthy (AZURE_OPENAI_API_KEY cfg) = true ->
  truthy (AZURE_API_VERSION cfg) = true ->
  truthy (AZURE_OPENAI_DEPLOYMENT cfg) = true ->
  connection_manager (client w) = false ->
  faults w = true :: fs ->
  fst (connect cfg w) = Raise UpstreamError
  /\ trace (snd (connect cfg w)) = (trace w ++ [Handshake])%list
  /\ connected (client (snd (connect cfg w))) = false
  /\ connection (client (snd (connect cfg w))) = connection (client w)
  /\ consuming (snd (connect cfg w)) = consuming w.
Proof.
  intros H1 H2 H3 H4 Hm Hf.
  unfold connect, upstream, log, next_fault. st_simpl. cbn.
  rewrite H1, H2, H3, H4. cbn. rewrite Hm. cbn. rewrite Hf. cbn. repeat split.
Qed.

Lemma connect_handshake_fails_witness :
  fst (connect sample.settings (with_faults [true] sample.idle)) = Raise UpstreamError
  /\ trace (snd (connect sample.settings (with_faults [true] sample.idle))) = [Handshake].
Proof.
  destruct (connect_handshake_fails sample.settings (with_faults [true] sample.idle) [])
    as (Hret & Htrace & _); try reflexivity.
  split; [exact Hret | exact Htrace].
Defined.

(** ** The event loop *)

Lemma history_grows_framed : Framed history_grows.
Proof.
  split; [split |..]; unfold history_grows.
  - intros w. exists []. rewrite app_nil_r. auto.
  - intros w1 w2 w3 (a1 & E1 & F1) (a2 & E2 & F2).
    exists (a1 ++ a2)%list. rewrite E2, E1, app_assoc. split; [reflexivity |].
    apply Forall_app. auto.
  - intros a w. exists []. rewrite app_nil_r. auto.
  - intros fs w. exists []. rewrite app_nil_r. auto.
  - intros b w. exists []. rewrite app_nil_r. auto.
Qed.

#[local] Existing Instance history_grows_framed.

Lemma history_grows_quiet (w w' : World) :
  chat_history (client w') = chat_history (client w) -> history_grows w w'.
Proof. intros E. exists []. rewrite app_nil_r. auto. Qed.

Ltac history_prim := apply history_grows_quiet; reflexivity.

Lemma history_grows_create_response : keeps history_grows create_response.
Proof. unfold create_response. keeps_all history_prim. Qed.

Lemma nonempty_not_empty (s : string) : PyStr.nonempty s = true -> s <> EmptyString.
Proof. destruct s; [discriminate | discriminate]. Qed.

Lemma history_grows_append (m : Message) :
  is_turn m -> keeps history_grows (append_history m).
Proof.
  intros Hm w. exists [m]. split; [reflexivity | auto].
Qed.

Lemma history_grows_on_event (event : Event) : keeps history_grows (on_event event).
Proof.
  destruct event; unfold on_event, send_audio, send_text.
  - keeps_all history_prim.
  - destruct (PyStr.nonempty (PyStr.strip transcript0)) eqn:Hn; [| keeps_all history_prim].
    apply (keeps_bind history_grows); [| intros _; apply history_grows_create_response].
    apply history_grows_append. split; [left; reflexivity |].
    now apply nonempty_not_empty.
  - keeps_all history_prim.
  - keeps_all history_prim.
  - keeps_all history_prim.
  - apply (keeps_bind history_grows); [keeps_all history_prim |]. intros text.
    destruct (PyStr.nonempty text) eqn:Hn; [| keeps_all history_prim].
    apply (keeps_bind history_grows).
    + apply history_grows_append. split; [right; reflexivity |].
      now apply nonempty_not_empty.
    + intros _. keeps_all history_prim.
  - keeps_all history_prim.
  - keeps_all history_prim. apply (keeps_dispatch history_grows).
  - keeps_all history_prim.
Qed.

(** X5: the chat history is append-only.  Over any interleaving of client
    frames and upstream events the history only grows, and every entry
    added is a turn of the user or of the assistant with a non-empty
    content. *)
Theorem chat_history_append_only (g : server.Gateway) (inputs : list server.Input) :
  exists added,
    chat_history (client (server.world (server.run inputs g)))
    = (chat_history (client (server.world g)) ++ added)%list
    /\ Forall is_turn added.
Proof.
  apply (keeps_run history_grows history_grows_create_response
           (fun b w => history_grows_quiet w (with_consuming b w) eq_refl)
           inputs g history_grows_on_event).
Qed.

(** X6: a completed user transcription with text left after stripping is
    recorded as a user turn with the stripped text, then a response is
    requested, and the loop goes on whatever the upstream does; a
    transcription of white space only changes nothing. *)
Theorem user_turn_recorded (w : World) (transcript : string) :
  consuming w = true ->
  (PyStr.nonempty (PyStr.strip transcript) = true ->
   chat_history (client (deliver (input_audio_transcription_completed transcript) w))
   = (chat_history (client w)
      ++ [{| role := "user"; content := PyStr.strip transcript |}])%list
   /\ calls_of (since (trace w)
                 (trace (deliver (input_audio_transcription_completed transcript) w)))
      = [create_response_]
   /\ consuming (deliver (input_audio_transcription_completed transcript) w) = true)
  /\ (PyStr.nonempty (PyStr.strip transcript) = false ->
      deliver (input_audio_transcription_completed transcript) w = w).
Proof.
  intros Hc. unfold deliver. rewrite Hc. unfold on_event. split; intros Hn; rewrite Hn.
  - unfold append_history, create_response, upstream, log, next_fault. st_simpl. cbn.
    destruct (connection (client w) && negb (_responding (client w))); cbn.
    + destruct (faults w) as [|[|] fs]; cbn;
        (split; [reflexivity | split; [since_added; reflexivity | exact Hc]]).
    + split; [reflexivity | split; [since_added; reflexivity | exact Hc]].
  - reflexivity.
Qed.

Lemma user_turn_recorded_witness :
  chat_history (client (deliver (input_audio_transcription_completed " haan ji ")
                          sample.live))
  = [{| role := "user"; content := "haan ji" |}]
  /\ deliver (input_audio_transcription_completed "   ") sample.live = sample.live.
Proof.
  destruct (user_turn_recorded sample.live " haan ji " eq_refl) as [Hsaid _].
  destruct (user_turn_recorded sample.live "   " eq_refl) as [_ Hsilent].
  split; [apply Hsaid; reflexivity | apply Hsilent; reflexivity].
Defined.

Lemma append_nil_r (s : string) : s ++ EmptyString = s.
Proof. induction s as [|c s IH]; [reflexivity |]. rewrite append_cons. now rewrite IH. Qed.

(** A run of delta events only extends the transcript buffer. *)
Lemma deltas_extend_transcript (events : list Event) (w : World) :
  consuming w = true ->
  Forall (fun event => is_Some (delta_of event)) events ->
  handle_response events w
  = with_client (set_transcript
                   (transcript (client w) ++ String.concat EmptyString (omap delta_of events)))
      w
  \/ (events = [] /\ handle_response events w = w).
Proof.
  intros Hc Hall. revert w Hc.
  induction Hall as [| event events [delta Hd] Hall IH]; intros w Hc; [right; auto |].
  left. unfold handle_response. cbn [fold_left].
  assert (deliver event w
          = with_client (set_transcript (transcript (client w) ++ delta)) w) as ->.
  { unfold deliver. rewrite Hc.
    destruct event; cbn in Hd; try discriminate; injection Hd as ->; reflexivity. }
  cbn [omap list_omap]. rewrite Hd.
  destruct (IH (with_client (set_transcript (transcript (client w) ++ delta)) w) Hc)
    as [E | [-> E]].
  - unfold handle_response in E. rewrite E. cbn.
    destruct (omap delta_of events) as [|d ds] eqn:Ed.
    + cbn. now rewrite !append_nil_r.
    + cbn [String.concat]. rewrite append_assoc.
      change (String.concat "" (delta :: d :: ds))
        with (delta ++ "" ++ String.concat "" (d :: ds)).
      reflexivity.
  - cbn. reflexivity.
Qed.

(** X7: a reply streamed as text or transcript deltas is delivered once
    and whole: after the deltas and the response-done event, the client has
    received one text frame with the stripped concatenation of the buffer
    and the deltas, the same text is the last turn of the history, and the
    buffer is empty again. *)
Theorem streamed_reply_delivered_whole (events : list Event) (w : World) :
  consuming w = true ->
  response_handler (client w) = true ->
  Forall (fun event => is_Some (delta_of event)) events ->
  PyStr.nonempty
    (PyStr.strip (transcript (client w)
                  ++ String.concat EmptyString (omap delta_of events))) = true ->
  frames_of (since (trace w) (trace (handle_response (events ++ [response_done]) w)))
  = [TextFrame (PyStr.strip (transcript (client w)
                             ++ String.concat EmptyString (omap delta_of events)))]
  /\ chat_history (client (handle_response (events ++ [response_done]) w))
     = (chat_history (client w)
        ++ [{| role := "assistant";
               content := PyStr.strip (transcript (client w)
                            ++ String.concat EmptyString (omap delta_of events)) |}])%list
  /\ transcript (client (handle_response (events ++ [response_done]) w)) = EmptyString.
Proof.
  intros Hc Hh Hall Hn.
  unfold handle_response. rewrite fold_left_app. cbn [fold_left].
  fold (handle_response events w).
  assert (exists w1, handle_response events w = w1
            /\ transcript (client w1)
               = transcript (client w) ++ String.concat EmptyString (omap delta_of events)
            /\ trace w1 = trace w /\ chat_history (client w1) = chat_history (client w)
            /\ consuming w1 = true /\ response_handler (client w1) = true)
    as (w1 & -> & Ht & Htr & Hhist & Hc1 & Hh1).
  { destruct (deltas_extend_transcript events w Hc Hall) as [E | [-> E]].
    - eexists. split; [exact E |]. cbn. auto.
    - exists w. split; [exact E |]. cbn. rewrite append_nil_r. auto. }
  rewrite <- Ht in *. unfold deliver. rewrite Hc1. fold (finalized w1) in *.
  unfold on_event, append_history, send_text, log. st_simpl. cbn.
  fold (finalized w1). rewrite Hn. cbn. rewrite Hh1. cbn.
  rewrite <- Htr, <- Hhist. split; [since_added; reflexivity | auto].
Qed.

Lemma streamed_reply_delivered_whole_witness :
  frames_of
    (since (trace sample.live)
       (trace (handle_response
                 ([response_audio_transcript_delta "Namaste, ";
                   response_text_delta "Ravi ji. "] ++ [response_done]) sample.live)))
  = [TextFrame "Namaste, Ravi ji."].
Proof.
  apply (streamed_reply_delivered_whole
           [response_audio_transcript_delta "Namaste, "; response_text_delta "Ravi ji. "]
           sample.live); try reflexivity.
  repeat constructor; eexists; reflexivity.
Defined.

(** Once the event loop has returned, no event is consumed. *)
Lemma handle_response_stopped (events : list Event) (w : World) :
  consuming w = false -> handle_response events w = w.
Proof.
  intros Hc. unfold handle_response.
  induction events as [|event events IH]; [reflexivity |].
  cbn [fold_left]. unfold deliver at 2. now rewrite Hc.
Qed.

(** X8: with an audio handler installed, an audio delta that decodes is
    passed to the client socket as one AudioData frame carrying the
    re-encoded bytes, and nothing else changes; an audio delta that does not
    decode ends the event loop: nothing is sent and no later event of the
    stream has any effect. *)
Theorem audio_delta_relayed (w : World) (delta : string) :
  consuming w = true ->
  audio_handler (client w) = true ->
  (forall bs, Base64.b64decode delta = Ok bs ->
     deliver (response_audio_delta delta) w
     = with_trace (trace w ++ [WsSendJson (AudioDataFrame (Base64.b64encode bs))]) w)
  /\ (forall e events, Base64.b64decode delta = Raise e ->
        handle_response (response_audio_delta delta :: events) w
        = with_consuming false w).
Proof.
  intros Hc Hh. split.
  - intros bs Hdec. unfold deliver. rewrite Hc. unfold on_event, send_audio, log.
    st_simpl. rewrite Hh. cbn. rewrite Hdec. reflexivity.
  - intros e events Hdec. unfold handle_response. cbn [fold_left].
    fold (handle_response events (deliver (response_audio_delta delta) w)).
    assert (deliver (response_audio_delta delta) w = with_consuming false w) as ->.
    { unfold deliver. rewrite Hc. unfold on_event. st_simpl. rewrite Hh. cbn.
      rewrite Hdec. reflexivity. }
    now apply handle_response_stopped.
Qed.

Lemma audio_delta_relayed_witness :
  deliver (response_audio_delta "QUJD") sample.live
  = with_trace [WsSendJson (AudioDataFrame "QUJD")] sample.live
  /\ handle_response [response_audio_delta "A"; response_text_delta "Namaste";
                      response_done] sample.live
     = with_consuming false sample.live.
Proof.
  destruct (audio_delta_relayed sample.live "QUJD" eq_refl eq_refl) as [Hgood _].
  destruct (audio_delta_relayed sample.live "A" eq_refl eq_refl) as [_ Hbad].
  split.
  - apply (Hgood ["A"; "B"; "C"]%byte). vm_compute. reflexivity.
  - apply (Hbad BinasciiError). vm_compute. reflexivity.
Defined.

(** X9: a round of the payment tool.  After the model has announced a
    function call of [check_payment_status] and its arguments are done, with
    the two upstream sends not failing, the loop has called the tool once
    with the customer's DPD (0 when the record has none), sent the tool's
    answer as JSON under the announced call-id and then asked for a
    response; the table of pending calls and the client are as before. *)
Theorem payment_tool_round (w : World) (item : Item) (d : list (string * pyval)) :
  consuming w = true ->
  item_type item = Some "function_call" ->
  item_name item = "check_payment_status" ->
  customer_data (client w) = PDict d ->
  pending_tool_calls w !! item_call_id item = None ->
  no_fault 2 w ->
  handle_response [response_output_item_added item;
                   response_function_call_arguments_done (item_call_id item)] w
  = with_faults (drop 2 (faults w))
      (with_trace
         (trace w
          ++ [ToolCall "check_payment_status" (default (PInt 0) (dict_get d "DPD"));
              Send (FunctionCallOutput (item_call_id item)
                      (json_dumps (tools.check_payment_status
                                     (default (PInt 0) (dict_get d "DPD")))));
              Send ResponseCreate]) w).
Proof.
  intros Hc Hty Hname Hdata Hnone Hno.
  unfold handle_response. cbn [fold_left]. unfold deliver at 2. rewrite Hc.
  unfold on_event at 1. rewrite Hty.
  change (bool_decide (Some "function_call" = Some "function_call")) with true.
  cbv iota. st_simpl. cbn [fst snd]. unfold deliver. cbn [consuming with_pending].
  rewrite Hc. unfold on_event, dispatch, upstream, log, next_fault. st_simpl.
  cbn [pending_tool_calls with_pending]. rewrite lookup_insert_eq. cbn.
  rewrite Hname, Hdata. cbn.
  destruct (faults w) as [|[|] [|[|] fs]] eqn:Hf; cbn; rewrite ?Hf; cbn;
    try (exfalso; apply (Hno 0%nat); [lia | now rewrite Hf]);
    try (exfalso; apply (Hno 1%nat); [lia | now rewrite Hf]);
    unfold with_pending, with_trace, with_faults; cbn;
    rewrite insert_insert_eq, delete_insert_eq, (delete_id _ _ Hnone), <- !app_assoc;
    destruct w; cbn in *; subst; reflexivity.
Qed.

Lemma payment_tool_round_witness :
  since (trace examples.no_dpd)
    (trace (handle_response
              [response_output_item_added examples.payment_tool;
               response_function_call_arguments_done "call_1"] examples.no_dpd))
  = [ToolCall "check_payment_status" (PInt 0);
     Send (FunctionCallOutput "call_1" (json_dumps "payment completed"));
     Send ResponseCreate].
Proof.
  assert (no_fault 2 examples.no_dpd) as Hno
    by (intros i Hi; vm_compute; destruct i; discriminate).
  pose proof (payment_tool_round examples.no_dpd examples.payment_tool
                [("Debtor_Name", PStr "Ravi")]
                eq_refl eq_refl eq_refl eq_refl eq_refl Hno) as E.
  change (item_call_id examples.payment_tool) with "call_1" in E.
  rewrite E. reflexivity.
Defined.


Lemma since_same (t : list Action) : since t t = [].
Proof. unfold since. apply drop_all. Qed.

(** X10: what an event can make the loop do.  Only an audio delta and a
    response-done event write a frame to the client socket, and only a
    completed transcription and an arguments-done event send anything
    upstream; every other event leaves both alone. *)
Theorem event_effects (event : Event) (w : World) :
  (frames_of (since (trace w) (trace (deliver event w))) <> [] ->
   event = response_done \/ exists delta, event = response_audio_delta delta)
  /\ (sends_of (since (trace w) (trace (deliver event w))) <> [] ->
      (exists transcript, event = input_audio_transcription_completed transcript)
      \/ exists cid, event = response_function_call_arguments_done cid).
Proof.
  unfold deliver. destruct (consuming w) eqn:Hc;
    [| rewrite since_same; split; intros []; reflexivity].
  destruct event as [| transcript | delta | delta | delta | | item | cid | type];
    try (cbn; rewrite since_same; split; intros []; reflexivity).
  - split; [| intros _; left; eauto].
    unfold on_event, append_history, create_response, upstream, log, next_fault.
    st_simpl. destruct (PyStr.nonempty (PyStr.strip transcript)); cbn;
      [| rewrite since_same; intros []; reflexivity].
    destruct (connection (client w) && negb (_responding (client w))); cbn;
      [destruct (faults w) as [|[|] fs]; cbn |];
      since_added; intros []; reflexivity.
  - split; [intros _; right; eauto |].
    unfold on_event, send_audio, log. st_simpl.
    destruct (audio_handler (client w)); cbn;
      [destruct (Base64.b64decode delta); cbn |];
      try (rewrite since_same; intros []; reflexivity).
    since_added. intros []. reflexivity.
  - split; [intros _; left; reflexivity |].
    unfold on_event, append_history, send_text, log. st_simpl.
    destruct (PyStr.nonempty (PyStr.strip (transcript (client w)))); cbn;
      [| rewrite since_same; intros []; reflexivity].
    destruct (response_handler (client w)); cbn;
      [since_added | rewrite since_same]; intros []; reflexivity.
  - unfold on_event. destruct (bool_decide (item_type item = Some "function_call"));
      cbn; rewrite since_same; split; intros []; reflexivity.
  - split; [| intros _; right; eauto].
    unfold on_event, dispatch, upstream, log, next_fault. st_simpl.
    destruct (pending_tool_calls w !! cid) as [entry|]; cbn;
      [| rewrite since_same; intros []; reflexivity].
    destruct (String.eqb (name entry) "check_payment_status"); cbn;
      destruct (customer_data (client w)) as [| | | | | | |d]; cbn;
      try (rewrite since_same; intros []; reflexivity);
      try (since_added; intros []; reflexivity);
      destruct (faults w) as [|[|] [|[|] fs]] eqn:Hf; cbn; rewrite ?Hf; cbn;
      since_added; intros []; reflexivity.
Qed.

Lemma event_effects_witness :
  (response_done = response_done
   \/ exists delta, response_done = response_audio_delta delta)
  /\ ((exists transcript,
         input_audio_transcription_completed "haan"
         = input_audio_transcription_completed transcript)
      \/ exists cid,
           input_audio_transcription_completed "haan"
           = response_function_call_arguments_done cid).
Proof.
  split.
  - apply (event_effects response_done sample.speaking). vm_compute. discriminate.
  - apply (event_effects (input_audio_transcription_completed "haan") sample.live).
    vm_compute. discriminate.
Defined.

(** ** The prompt builder and the start of a call *)

Lemma subscript_ok (v x : pyval) (k : string) :
  subscript v k = Ok x <-> exists d, v = PDict d /\ dict_get d k = Some x.
Proof.
  split.
  - destruct v as [| | | | | | |d]; cbn; try discriminate.
    destruct (dict_get d k) as [y|] eqn:E; [| discriminate]. intros [= ->].
    exists d. auto.
  - intros (d & -> & E). cbn. now rewrite E.
Qed.

(** X11: the prompt builder returns a prompt exactly for a dict that has
    the five keys it reads, with a gender that is a string and an EMI amount
    that can be formatted. *)
Theorem get_system_prompt_succeeds_iff `{Formatting} (customer : pyval) :
  (exists prompt, get_system_prompt customer = Ok prompt)
  <-> exists d name gender emi due_date loan_type formatted_emi,
        customer = PDict d
        /\ dict_get d "Debtor_Name" = Some name
        /\ dict_get d "Gender" = Some (PStr gender)
        /\ dict_get d "EMI_Amount" = Some emi
        /\ dict_get d "Payment_Due_Date" = Some due_date
        /\ dict_get d "Product" = Some loan_type
        /\ format_amount emi = Ok formatted_emi.
Proof.
  unfold get_system_prompt. split.
  - intros [prompt E].
    destruct customer as [| | | | | | |d]; try discriminate. cbn [subscript] in E.
    destruct (dict_get d "Debtor_Name") as [name|] eqn:E1; [| discriminate].
    destruct (dict_get d "Gender") as [gender|] eqn:E2; [| discriminate].
    destruct (dict_get d "EMI_Amount") as [emi|] eqn:E3; [| discriminate].
    destruct (dict_get d "Payment_Due_Date") as [due|] eqn:E4; [| discriminate].
    destruct (dict_get d "Product") as [loan|] eqn:E5; [| discriminate].
    cbn [mbind Result_bind mret Result_ret] in E.
    destruct (format_amount emi) as [formatted|] eqn:E6; [| discriminate].
    unfold salutation_for, py_lower in E.
    destruct gender as [| | | |g| | |];
      cbn [mbind Result_bind mret Result_ret] in E; try discriminate.
    exists d, name, g, emi, due, loan, formatted. auto 10.
  - intros (d & name & g & emi & due & loan & formatted
            & -> & E1 & E2 & E3 & E4 & E5 & E6).
    cbn [subscript]. rewrite E1, E2, E3, E4, E5.
    cbn [mbind Result_bind mret Result_ret]. rewrite E6.
    unfold salutation_for, py_lower. cbn [mbind Result_bind mret Result_ret].
    eexists. reflexivity.
Qed.

Lemma get_system_prompt_succeeds_iff_witness :
  exists prompt,
    get_system_prompt (H := sample.formatting) (PDict sample.customer_row) = Ok prompt.
Proof.
  apply (get_system_prompt_succeeds_iff (H := sample.formatting)
           (PDict sample.customer_row)).
  exists sample.customer_row, (PStr "Ravi"), "Male", (PInt 3500), (PStr "3rd"),
    (PStr "Two Wheeler"), "3,500.00".
  repeat split.
Defined.

(** X12: how the prompt builder fails.  A record that is not a dict
    raises [TypeError]; a dict without one of the five keys raises
    [KeyError]; and with the five keys present and the amount formatted, a
    gender that is not a string raises [AttributeError]. *)
Theorem get_system_prompt_errors `{Formatting} (customer : pyval) :
  (isinstance_dict customer = false -> get_system_prompt customer = Raise TypeError)
  /\ (forall d key,
        customer = PDict d -> In key prompt_keys -> dict_get d key = None ->
        get_system_prompt customer = Raise KeyError)
  /\ (forall d gender emi formatted_emi,
        customer = PDict d ->
        (forall key, In key prompt_keys -> dict_get d key <> None) ->
        dict_get d "Gender" = Some gender ->
        (forall g, gender <> PStr g) ->
        dict_get d "EMI_Amount" = Some emi ->
        format_amount emi = Ok formatted_emi ->
        get_system_prompt customer = Raise AttributeError).
Proof.
  unfold get_system_prompt. split; [| split].
  - destruct customer; try reflexivity. discriminate.
  - intros d key -> Hin Hnone. cbn [subscript].
    destruct (dict_get d "Debtor_Name") as [name|] eqn:E1; [| reflexivity].
    destruct (dict_get d "Gender") as [gender|] eqn:E2; [| reflexivity].
    destruct (dict_get d "EMI_Amount") as [emi|] eqn:E3; [| reflexivity].
    destruct (dict_get d "Payment_Due_Date") as [due|] eqn:E4; [| reflexivity].
    destruct (dict_get d "Product") as [loan|] eqn:E5; [| reflexivity].
    exfalso. unfold prompt_keys in Hin. cbn in Hin.
    destruct Hin as [<- | [<- | [<- | [<- | [<- | []]]]]]; congruence.
  - intros d gender emi formatted -> Hall Hg Hns He Hf. cbn [subscript].
    assert (forall key, In key prompt_keys -> exists x, dict_get d key = Some x) as Hsome.
    { intros key Hin. specialize (Hall key Hin).
      destruct (dict_get d key); [eauto | contradiction]. }
    destruct (Hsome "Debtor_Name") as [name ->]; [cbn; auto |].
    destruct (Hsome "Payment_Due_Date") as [due ->]; [cbn; auto 10 |].
    destruct (Hsome "Product") as [loan ->]; [cbn; auto 10 |].
    rewrite Hg, He. cbn [mbind Result_bind mret Result_ret]. rewrite Hf.
    unfold salutation_for, py_lower.
    destruct gender as [| | | |g| | |]; try reflexivity.
    exfalso. exact (Hns g eq_refl).
Qed.

Lemma get_system_prompt_errors_witness :
  get_system_prompt (H := sample.formatting) (PTuple [PList []; PList []])
  = Raise TypeError
  /\ get_system_prompt (H := sample.formatting) (PDict [("Debtor_Name", PStr "Ravi")])
     = Raise KeyError
  /\ get_system_prompt (H := sample.formatting)
       (PDict [("Debtor_Name", PStr "Ravi"); ("Gender", PNone);
               ("EMI_Amount", PInt 3500); ("Payment_Due_Date", PStr "3rd");
               ("Product", PStr "Two Wheeler")])
     = Raise AttributeError.
Proof.
  split; [| split].
  - apply (get_system_prompt_errors (H := sample.formatting) (PTuple [PList []; PList []])).
    reflexivity.
  - destruct (get_system_prompt_errors (H := sample.formatting)
                (PDict [("Debtor_Name", PStr "Ravi")])) as (_ & Hkey & _).
    apply (Hkey [("Debtor_Name", PStr "Ravi")] "Gender"); [reflexivity | | reflexivity].
    cbn. auto.
  - destruct (get_system_prompt_errors (H := sample.formatting)
                (PDict [("Debtor_Name", PStr "Ravi"); ("Gender", PNone);
                        ("EMI_Amount", PInt 3500); ("Payment_Due_Date", PStr "3rd");
                        ("Product", PStr "Two Wheeler")])) as (_ & _ & Hattr).
    eapply (Hattr _ PNone (PInt 3500) "3,500.00"); try reflexivity.
    + intros key Hin. cbn in Hin.
      destruct Hin as [<- | [<- | [<- | [<- | [<- | []]]]]]; discriminate.
    + discriminate.
Defined.

(** ** Call initiation and the opening of the WebSocket *)

(** The resolver returns a dict and hands the server back as it was. *)
Lemma fetch_additional_customer_info_returns (s : server.Server)
    (loan_id system_id : string) :
  exists row,
    server.fetch_additional_customer_info loan_id system_id s = (Ok (PDict row), s).
Proof.
  unfold server.fetch_additional_customer_info. st_simpl.
  destruct (server.data_csv s) as [df | e]; [| eexists; reflexivity].
  cbn. destruct (server.has_column df "Loan_ID") as [[] | e1]; [| eexists; reflexivity].
  cbn. destruct (server.has_column df "system_id") as [[] | e2]; [| eexists; reflexivity].
  cbn. destruct (List.filter _ _); eexists; reflexivity.
Qed.

(** X13: the mock resolver never raises and never changes the server.
    When [data.csv] is read, has both id columns and holds a row whose loan
    and system ids match, it answers with the first such row; in every other
    case (the file cannot be read, a column is missing, no row matches) it
    answers with the empty dict. *)
Theorem fetch_additional_customer_info_total (s : server.Server)
    (loan_id system_id : string) :
  exists row,
    server.fetch_additional_customer_info loan_id system_id s = (Ok (PDict row), s)
    /\ ((lookup_fails s loan_id system_id /\ row = [])
        \/ exists df before after,
             server.data_csv s = Ok df
             /\ server.has_column df "Loan_ID" = Ok tt
             /\ server.has_column df "system_id" = Ok tt
             /\ server.rows df = (before ++ row :: after)%list
             /\ server.row_matches loan_id system_id row = true
             /\ Forall (fun r => server.row_matches loan_id system_id r = false) before).
Proof.
  unfold server.fetch_additional_customer_info, lookup_fails. st_simpl.
  destruct (server.data_csv s) as [df | e] eqn:Hcsv; [| exists []; auto].
  cbn. destruct (server.has_column df "Loan_ID") as [[] | e1] eqn:H1;
    [| exists []; split; [reflexivity | left; split; [left; discriminate | reflexivity]]].
  cbn. destruct (server.has_column df "system_id") as [[] | e2] eqn:H2;
    [| exists []; split;
       [reflexivity | left; split; [right; left; discriminate | reflexivity]]].
  cbn.
  assert (forall rows,
            match List.filter (server.row_matches loan_id system_id) rows with
            | [] => True
            | row :: _ =>
              exists before after,
                rows = (before ++ row :: after)%list
                /\ server.row_matches loan_id system_id row = true
                /\ Forall (fun r => server.row_matches loan_id system_id r = false) before
            end) as Hfirst.
  { induction rows as [|r rows IH]; [exact I |]. cbn [List.filter].
    destruct (server.row_matches loan_id system_id r) eqn:Hr.
    - exists [], rows. auto.
    - destruct (List.filter (server.row_matches loan_id system_id) rows) as [|row rest];
        [exact I |].
      destruct IH as (before & after & -> & Hm & Hb).
      exists (r :: before), after. auto. }
  specialize (Hfirst (server.rows df)).
  destruct (List.filter (server.row_matches loan_id system_id) (server.rows df))
    as [|row rest] eqn:Hfilter;
    [exists []; split; [reflexivity | left; split; [| reflexivity]];
     right; right; reflexivity |].
  exists row. split; [reflexivity |]. right.
  destruct Hfirst as (before & after & Hrows & Hm & Hb).
  exists df, before, after. auto 10.
Qed.

Lemma fetch_additional_customer_info_total_witness :
  server.fetch_additional_customer_info "L1" "S1" examples.mock_server
  = (Ok (PDict sample.customer_row), examples.mock_server)
  /\ server.fetch_additional_customer_info "L2" "S1" examples.mock_server
     = (Ok (PDict []), examples.mock_server).
Proof.
  split.
  - destruct (fetch_additional_customer_info_total examples.mock_server "L1" "S1")
      as (row & E & [[Hfails _] | (df & before & after & Hcsv & _ & _ & Hrows & _)]).
    + exfalso. vm_compute in Hfails.
      destruct Hfails as [Hc | [Hc | Hc]];
        [apply Hc; reflexivity | apply Hc; reflexivity | discriminate].
    + injection Hcsv as <-. cbn in Hrows.
      destruct before as [|b [|b' before]]; try discriminate.
      injection Hrows as <- _. exact E.
  - destruct (fetch_additional_customer_info_total examples.mock_server "L2" "S1")
      as (row & E & [[_ ->] | (df & before & after & Hcsv & _ & _ & Hrows & Hm & _)]).
    + exact E.
    + exfalso. injection Hcsv as <-. cbn in Hrows.
      destruct before as [|b [|b' before]]; try discriminate.
      injection Hrows as <- _. vm_compute in Hm. discriminate.
Defined.

(** The resolver reads nothing but [data.csv]. *)
Lemma fetch_additional_customer_info_reads_csv (s s' : server.Server)
    (loan_id system_id : string) :
  server.data_csv s' = server.data_csv s ->
  fst (server.fetch_additional_customer_info loan_id system_id s')
  = fst (server.fetch_additional_customer_info loan_id system_id s).
Proof.
  intros Hcsv. unfold server.fetch_additional_customer_info. st_simpl. rewrite Hcsv.
  destruct (server.data_csv s) as [df | e]; [| reflexivity].
  cbn. destruct (server.has_column df "Loan_ID") as [[] | e1]; [| reflexivity].
  cbn. destruct (server.has_column df "system_id") as [[] | e2]; [| reflexivity].
  cbn. destruct (List.filter _ _); reflexivity.
Qed.

(** X14: in mock mode [start_call] always answers.  Whatever the state of
    [data.csv], it returns the completed response, stores the call under its
    id with the request as customer and the dict the resolver returned as
    metadata, leaves every other call of the store alone, schedules one
    self-connect for the call and makes no request to the backend. *)
Theorem start_call_mock `{collekto_data_fetcher.Cipher}
    (env : server.Environ) (now call_id : string) (data : server.CallInitiateModel)
    (s : server.Server) :
  truthy (server.MOCK_COLLEKTO_API env) = true ->
  exists row,
    fst (server.fetch_additional_customer_info
           (server.loan_id data) (server.system_id data) s) = Ok (PDict row)
    /\ fst (server.start_call env now call_id data s) = Ok (completed now call_id data)
    /\ server.session_store (snd (server.start_call env now call_id data s)) !! call_id
       = Some {| server.customer := data; server.call_metadata := PDict row;
                 server.disposition := PDict [] |}
    /\ (forall other, other <> call_id ->
          server.session_store (snd (server.start_call env now call_id data s)) !! other
          = server.session_store s !! other)
    /\ server.tasks (snd (server.start_call env now call_id data s))
       = (server.tasks s ++ [call_id])%list
    /\ server.backend (snd (server.start_call env now call_id data s)) = server.backend s.
Proof.
  intros Hmock.
  destruct (fetch_additional_customer_info_returns
              (server.with_store
                 (<[call_id := {| server.customer := data; server.call_metadata := PDict [];
                                  server.disposition := PDict [] |}]>) s)
              (server.loan_id data) (server.system_id data)) as (row & E).
  exists row. split.
  - rewrite <- (fetch_additional_customer_info_reads_csv s
                  (server.with_store
                     (<[call_id := {| server.customer := data;
                                      server.call_metadata := PDict [];
                                      server.disposition := PDict [] |}]>) s)
                  (server.loan_id data) (server.system_id data) eq_refl).
    now rewrite E.
  - unfold server.start_call. st_simpl. rewrite Hmock. cbn [fst snd].
    rewrite E. cbn.
    split; [reflexivity |]. split; [| split; [| split; reflexivity]].
    + rewrite lookup_alter_eq, lookup_insert_eq. reflexivity.
    + intros other Hne. rewrite lookup_alter_ne, lookup_insert_ne by congruence.
      reflexivity.
Qed.

Lemma start_call_mock_witness :
  exists row,
    fst (server.fetch_additional_customer_info "L1" "S1" examples.mock_server)
    = Ok (PDict row)
    /\ server.session_store
         (snd (server.start_call (H := sample.cipher) sample.mock_env "now" "call-1"
                 sample.request examples.mock_server)) !! "call-1"
       = Some {| server.customer := sample.request; server.call_metadata := PDict row;
                 server.disposition := PDict [] |}.
Proof.
  destruct (start_call_mock (H := sample.cipher) sample.mock_env "now" "call-1"
              sample.request examples.mock_server eq_refl)
    as (row & Hrow & _ & Hstored & _).
  exists row. split; [exact Hrow | exact Hstored].
Defined.

(** Whenever the flow returns, it returns a pair. *)
Lemma run_ltfs_flow_returns_pair `{collekto_data_fetcher.Cipher}
    (USERNAME PASSWORD username password : option string)
    (loan_id case_loan_id : string) (f : collekto_data_fetcher.Flow) (v : pyval) :
  fst (collekto_data_fetcher.run_ltfs_flow USERNAME PASSWORD username password
         loan_id case_loan_id f) = Ok v ->
  exists loan disposition, v = PTuple [loan; disposition].
Proof.
  unfold collekto_data_fetcher.run_ltfs_flow.
  unfold mbind at 1 2 3 4, ST_bind, modify, get, mret, ST_ret. cbn [fst snd].
  destruct (try_except_only _ _ _ _) as [[[] | e] f']; cbn; [| discriminate].
  intros [= <-]. eauto.
Qed.

(** X15: a call started in REST mode cannot be opened.  Whenever
    [start_call] answers in REST mode, what it has stored as the call's
    metadata is the pair the flow returns, and [websocket_endpoint] for that
    call raises [TypeError] while building the client, before anything is
    sent upstream. *)
Theorem rest_call_cannot_open `{collekto_data_fetcher.Cipher} `{Formatting}
    (env : server.Environ) (now call_id : string) (data : server.CallInitiateModel)
    (s : server.Server) (response : server.CallSessionResponseModel)
    (cfg : Settings) (faults : list bool) :
  truthy (server.MOCK_COLLEKTO_API env) = false ->
  fst (server.start_call env now call_id data s) = Ok response ->
  server.websocket_endpoint cfg
    (server.session_store (snd (server.start_call env now call_id data s)))
    call_id faults
  = Raise TypeError.
Proof.
  intros Hrest. unfold server.start_call, server.on_backend. st_simpl.
  rewrite Hrest. cbn [fst snd].
  pose proof (run_ltfs_flow_returns_pair (server.USERNAME env) (server.PASSWORD env)
                (server.COLLEKTO_USERNAME env) (server.COLLEKTO_PASSWORD env)
                (server.loan_id data) (server.system_id data) (server.backend s))
    as Hpair.
  cbn [server.backend server.with_store].
  destruct (collekto_data_fetcher.run_ltfs_flow _ _ _ _ _ _ _) as [[v | e] f'];
    cbn; [| discriminate].
  intros _. destruct (Hpair v eq_refl) as (loan & disposition & ->).
  unfold server.websocket_endpoint.
  rewrite lookup_alter_eq, lookup_insert_eq. reflexivity.
Qed.

Lemma rest_call_cannot_open_witness :
  server.websocket_endpoint (H := sample.formatting) sample.settings
    (server.session_store
       (snd (server.start_call (H := sample.cipher) sample.rest_env "now" "call-1"
               sample.request
               (sample.server_with [Ok sample.token_reply; Ok examples.loan_reply;
                                    Ok examples.history_reply]))))
    "call-1" []
  = Raise TypeError.
Proof.
  eapply (rest_call_cannot_open (H := sample.cipher) (H0 := sample.formatting));
    [reflexivity | vm_compute; reflexivity].
Defined.

(** X16: a call whose customer was not found cannot be opened either.  In
    mock mode with a failed lookup the stored metadata is the empty dict,
    and [websocket_endpoint] raises [KeyError] on the customer's name; it
    raises [KeyError] as well for a call-id the store does not hold.  In
    both cases nothing is sent upstream. *)
Theorem unknown_customer_cannot_open `{collekto_data_fetcher.Cipher} `{Formatting}
    (env : server.Environ) (now call_id : string) (data : server.CallInitiateModel)
    (s : server.Server) (cfg : Settings) (faults : list bool) :
  (truthy (server.MOCK_COLLEKTO_API env) = true ->
   lookup_fails s (server.loan_id data) (server.system_id data) ->
   server.websocket_endpoint cfg
     (server.session_store (snd (server.start_call env now call_id data s)))
     call_id faults
   = Raise KeyError)
  /\ (server.session_store s !! call_id = None ->
      server.websocket_endpoint cfg (server.session_store s) call_id faults
      = Raise KeyError).
Proof.
  split.
  - intros Hmock Hfails. unfold server.start_call. st_simpl. rewrite Hmock. cbn [fst snd].
    rewrite fetch_additional_customer_info_fails by exact Hfails.
    cbn. unfold server.websocket_endpoint.
    rewrite lookup_alter_eq, lookup_insert_eq. reflexivity.
  - intros Hnone. unfold server.websocket_endpoint. now rewrite Hnone.
Qed.

Lemma unknown_customer_cannot_open_witness :
  server.websocket_endpoint (H := sample.formatting) sample.settings
    (server.session_store
       (snd (server.start_call (H := sample.cipher) sample.mock_env "now" "call-2"
               sample.request (sample.server_with []))))
    "call-2" []
  = Raise KeyError
  /\ server.websocket_endpoint (H := sample.formatting) sample.settings
       (server.session_store (sample.server_with [])) "call-3" []
     = Raise KeyError.
Proof.
  destruct (unknown_customer_cannot_open (H := sample.cipher) (H0 := sample.formatting)
              sample.mock_env "now" "call-2" sample.request (sample.server_with [])
              sample.settings []) as [Hlookup _].
  destruct (unknown_customer_cannot_open (H := sample.cipher) (H0 := sample.formatting)
              sample.mock_env "now" "call-3" sample.request (sample.server_with [])
              sample.settings []) as [_ Hmissing].
  split; [apply Hlookup; [reflexivity | exact I] | apply Hmissing; reflexivity].
Defined.

(** The client object [RealtimeClient(...)] builds when the prompt can be
    generated. *)
Lemma init_ok `{Formatting} (rh ah : bool) (session_data : pyval) (prompt : string) :
  get_system_prompt session_data = Ok prompt ->
  init rh ah session_data
  = Ok {| connection := false; connection_manager := false; connected := false;
          audio_buffer := []; transcript := EmptyString;
          response_handler := rh; audio_handler := ah;
          chat_history := []; _responding := false;
          customer_data := session_data; conversation_done := false;
          instructions := prompt |}.
Proof.
  intros Hprompt. unfold init. rewrite Hprompt.
  assert (exists name, subscript session_data "Debtor_Name" = Ok name) as [name ->].
  { unfold get_system_prompt in Hprompt.
    destruct (subscript session_data "Debtor_Name") as [name|]; [eauto | discriminate]. }
  reflexivity.
Qed.

(** X17: a call started in mock mode for a customer of [data.csv] opens.
    With a matching row from which the prompt can be generated, every
    setting present and an upstream that accepts the handshake and the
    session update, [websocket_endpoint] for the call [start_call] has stored
    configures the session with the prompt of that row and enters its
    receive loop with the event loop running. *)
Theorem mock_call_opens `{collekto_data_fetcher.Cipher} `{Formatting}
    (env : server.Environ) (now call_id : string) (data : server.CallInitiateModel)
    (s : server.Server) (cfg : Settings) (faults : list bool)
    (row : list (string * pyval)) (prompt : string) :
  truthy (server.MOCK_COLLEKTO_API env) = true ->
  fst (server.fetch_additional_customer_info
         (server.loan_id data) (server.system_id data) s) = Ok (PDict row) ->
  get_system_prompt (PDict row) = Ok prompt ->
  truthy (AZURE_OPENAI_ENDPOINT cfg) = true ->
  truthy (AZURE_OPENAI_API_KEY cfg) = true ->
  truthy (AZURE_API_VERSION cfg) = true ->
  truthy (AZURE_OPENAI_DEPLOYMENT cfg) = true ->
  (forall i, (i < 2)%nat -> faults !! i <> Some true) ->
  exists g,
    server.websocket_endpoint cfg
      (server.session_store (snd (server.start_call env now call_id data s)))
      call_id faults
    = Ok g
    /\ server.receiving g = true
    /\ trace (server.world g) = [Handshake; Send (SessionUpdate prompt)]
    /\ customer_data (client (server.world g)) = PDict row
    /\ connected (client (server.world g)) = true
    /\ consuming (server.world g) = true.
Proof.
  intros Hmock Hrow Hprompt H1 H2 H3 H4 Hno.
  assert (server.session_store (snd (server.start_call env now call_id data s)) !! call_id
          = Some {| server.customer := data; server.call_metadata := PDict row;
                    server.disposition := PDict [] |}) as Hstored.
  { destruct (fetch_additional_customer_info_returns
                (server.with_store
                   (<[call_id := {| server.customer := data;
                                    server.call_metadata := PDict [];
                                    server.disposition := PDict [] |}]>) s)
                (server.loan_id data) (server.system_id data)) as (row1 & E).
    pose proof (fetch_additional_customer_info_reads_csv s
                  (server.with_store
                     (<[call_id := {| server.customer := data;
                                      server.call_metadata := PDict [];
                                      server.disposition := PDict [] |}]>) s)
                  (server.loan_id data) (server.system_id data) eq_refl) as Hsame.
    rewrite E, Hrow in Hsame. injection Hsame as ->.
    unfold server.start_call. st_simpl. rewrite Hmock. cbn [fst snd].
    rewrite E. cbn. rewrite lookup_alter_eq, lookup_insert_eq. reflexivity. }
  unfold server.websocket_endpoint. rewrite Hstored.
  cbn [mbind Result_bind server.call_metadata].
  rewrite (init_ok true true (PDict row) prompt Hprompt).
  cbn [mbind Result_bind].
  match goal with
  | |- context [connect cfg ?w] =>
    destruct (connect_first cfg w H1 H2 H3 H4 eq_refl Hno)
      as (w' & E & Ht & Hcl & Hco & _)
  end.
  rewrite E. eexists. split; [reflexivity |]. cbn [server.world server.receiving].
  rewrite Ht, Hcl, Hco. repeat split.
Qed.

Lemma mock_call_opens_witness :
  exists g,
    server.websocket_endpoint (H := sample.formatting) sample.settings
      (server.session_store
         (snd (server.start_call (H := sample.cipher) sample.mock_env "now" "call-1"
                 sample.request examples.mock_server)))
      "call-1" []
    = Ok g
    /\ server.receiving g = true
    /\ customer_data (client (server.world g)) = PDict sample.customer_row.
Proof.
  assert (get_system_prompt (H := sample.formatting) (PDict sample.customer_row)
          = Ok (system_prompt "Ravi" "Male" "Mr." "3,500.00" "Two Wheeler" "3rd"))
    as Hprompt by (vm_compute; reflexivity).
  assert (forall i, (i < 2)%nat -> @nil bool !! i <> Some true) as Hno
    by (intros i Hi; destruct i; discriminate).
  destruct (mock_call_opens (H := sample.cipher) (H0 := sample.formatting)
              sample.mock_env "now" "call-1" sample.request examples.mock_server
              sample.settings [] sample.customer_row _
              eq_refl eq_refl Hprompt eq_refl eq_refl eq_refl eq_refl Hno)
    as (g & E & Hrecv & _ & Hdata & _).
  exists g. auto.
Defined.

(** ** The gateway's receive loop, frame by frame *)

(** What [finally: client.disconnect()] leaves behind. *)
Lemma cleanup_shape (w : World) :
  exists teardown,
    trace (server.world (server.cleanup w))
    = (trace w ++ Call disconnect_ :: teardown)%list
    /\ calls_of teardown = [] /\ sends_of teardown = [] /\ frames_of teardown = []
    /\ server.receiving (server.cleanup w) = false
    /\ connected (client (server.world (server.cleanup w))) = false.
Proof.
  unfold server.cleanup, disconnect, upstream, log, next_fault. st_simpl. cbn.
  destruct (connection_manager (client w)); cbn;
    [destruct (faults w) as [|[|] fs]; cbn; exists [Teardown] | exists []];
    rewrite <- ?app_assoc; repeat split.
Qed.

(** What handling one frame does: it sends nothing to the client and never
    disconnects; it raises, or goes on when the call is not done, or writes
    the stop frame and closes the socket when it is. *)
Lemma on_frame_shape (msg : Result pyval) (w : World) :
  exists handled w1,
    trace w1 = (trace w ++ handled)%list
    /\ frames_of handled = []
    /\ disconnects handled = 0%nat
    /\ ((exists e, server.on_frame msg w = (Raise e, w1))
        \/ (conversation_done (client w) = false
            /\ server.on_frame msg w = (Ok false, w1))
        \/ (conversation_done (client w) = true
            /\ server.on_frame msg w
               = (Ok true, with_trace (trace w1 ++ [WsSendJson StopAudioFrame; WsClose]) w1))).
Proof.
  assert (forall w1 handled,
            trace w1 = (trace w ++ handled)%list ->
            frames_of handled = [] -> disconnects handled = 0%nat ->
            forall r,
              r = (if conversation_done (client w)
                   then fun s =>
                     (Ok true,
                      with_trace ((trace s ++ [WsSendJson StopAudioFrame]) ++ [WsClose])
                        (with_trace (trace s ++ [WsSendJson StopAudioFrame]) s))
                   else fun s => (Ok false, s)) w1 ->
              exists handled w1,
                trace w1 = (trace w ++ handled)%list
                /\ frames_of handled = []
                /\ disconnects handled = 0%nat
                /\ ((exists e, r = (Raise e, w1))
                    \/ (conversation_done (client w) = false /\ r = (Ok false, w1))
                    \/ (conversation_done (client w) = true
                        /\ r = (Ok true,
                                with_trace (trace w1 ++ [WsSendJson StopAudioFrame; WsClose])
                                  w1)))) as Hdone.
  { intros w1 handled Ht Hf Hd r ->. exists handled, w1.
    destruct (conversation_done (client w)); [| auto 10].
    do 3 (split; [assumption |]). right. right. split; [reflexivity |].
    unfold with_trace. cbn. now rewrite <- app_assoc. }
  assert (forall e w1 handled,
            trace w1 = (trace w ++ handled)%list ->
            frames_of handled = [] -> disconnects handled = 0%nat ->
            exists handled' w1',
              trace w1' = (trace w ++ handled')%list
              /\ frames_of handled' = []
              /\ disconnects handled' = 0%nat
              /\ ((exists e', (Raise e : Result bool, w1) = (Raise e', w1'))
                  \/ (conversation_done (client w) = false
                      /\ (Raise e : Result bool, w1) = (Ok false, w1'))
                  \/ (conversation_done (client w) = true
                      /\ (Raise e : Result bool, w1)
                         = (Ok true,
                            with_trace (trace w1' ++ [WsSendJson StopAudioFrame; WsClose])
                              w1')))) as Hraise.
  { intros e w1 handled Ht Hf Hd. exists handled, w1. eauto 10. }
  unfold server.on_frame, append_input_audio, commit_audio, create_response,
    is_conversation_done, upstream, log, next_fault.
  st_simpl.
  destruct msg as [payload | e]; cbn; [| apply (Hraise e w []); now rewrite ?app_nil_r].
  destruct payload as [| | | | | | |d]; cbn;
    try (apply (Hraise AttributeError w []); now rewrite ?app_nil_r).
  destruct (py_eq_str _ "AudioData"); cbn.
  - destruct (dict_get d "data") as [v|]; cbn;
      [| apply (Hraise KeyError w []); now rewrite ?app_nil_r].
    destruct (Base64.b64decode_obj v) as [bs | e]; cbn;
      [| apply (Hraise e w []); now rewrite ?app_nil_r].
    destruct (connection (client w)); cbn;
      [destruct (faults w) as [|[|] fs]; cbn |];
      first [eapply Hraise | eapply Hdone; cycle 3; [reflexivity | ..]];
      cbn; rewrite <- ?app_assoc; reflexivity.
  - destruct (py_eq_str _ "StopAudio"); cbn;
      [| eapply (Hdone w []); [now rewrite app_nil_r | reflexivity ..]].
    destruct (connection (client w)) eqn:Hconn; cbn; rewrite ?Hconn; cbn;
      [destruct (faults w) as [|[|] fs] eqn:Hf; cbn; rewrite ?Hf, ?Hconn; cbn |];
      try (eapply Hraise; cbn; rewrite <- ?app_assoc; reflexivity);
      try (destruct (_responding (client w)) eqn:Hr; cbn; rewrite ?Hf; cbn;
           try (destruct fs as [|[|] fs']; cbn));
      (eapply Hdone; cycle 3; [reflexivity | ..]);
      cbn; rewrite <- ?app_assoc; reflexivity.
Qed.

(** X18: a frame the loop cannot handle ends the call.  When the text
    does not parse, is not an object, or is an AudioData frame without
    decodable data, the receive loop stops: the client is disconnected, and
    nothing is sent upstream or written to the socket. *)
Theorem unusable_frame_ends_call (g : server.Gateway) (msg : Result pyval) :
  server.receiving g = true ->
  unusable msg ->
  server.receive (server.message msg) g = server.cleanup (server.world g)
  /\ server.receiving (server.receive (server.message msg) g) = false
  /\ calls_of (since (trace (server.world g))
                 (trace (server.world (server.receive (server.message msg) g))))
     = [disconnect_]
  /\ sends_of (since (trace (server.world g))
                 (trace (server.world (server.receive (server.message msg) g))))
     = []
  /\ frames_of (since (trace (server.world g))
                  (trace (server.world (server.receive (server.message msg) g))))
     = [].
Proof.
  intros Hrecv Hbad.
  assert (exists e, server.on_frame msg (server.world g) = (Raise e, server.world g))
    as [e E].
  { unfold server.on_frame. st_simpl.
    destruct Hbad as [[e ->] | [(v & -> & Hv) | (d & -> & Hkind & Hdata)]].
    - eexists. reflexivity.
    - destruct v; try discriminate; eexists; reflexivity.
    - cbn. rewrite Hkind. cbn.
      destruct Hdata as [Hd | (v & e & Hd & Hv)]; rewrite Hd; cbn; rewrite ?Hv;
        eexists; reflexivity. }
  assert (server.receive (server.message msg) g = server.cleanup (server.world g)) as ->.
  { unfold server.receive. now rewrite Hrecv, E. }
  destruct (cleanup_shape (server.world g)) as (teardown & -> & Hc & Hs & Hf & Hr & _).
  rewrite since_app. unfold calls_of, sends_of, frames_of in *. cbn.
  rewrite Hc, Hs, Hf. auto.
Qed.

Lemma unusable_frame_ends_call_witness :
  calls_of
    (since (trace (server.world sample.gateway))
       (trace (server.world
          (server.receive
             (server.message (Ok (PDict [("kind", PStr "AudioData")]))) sample.gateway))))
  = [disconnect_].
Proof.
  apply (unusable_frame_ends_call sample.gateway (Ok (PDict [("kind", PStr "AudioData")]))).
  - vm_compute. reflexivity.
  - right. right. eexists. split; [reflexivity |]. split; [reflexivity |]. left. reflexivity.
Defined.



Lemma disconnects_app (t u : list Action) :
  disconnects (t ++ u) = (disconnects t + disconnects u)%nat.
Proof.
  unfold disconnects, calls_of. now rewrite omap_app, List.filter_app, length_app.
Qed.

(** The event loop never disconnects the client. *)
Lemma deliver_never_disconnects (event : Event) (w : World) :
  exists t, trace (deliver event w) = (trace w ++ t)%list /\ disconnects t = 0%nat.
Proof.
  assert (exists t, trace w = (trace w ++ t)%list /\ disconnects t = 0%nat) as Hquiet
    by (exists []; now rewrite app_nil_r).
  unfold deliver. destruct (consuming w); [| exact Hquiet].
  destruct event as [| transcript | delta | delta | delta | | item | cid | type];
    try exact Hquiet.
  - unfold on_event, append_history, create_response, upstream, log, next_fault.
    st_simpl. destruct (PyStr.nonempty (PyStr.strip transcript)); cbn; [| exact Hquiet].
    destruct (connection (client w) && negb (_responding (client w))); cbn;
      [destruct (faults w) as [|[|] fs]; cbn |];
      rewrite <- ?app_assoc; eexists; split; reflexivity.
  - unfold on_event, send_audio, log. st_simpl.
    destruct (audio_handler (client w)); cbn;
      [destruct (Base64.b64decode delta); cbn |]; try exact Hquiet.
    eexists. split; reflexivity.
  - unfold on_event, append_history, send_text, log. st_simpl.
    destruct (PyStr.nonempty (PyStr.strip (transcript (client w)))); cbn;
      [| exact Hquiet].
    destruct (response_handler (client w)); cbn; [| exact Hquiet].
    eexists. split; reflexivity.
  - unfold on_event. destruct (bool_decide (item_type item = Some "function_call"));
      exact Hquiet.
  - unfold on_event, dispatch, upstream, log, next_fault. st_simpl.
    destruct (pending_tool_calls w !! cid) as [entry|]; cbn; [| exact Hquiet].
    destruct (String.eqb (name entry) "check_payment_status"); cbn;
      destruct (customer_data (client w)) as [| | | | | | |d]; cbn;
      try exact Hquiet;
      try (eexists; split; reflexivity);
      destruct (faults w) as [|[|] [|[|] fs]] eqn:Hf; cbn; rewrite ?Hf; cbn;
      rewrite <- ?app_assoc; eexists; split; reflexivity.
Qed.

(** One step of a call: the client is disconnected exactly when the step
    ends the receive loop, and a loop that has ended stays ended. *)
Lemma step_disconnects (g : server.Gateway) (i : server.Input) :
  exists t,
    trace (server.world (server.step g i)) = (trace (server.world g) ++ t)%list
    /\ disconnects t
       = (if server.receiving g && negb (server.receiving (server.step g i))
          then 1 else 0)%nat
    /\ (server.receiving g = false -> server.receiving (server.step g i) = false).
Proof.
  destruct i as [r | event]; cbn [server.step].
  - unfold server.receive. destruct (server.receiving g) eqn:Hrecv;
      [| exists []; rewrite app_nil_r, Hrecv; auto].
    assert (forall w t,
              trace w = (trace (server.world g) ++ t)%list -> disconnects t = 0%nat ->
              exists t',
                trace (server.world (server.cleanup w))
                = (trace (server.world g) ++ t')%list
                /\ disconnects t' = 1%nat
                /\ server.receiving (server.cleanup w) = false) as Hclean.
    { intros w t Ht Hd.
      destruct (cleanup_shape w) as (teardown & Htrace & Hc & _ & _ & Hr & _).
      exists (t ++ Call disconnect_ :: teardown)%list.
      rewrite Htrace, Ht, <- app_assoc. split; [reflexivity |]. split; [| exact Hr].
      rewrite disconnects_app, Hd. unfold disconnects. cbn. unfold calls_of in Hc.
      now rewrite Hc. }
    destruct r as [| msg].
    + destruct (Hclean (server.world g) []) as (t & Ht & Hd & Hr);
        [now rewrite app_nil_r | reflexivity |].
      exists t. rewrite Hr. auto.
    + destruct (on_frame_shape msg (server.world g))
        as (handled & w1 & Ht & _ & Hd & [[e E] | [[_ E] | [_ E]]]); rewrite E.
      * destruct (Hclean w1 handled Ht Hd) as (t & Ht' & Hd' & Hr).
        exists t. rewrite Hr. auto.
      * exists handled. cbn. auto.
      * destruct (Hclean (with_trace (trace w1 ++ [WsSendJson StopAudioFrame; WsClose]) w1)
                    (handled ++ [WsSendJson StopAudioFrame; WsClose])%list)
          as (t & Ht' & Hd' & Hr).
        { cbn. now rewrite Ht, app_assoc. }
        { rewrite disconnects_app, Hd. reflexivity. }
        exists t. rewrite Hr. auto.
  - destruct (deliver_never_disconnects event (server.world g)) as (t & Ht & Hd).
    exists t. cbn. rewrite Ht, Hd. destruct (server.receiving g); auto.
Qed.

(** X20: the client is disconnected exactly once per call.  Over any
    interleaving of client frames and upstream events on a call whose
    receive loop is running, [disconnect] has been entered once if the loop
    has ended and not at all if it is still running; and a loop that has
    ended does not start again. *)
Theorem disconnect_exactly_once (g : server.Gateway) (inputs : list server.Input) :
  server.receiving g = true ->
  disconnects (since (trace (server.world g))
                 (trace (server.world (server.run inputs g))))
  = (if server.receiving (server.run inputs g) then 0 else 1)%nat.
Proof.
  assert (forall g,
            exists t,
              trace (server.world (server.run inputs g))
              = (trace (server.world g) ++ t)%list
              /\ disconnects t
                 = (if server.receiving g && negb (server.receiving (server.run inputs g))
                    then 1 else 0)%nat
              /\ (server.receiving g = false ->
                  server.receiving (server.run inputs g) = false)) as Hrun.
  { unfold server.run.
    induction inputs as [|i inputs IH]; intros g0; cbn [fold_left].
    - exists []. rewrite app_nil_r. destruct (server.receiving g0); auto.
    - destruct (step_disconnects g0 i) as (t1 & Ht1 & Hd1 & Hs1).
      destruct (IH (server.step g0 i)) as (t2 & Ht2 & Hd2 & Hs2).
      exists (t1 ++ t2)%list. rewrite Ht2, Ht1, <- app_assoc. split; [reflexivity |].
      rewrite disconnects_app, Hd1, Hd2. split.
      + destruct (server.receiving g0); cbn.
        * destruct (server.receiving (server.step g0 i)) eqn:E; cbn; [reflexivity |].
          now rewrite (Hs2 eq_refl).
        * rewrite (Hs1 eq_refl). reflexivity.
      + intros Hoff. apply Hs2, Hs1, Hoff. }
  intros Hrecv. destruct (Hrun g) as (t & -> & Hd & _).
  rewrite since_app, Hd, Hrecv. cbn. now destruct (server.receiving (server.run inputs g)).
Qed.

Lemma disconnect_exactly_once_witness :
  disconnects
    (since (trace (server.world sample.gateway))
       (trace (server.world
          (server.run (sample.farewell ++ [sample.stop_frame; sample.stop_frame;
                                           server.from_client server.closed])
             sample.gateway))))
  = 1%nat.
Proof.
  rewrite (disconnect_exactly_once sample.gateway
             (sample.farewell ++ [sample.stop_frame; sample.stop_frame;
                                  server.from_client server.closed])).
  - vm_compute. reflexivity.
  - vm_compute. reflexivity.
Defined.

(** ** The REST resolver *)

(** The token a login reply carries. *)
Lemma token_of_reply (data token : pyval) :
  (d ← subscript data "data";
   a ← subscript d "authenticationResult";
   subscript a "bdInfoGHKey_1000") = Ok token
  <-> exists d a,
        subscript data "data" = Ok d
        /\ subscript d "authenticationResult" = Ok a
        /\ subscript a "bdInfoGHKey_1000" = Ok token.
Proof.
  split.
  - destruct (subscript data "data") as [d|] eqn:E1; cbn; [| discriminate].
    destruct (subscript d "authenticationResult") as [a|] eqn:E2; cbn; [| discriminate].
    intros E3. eauto.
  - intros (d & a & -> & E2 & E3). cbn. rewrite E2. exact E3.
Qed.

(** X21: [authenticate] returns a token exactly when the backend answers
    the login with a status that is not an error and a JSON object that
    holds a token under data / authenticationResult / bdInfoGHKey_1000; the
    token returned is that one. *)
Theorem authenticate_token_iff `{collekto_data_fetcher.Cipher}
    (username : option string) (password : string) (f : collekto_data_fetcher.Flow)
    (token : pyval) :
  fst (collekto_data_fetcher.authenticate username (Some password) f) = Ok token
  <-> exists r rest data d a,
        collekto_data_fetcher.replies f = Ok r :: rest
        /\ collekto_data_fetcher.is_error r = false
        /\ collekto_data_fetcher.json r = Ok data
        /\ subscript data "data" = Ok d
        /\ subscript d "authenticationResult" = Ok a
        /\ subscript a "bdInfoGHKey_1000" = Ok token.
Proof.
  unfold collekto_data_fetcher.authenticate, collekto_data_fetcher.http,
    collekto_data_fetcher.ok.
  st_simpl. cbn. split.
  - destruct (collekto_data_fetcher.replies f) as [|[r | e] rest]; cbn; try discriminate.
    destruct (collekto_data_fetcher.is_error r) eqn:Herr; cbn; [discriminate |].
    destruct (collekto_data_fetcher.json r) as [data | e] eqn:Hjson; cbn;
      [| case_bool_decide; discriminate].
    match goal with
    | |- context [match ?x with Ok _ => _ | Raise _ => _ end] =>
      destruct x as [t | e] eqn:E; cbn; [| case_bool_decide; discriminate]
    end.
    intros [= ->]. apply token_of_reply in E as (d & a & E1 & E2 & E3).
    exists r, rest, data, d, a. auto 10.
  - intros (r & rest & data & d & a & -> & -> & -> & E1 & E2 & E3). cbn.
    rewrite E1. cbn. rewrite E2. cbn. rewrite E3. reflexivity.
Qed.

Lemma authenticate_token_iff_witness :
  fst (collekto_data_fetcher.authenticate (H := sample.cipher) (Some "agent")
         (Some "secret") (server.backend (sample.server_with [Ok sample.token_reply])))
  = Ok (PStr "token").
Proof.
  apply (authenticate_token_iff (H := sample.cipher) (Some "agent") "secret"
           (server.backend (sample.server_with [Ok sample.token_reply])) (PStr "token")).
  eexists sample.token_reply, [], _, _, _. repeat split; reflexivity.
Defined.

(** X22: how [authenticate] fails.  Without a password it raises
    [AttributeError] before any request is made.  A reply with an error
    status, a body that is not JSON, or a JSON object without the token
    raises [AuthenticationError]; but a body that is JSON and not an object
    raises [TypeError], which the flow does not handle. *)
Theorem authenticate_failures `{collekto_data_fetcher.Cipher}
    (username : option string) (f : collekto_data_fetcher.Flow) :
  collekto_data_fetcher.authenticate username None f = (Raise AttributeError, f)
  /\ (forall password r rest,
        collekto_data_fetcher.replies f = Ok r :: rest ->
        (collekto_data_fetcher.is_error r = true
         \/ collekto_data_fetcher.json r = Raise ValueError
         \/ (exists d, collekto_data_fetcher.json r = Ok (PDict d)
                       /\ dict_get d "data" = None)) ->
        fst (collekto_data_fetcher.authenticate username (Some password) f)
        = Raise AuthenticationError)
  /\ (forall password r rest data,
        collekto_data_fetcher.replies f = Ok r :: rest ->
        collekto_data_fetcher.is_error r = false ->
        collekto_data_fetcher.json r = Ok data ->
        isinstance_dict data = false ->
        fst (collekto_data_fetcher.authenticate username (Some password) f)
        = Raise TypeError).
Proof.
  unfold collekto_data_fetcher.authenticate, collekto_data_fetcher.http,
    collekto_data_fetcher.ok.
  st_simpl. cbn. split; [reflexivity | split].
  - intros password r rest -> Hbad. cbn.
    destruct (collekto_data_fetcher.is_error r); cbn; [reflexivity |].
    destruct Hbad as [Hbad | [-> | (d & -> & Hd)]]; [discriminate | reflexivity |].
    cbn. rewrite Hd. reflexivity.
  - intros password r rest data -> -> -> Hdata. cbn.
    destruct data; try discriminate; reflexivity.
Qed.

Lemma authenticate_failures_witness :
  fst (collekto_data_fetcher.authenticate (H := sample.cipher) (Some "agent")
         (Some "secret")
         (server.backend (sample.server_with [Ok sample.unauthorized])))
  = Raise AuthenticationError
  /\ fst (collekto_data_fetcher.authenticate (H := sample.cipher) (Some "agent")
            (Some "secret")
            (server.backend (sample.server_with [Ok examples.history_reply])))
     = Raise TypeError.
Proof.
  destruct (authenticate_failures (H := sample.cipher) (Some "agent")
              (server.backend (sample.server_with [Ok sample.unauthorized])))
    as (_ & Hauth & _).
  destruct (authenticate_failures (H := sample.cipher) (Some "agent")
              (server.backend (sample.server_with [Ok examples.history_reply])))
    as (_ & _ & Htype).
  split.
  - apply (Hauth "secret" sample.unauthorized []); [reflexivity | left; reflexivity].
  - apply (Htype "secret" examples.history_reply [] (PList [PStr "promise to pay"]));
      reflexivity.
Defined.

(** An accepted login: one request with the encrypted password. *)
Lemma authenticate_accepted `{collekto_data_fetcher.Cipher}
    (username : option string) (password : string)
    (f : collekto_data_fetcher.Flow) (r : collekto_data_fetcher.Response)
    (rest : list (Result collekto_data_fetcher.Response)) (token : pyval) :
  collekto_data_fetcher.replies f = Ok r :: rest ->
  carries_token r token ->
  exists f',
    collekto_data_fetcher.authenticate username (Some password) f = (Ok token, f')
    /\ collekto_data_fetcher.replies f' = rest
    /\ collekto_data_fetcher.requests f'
       = (collekto_data_fetcher.requests f
          ++ [collekto_data_fetcher.post_authenticate username
                (collekto_data_fetcher.aes_ecb_base64 password)])%list
    /\ collekto_data_fetcher.loan_data f' = collekto_data_fetcher.loan_data f
    /\ collekto_data_fetcher.disposition_data f'
       = collekto_data_fetcher.disposition_data f.
Proof.
  intros Hr (data & d & a & [Herr Hjson] & E1 & E2 & E3).
  unfold collekto_data_fetcher.authenticate, collekto_data_fetcher.http,
    collekto_data_fetcher.ok.
  st_simpl. cbn. rewrite Hr. cbn. rewrite Herr. cbn. rewrite Hjson. cbn.
  rewrite E1. cbn. rewrite E2. cbn. rewrite E3. eexists. repeat split.
Qed.

(** The two fetches: one request each; an error status raises [APIError]. *)
Lemma get_loan_by_id_outcome (token : pyval) (loan_id : string)
    (f : collekto_data_fetcher.Flow) (r : collekto_data_fetcher.Response)
    (rest : list (Result collekto_data_fetcher.Response)) :
  collekto_data_fetcher.replies f = Ok r :: rest ->
  exists f',
    collekto_data_fetcher.get_loan_by_id token loan_id f
    = (if collekto_data_fetcher.is_error r then Raise APIError
       else collekto_data_fetcher.json r, f')
    /\ collekto_data_fetcher.replies f' = rest
    /\ collekto_data_fetcher.requests f'
       = (collekto_data_fetcher.requests f
          ++ [collekto_data_fetcher.get_loan token loan_id])%list
    /\ collekto_data_fetcher.loan_data f' = collekto_data_fetcher.loan_data f
    /\ collekto_data_fetcher.disposition_data f'
       = collekto_data_fetcher.disposition_data f.
Proof.
  intros Hr. unfold collekto_data_fetcher.get_loan_by_id, collekto_data_fetcher.http.
  st_simpl. cbn. rewrite Hr. cbn.
  destruct (collekto_data_fetcher.is_error r); cbn; eexists; repeat split.
Qed.

Lemma get_disposition_by_id_outcome (token : pyval) (loan_id : string)
    (f : collekto_data_fetcher.Flow) (r : collekto_data_fetcher.Response)
    (rest : list (Result collekto_data_fetcher.Response)) :
  collekto_data_fetcher.replies f = Ok r :: rest ->
  exists f',
    collekto_data_fetcher.get_disposition_by_id token loan_id f
    = (if collekto_data_fetcher.is_error r then Raise APIError
       else collekto_data_fetcher.json r, f')
    /\ collekto_data_fetcher.replies f' = rest
    /\ collekto_data_fetcher.requests f'
       = (collekto_data_fetcher.requests f
          ++ [collekto_data_fetcher.get_case_history token loan_id])%list
    /\ collekto_data_fetcher.loan_data f' = collekto_data_fetcher.loan_data f
    /\ collekto_data_fetcher.disposition_data f'
       = collekto_data_fetcher.disposition_data f.
Proof.
  intros Hr. unfold collekto_data_fetcher.get_disposition_by_id,
    collekto_data_fetcher.http.
  st_simpl. cbn. rewrite Hr. cbn.
  destruct (collekto_data_fetcher.is_error r); cbn; eexists; repeat split.
Qed.

(** X23: the flow on a backend that answers.  With the login accepted
    and both fetches answered, [run_ltfs_flow] makes three requests, the
    login, the loan and the case history, the last two under the token of
    the first, and returns the pair of the loan and the case history. *)
Theorem run_ltfs_flow_fetches `{collekto_data_fetcher.Cipher}
    (USERNAME PASSWORD username : option string) (password : string)
    (loan_id case_loan_id : string) (f : collekto_data_fetcher.Flow)
    (r1 r2 r3 : collekto_data_fetcher.Response)
    (rest : list (Result collekto_data_fetcher.Response))
    (token loan history : pyval) :
  collekto_data_fetcher.replies f = Ok r1 :: Ok r2 :: Ok r3 :: rest ->
  carries_token r1 token ->
  carries r2 loan ->
  carries r3 history ->
  fst (collekto_data_fetcher.run_ltfs_flow USERNAME PASSWORD username (Some password)
         loan_id case_loan_id f)
  = Ok (PTuple [loan; history])
  /\ collekto_data_fetcher.requests
       (snd (collekto_data_fetcher.run_ltfs_flow USERNAME PASSWORD username
               (Some password) loan_id case_loan_id f))
     = (collekto_data_fetcher.requests f
        ++ [collekto_data_fetcher.post_authenticate username
              (collekto_data_fetcher.aes_ecb_base64 password);
            collekto_data_fetcher.get_loan token loan_id;
            collekto_data_fetcher.get_case_history token case_loan_id])%list.
Proof.
  intros Hr Htoken [Herr2 Hjson2] [Herr3 Hjson3].
  destruct (authenticate_accepted username password
              (collekto_data_fetcher.set_disposition_data (PList [])
                 (collekto_data_fetcher.set_loan_data (PList []) f))
              r1 (Ok r2 :: Ok r3 :: rest) token Hr Htoken)
    as (f1 & E1 & Hr1 & Hq1 & _).
  destruct (get_loan_by_id_outcome token loan_id f1 r2 (Ok r3 :: rest) Hr1)
    as (f2 & E2 & Hr2 & Hq2 & _).
  rewrite Herr2, Hjson2 in E2.
  destruct (get_disposition_by_id_outcome token case_loan_id
              (collekto_data_fetcher.set_loan_data loan f2) r3 rest Hr2)
    as (f3 & E3 & Hr3 & Hq3 & Hl3 & _).
  rewrite Herr3, Hjson3 in E3.
  unfold collekto_data_fetcher.run_ltfs_flow. st_unfold.
  rewrite E1. cbn. rewrite E2. cbn. rewrite E3. cbn.
  rewrite Hl3, Hq3. cbn. rewrite Hq2, Hq1. cbn. rewrite <- !app_assoc. auto.
Qed.

Lemma run_ltfs_flow_fetches_witness :
  fst (collekto_data_fetcher.run_ltfs_flow (H := sample.cipher)
         (Some "default") (Some "default-secret") (Some "agent") (Some "secret")
         "L1" "S1"
         (server.backend
            (sample.server_with [Ok sample.token_reply; Ok examples.loan_reply;
                                 Ok examples.history_reply])))
  = Ok (PTuple [PDict [("loanId", PStr "L1")]; PList [PStr "promise to pay"]]).
Proof.
  apply (run_ltfs_flow_fetches (H := sample.cipher)
           (Some "default") (Some "default-secret") (Some "agent") "secret" "L1" "S1"
           (server.backend
              (sample.server_with [Ok sample.token_reply; Ok examples.loan_reply;
                                   Ok examples.history_reply]))
           sample.token_reply examples.loan_reply examples.history_reply []
           (PStr "token")).
  - reflexivity.
  - eexists _, _, _. repeat split; reflexivity.
  - split; reflexivity.
  - split; reflexivity.
Defined.

(** The fallback after a rejected login, with the default login accepted:
    the unbound name [LOAN_ID] is evaluated. *)
Lemma run_ltfs_flow_fallback_name_error `{collekto_data_fetcher.Cipher}
    (USERNAME username : option string) (PASSWORD password : string)
    (loan_id case_loan_id : string) (f : collekto_data_fetcher.Flow)
    (r1 r2 : collekto_data_fetcher.Response)
    (rest : list (Result collekto_data_fetcher.Response)) (token : pyval) :
  collekto_data_fetcher.replies f = Ok r1 :: Ok r2 :: rest ->
  collekto_data_fetcher.is_error r1 = true ->
  carries_token r2 token ->
  exists f',
    collekto_data_fetcher.run_ltfs_flow USERNAME (Some PASSWORD) username
      (Some password) loan_id case_loan_id f
    = (Raise NameError, f')
    /\ collekto_data_fetcher.requests f'
       = (collekto_data_fetcher.requests f
          ++ [collekto_data_fetcher.post_authenticate username
                (collekto_data_fetcher.aes_ecb_base64 password);
              collekto_data_fetcher.post_authenticate USERNAME
                (collekto_data_fetcher.aes_ecb_base64 PASSWORD)])%list.
Proof.
  intros Hr Herr Htoken.
  assert (exists f1,
            collekto_data_fetcher.authenticate username (Some password)
              (collekto_data_fetcher.set_disposition_data (PList [])
                 (collekto_data_fetcher.set_loan_data (PList []) f))
            = (Raise AuthenticationError, f1)
            /\ collekto_data_fetcher.replies f1 = Ok r2 :: rest
            /\ collekto_data_fetcher.requests f1
               = (collekto_data_fetcher.requests f
                  ++ [collekto_data_fetcher.post_authenticate username
                        (collekto_data_fetcher.aes_ecb_base64 password)])%list)
    as (f1 & E1 & Hr1 & Hq1).
  { unfold collekto_data_fetcher.authenticate, collekto_data_fetcher.http,
      collekto_data_fetcher.ok.
    st_simpl. cbn. rewrite Hr. cbn. rewrite Herr. cbn. eexists. repeat split. }
  destruct (authenticate_accepted USERNAME PASSWORD f1 r2 rest token Hr1 Htoken)
    as (f2 & E2 & _ & Hq2 & _).
  unfold collekto_data_fetcher.run_ltfs_flow. st_unfold.
  rewrite E1. cbn.
  change (bool_decide (AuthenticationError ∈ [AuthenticationError; APIError])) with true.
  cbn. rewrite E2. cbn.
  change (bool_decide (NameError ∈ [AuthenticationError; APIError])) with false.
  cbn. eexists. split; [reflexivity |]. rewrite Hq2, Hq1, <- app_assoc. reflexivity.
Qed.

(** A request that fails in transport: the exception of [requests] is
    none of those the flow handles. *)
Lemma run_ltfs_flow_transport_fails `{collekto_data_fetcher.Cipher}
    (USERNAME PASSWORD username : option string) (password : string)
    (loan_id case_loan_id : string) (f : collekto_data_fetcher.Flow) :
  transport_fails f ->
  fst (collekto_data_fetcher.run_ltfs_flow USERNAME PASSWORD username
         (Some password) loan_id case_loan_id f)
  = Raise RequestException.
Proof.
  intros Hfail.
  unfold collekto_data_fetcher.run_ltfs_flow, collekto_data_fetcher.authenticate,
    collekto_data_fetcher.http.
  st_unfold. cbn.
  destruct Hfail as [-> | [rest ->]]; cbn;
    change (bool_decide (RequestException ∈ [AuthenticationError; APIError])) with false;
    reflexivity.
Qed.

(** X24: the fallback never fetches anything.  When the login of the
    call is rejected and the default login is accepted, the flow evaluates
    the unbound name [LOAN_ID]: it raises [NameError], which it does not
    handle, after the two login requests and no other. *)
Theorem run_ltfs_flow_fallback_accepted `{collekto_data_fetcher.Cipher}
    (USERNAME username : option string) (PASSWORD password : string)
    (loan_id case_loan_id : string) (f : collekto_data_fetcher.Flow)
    (r1 r2 : collekto_data_fetcher.Response)
    (rest : list (Result collekto_data_fetcher.Response)) (token : pyval) :
  collekto_data_fetcher.replies f = Ok r1 :: Ok r2 :: rest ->
  collekto_data_fetcher.is_error r1 = true ->
  carries_token r2 token ->
  fst (collekto_data_fetcher.run_ltfs_flow USERNAME (Some PASSWORD) username
         (Some password) loan_id case_loan_id f)
  = Raise NameError
  /\ collekto_data_fetcher.requests
       (snd (collekto_data_fetcher.run_ltfs_flow USERNAME (Some PASSWORD) username
               (Some password) loan_id case_loan_id f))
     = (collekto_data_fetcher.requests f
        ++ [collekto_data_fetcher.post_authenticate username
              (collekto_data_fetcher.aes_ecb_base64 password);
            collekto_data_fetcher.post_authenticate USERNAME
              (collekto_data_fetcher.aes_ecb_base64 PASSWORD)])%list.
Proof.
  intros Hr Herr Htoken.
  destruct (run_ltfs_flow_fallback_name_error USERNAME username PASSWORD password
              loan_id case_loan_id f r1 r2 rest token Hr Herr Htoken)
    as (f' & -> & Hq).
  auto.
Qed.

Lemma run_ltfs_flow_fallback_accepted_witness :
  fst (collekto_data_fetcher.run_ltfs_flow (H := sample.cipher)
         (Some "default") (Some "default-secret") (Some "agent") (Some "secret")
         "L1" "S1"
         (server.backend
            (sample.server_with [Ok sample.unauthorized; Ok sample.token_reply])))
  = Raise NameError.
Proof.
  apply (run_ltfs_flow_fallback_accepted (H := sample.cipher)
           (Some "default") (Some "agent") "default-secret" "secret" "L1" "S1"
           (server.backend
              (sample.server_with [Ok sample.unauthorized; Ok sample.token_reply]))
           sample.unauthorized sample.token_reply [] (PStr "token")).
  - reflexivity.
  - reflexivity.
  - eexists _, _, _. repeat split; reflexivity.
Defined.

(** C5: the claim holds in mock mode and fails in REST mode, where the
    failure of the resolver does reach the caller of [start_call].  When
    the backend rejects the login of the call and accepts the default login,
    the fallback of the flow evaluates the unbound name [LOAN_ID] and
    [start_call] raises [NameError]; when a request fails in transport,
    [start_call] raises the exception of [requests].  In both cases the call
    stays in the store with the empty metadata it was created with and no
    self-connect is scheduled. *)
Theorem start_call_propagates_resolver_failure `{collekto_data_fetcher.Cipher}
    (env : server.Environ) (now call_id : string) (data : server.CallInitiateModel)
    (s : server.Server) :
  truthy (server.MOCK_COLLEKTO_API env) = false ->
  (default_login_accepted env s ->
   fst (server.start_call env now call_id data s) = Raise NameError
   /\ stored_metadata (snd (server.start_call env now call_id data s)) call_id
      = Some (PDict [])
   /\ server.tasks (snd (server.start_call env now call_id data s)) = server.tasks s)
  /\ (is_Some (server.COLLEKTO_PASSWORD env) ->
      transport_fails (server.backend s) ->
      fst (server.start_call env now call_id data s) = Raise RequestException
      /\ stored_metadata (snd (server.start_call env now call_id data s)) call_id
         = Some (PDict [])
      /\ server.tasks (snd (server.start_call env now call_id data s)) = server.tasks s).
Proof.
  intros Hrest. split.
  - intros (p1 & p2 & r1 & r2 & rest & token & Hp1 & Hp2 & Hr & Herr & Htoken).
    destruct (run_ltfs_flow_fallback_name_error (server.USERNAME env)
                (server.COLLEKTO_USERNAME env) p2 p1 (server.loan_id data)
                (server.system_id data) (server.backend s) r1 r2 rest token
                Hr Herr Htoken) as (f' & E & _).
    unfold server.start_call, server.on_backend, stored_metadata. st_simpl.
    rewrite Hrest, Hp1, Hp2. cbn. rewrite E. cbn.
    rewrite lookup_insert_eq. auto.
  - intros [p1 Hp1] Hfail.
    pose proof (run_ltfs_flow_transport_fails (server.USERNAME env) (server.PASSWORD env)
                  (server.COLLEKTO_USERNAME env) p1 (server.loan_id data)
                  (server.system_id data) (server.backend s) Hfail) as E.
    unfold server.start_call, server.on_backend, stored_metadata. st_simpl.
    rewrite Hrest, Hp1. cbn.
    destruct (collekto_data_fetcher.run_ltfs_flow _ _ _ _ _ _ _) as [r f'].
    cbn in E. subst r. cbn. rewrite lookup_insert_eq. auto.
Qed.

Lemma start_call_propagates_resolver_failure_witness :
  fst (server.start_call (H := sample.cipher) sample.rest_env "now" "call-1"
         sample.request
         (sample.server_with [Ok sample.unauthorized; Ok sample.token_reply]))
  = Raise NameError
  /\ fst (server.start_call (H := sample.cipher) sample.rest_env "now" "call-1"
            sample.request (sample.server_with []))
     = Raise RequestException.
Proof.
  destruct (start_call_propagates_resolver_failure (H := sample.cipher) sample.rest_env
              "now" "call-1" sample.request
              (sample.server_with [Ok sample.unauthorized; Ok sample.token_reply])
              eq_refl) as [Hname _].
  destruct (start_call_propagates_resolver_failure (H := sample.cipher) sample.rest_env
              "now" "call-1" sample.request (sample.server_with []) eq_refl)
    as [_ Htransport].
  split.
  - apply Hname.
    exists "secret", "default-secret", sample.unauthorized, sample.token_reply, [],
      (PStr "token").
    repeat split; try reflexivity. eexists _, _, _. repeat split; reflexivity.
  - apply Htransport; [eexists; reflexivity | left; reflexivity].
Defined.


(** ** The front-end client against the gateway *)

Lemma b64encode_nonempty (bs : list byte) :
  bs <> [] -> PyStr.nonempty (Base64.b64encode bs) = true.
Proof. destruct bs as [|b1 [|b2 [|b3 rest]]]; [contradiction | reflexivity ..]. Qed.



(** X26: audio from the model reaches the front-end unchanged.  For an
    audio delta that decodes to a non-empty chunk, the frame the event loop
    writes to the socket, read by a front-end client that is receiving, is
    played as exactly that chunk and changes nothing else. *)
Theorem model_audio_reaches_client `{Formatting} (w : World) (c : app_gcp.WSClient)
    (delta : string) (audio_bytes : list byte) :
  consuming w = true ->
  audio_handler (client w) = true ->
  Base64.b64decode delta = Ok audio_bytes ->
  audio_bytes <> [] ->
  app_gcp.receiving c = true ->
  app_gcp.closing c = false ->
  exists frame,
    frames_of (since (trace w) (trace (deliver (response_audio_delta delta) w)))
    = [frame]
    /\ app_gcp.recv (Ok (frame_json frame)) c
       = snd (app_gcp.put (app_gcp.play_audio audio_bytes) c).
Proof.
  intros Hc Hh Hdec Hne Hrecv Hclosing.
  exists (AudioDataFrame (Base64.b64encode audio_bytes)). split.
  - unfold deliver. rewrite Hc. unfold on_event, send_audio, log. st_simpl.
    rewrite Hh. cbn. rewrite Hdec. cbn. since_added. reflexivity.
  - destruct c as [ws connected closing receiving outputs socket].
    cbn in Hrecv, Hclosing. subst.
    unfold app_gcp.recv, app_gcp.on_message, app_gcp.put. st_simpl. cbn.
    rewrite (b64encode_nonempty _ Hne). cbn.
    rewrite (b64decode_b64encode audio_bytes). reflexivity.
Qed.

Lemma model_audio_reaches_client_witness :
  exists frame,
    frames_of (since (trace sample.live)
                 (trace (deliver (response_audio_delta "QUJD") sample.live)))
    = [frame]
    /\ app_gcp.outputs
         (app_gcp.recv (H := sample.formatting) (Ok (frame_json frame))
            examples.front_end)
       = [app_gcp.play_audio ["A"; "B"; "C"]%byte].
Proof.
  assert (Base64.b64decode "QUJD" = Ok ["A"; "B"; "C"]%byte) as Hdec
    by (vm_compute; reflexivity).
  destruct (model_audio_reaches_client (H := sample.formatting) sample.live examples.front_end "QUJD"
              ["A"; "B"; "C"]%byte eq_refl eq_refl Hdec ltac:(discriminate)
              eq_refl eq_refl) as (frame & Hf & Hr).
  exists frame. split; [exact Hf |]. rewrite Hr. reflexivity.
Defined.

(** X27: the assistant's text never reaches the chat.  The gateway
    writes the text of a Text frame under the key "text", the front-end
    reads the key "data": whatever the text and the state of the client,
    handling the frame shows nothing, and a client that is receiving is left
    exactly as it was. *)
Theorem assistant_text_never_shown `{Formatting} (text : string) (c : app_gcp.WSClient) :
  app_gcp.outputs (app_gcp.recv
                     (Ok (frame_json (TextFrame text))) c)
  = app_gcp.outputs c
  /\ (app_gcp.receiving c = true -> app_gcp.closing c = false ->
      app_gcp.recv (Ok (frame_json (TextFrame text))) c = c).
Proof.
  unfold app_gcp.recv, app_gcp.on_message. st_simpl.
  destruct (app_gcp.receiving c); cbn; [| split; [reflexivity | discriminate]].
  destruct (app_gcp.closing c); cbn; split; try reflexivity; discriminate.
Qed.

Lemma assistant_text_never_shown_witness :
  app_gcp.recv (H := sample.formatting)
    (Ok (frame_json (TextFrame "Namaste, Ravi ji."))) examples.front_end
  = examples.front_end.
Proof.
  apply (assistant_text_never_shown (H := sample.formatting) "Namaste, Ravi ji."
           examples.front_end);
    reflexivity.
Defined.

(** X28: the server's stop frame ends the front-end session.  A client
    that is receiving shows the closing message once and becomes inactive;
    from then on [send_audio] returns [False] without writing to the socket,
    [stop] does nothing, and no further frame is handled. *)
Theorem server_stop_ends_session `{Formatting} (c : app_gcp.WSClient) :
  app_gcp.receiving c = true ->
  app_gcp.closing c = false ->
  app_gcp.outputs (app_gcp.recv
                     (Ok (frame_json StopAudioFrame)) c)
  = (app_gcp.outputs c
     ++ [app_gcp.show_message "Connection closed by server. Session ended."])%list
  /\ app_gcp.connected (app_gcp.recv
                          (Ok (frame_json StopAudioFrame)) c) = false
  /\ (forall audio_bytes,
        app_gcp.send_audio audio_bytes
          (app_gcp.recv (Ok (frame_json StopAudioFrame)) c)
        = (Ok false,
           app_gcp.recv (Ok (frame_json StopAudioFrame)) c))
  /\ app_gcp.stop
       (app_gcp.recv (Ok (frame_json StopAudioFrame)) c)
     = (Ok tt, app_gcp.recv (Ok (frame_json StopAudioFrame)) c)
  /\ (forall message,
        app_gcp.recv message
          (app_gcp.recv (Ok (frame_json StopAudioFrame)) c)
        = app_gcp.recv (Ok (frame_json StopAudioFrame)) c).
Proof.
  intros Hrecv Hclosing.
  destruct c as [ws connected closing receiving outputs socket].
  cbn in Hrecv, Hclosing. subst.
  assert (app_gcp.recv (Ok (frame_json StopAudioFrame))
            {| app_gcp.ws := ws; app_gcp.connected := connected;
               app_gcp.closing := false; app_gcp.receiving := true;
               app_gcp.outputs := outputs; app_gcp.socket := socket |}
          = {| app_gcp.ws := ws; app_gcp.connected := false;
               app_gcp.closing := true; app_gcp.receiving := false;
               app_gcp.outputs :=
                 (outputs ++ [app_gcp.show_message
                                "Connection closed by server. Session ended."])%list;
               app_gcp.socket := socket |}) as ->
    by reflexivity.
  split; [reflexivity |]. split; [reflexivity |]. split; [| split].
  - intros audio_bytes. unfold app_gcp.send_audio. st_simpl. cbn.
    now rewrite !orb_true_r.
  - unfold app_gcp.stop. st_simpl. cbn. now rewrite !andb_false_r.
  - reflexivity.
Qed.

Lemma server_stop_ends_session_witness :
  app_gcp.outputs (app_gcp.recv (H := sample.formatting)
                     (Ok (frame_json StopAudioFrame)) examples.front_end)
  = [app_gcp.show_message "Connection closed by server. Session ended."].
Proof.
  apply (server_stop_ends_session (H := sample.formatting) examples.front_end);
    reflexivity.
Defined.



(** ** Cleaning a record *)

(** X30: [clean_nans] keeps the keys of the record in their order, puts
    [None] where a value is a float NaN and keeps every other value, so that
    no NaN is left, and cleaning a second time changes nothing. *)
Theorem clean_nans_spec (d : list (string * pyval)) :
  map fst (server.clean_nans d) = map fst d
  /\ (forall k,
        dict_get (server.clean_nans d) k
        = (fun v => if server.is_nan v then PNone else v) <$> dict_get d k)
  /\ Forall (fun kv => server.is_nan (snd kv) = false) (server.clean_nans d)
  /\ server.clean_nans (server.clean_nans d) = server.clean_nans d.
Proof.
  assert (forall v, server.is_nan (if server.is_nan v then PNone else v) = false) as Hclean
    by (intros v; destruct (server.is_nan v) eqn:E; [reflexivity | exact E]).
  unfold server.clean_nans. repeat split.
  - rewrite map_map. reflexivity.
  - intros k. induction d as [|[k' v] d IH]; [reflexivity |]. cbn.
    destruct (String.eqb k' k); [reflexivity | exact IH].
  - apply Forall_map. apply Forall_forall. intros kv _. apply Hclean.
  - rewrite map_map. apply map_ext. intros [k v]. cbn. now rewrite Hclean.
Qed.
